(** * Application météo: entitlement, checkout confirmation, favourites
      and the authentication facade

    A shallow embedding of the request handlers and client services of the
    weather application, together with the properties its specification
    states about them.

    - [pages/api/users/premium-status.js]       -> [PremiumStatus.handler]
    - [pages/api/checkout_sessions.js]          -> [CheckoutCreate.handler]
    - [pages/api/checkout-sessions/[session_id].js] -> [CheckoutConfirm.handler]
    - the favourites API route                  -> [FavorisApi.handler]
    - [lib/favorisService.js]                   -> [FavorisService.ajouterFavori]
    - [lib/demoAuth.js], the auth context       -> [DemoAuth], [AuthProvider]
    - [pages/success.js]                        -> [Success]

    The handlers are asynchronous JavaScript functions that talk to two
    remote services (the Supabase tables and the Stripe API).  They are
    embedded in a small monad [M] that threads the contents of the remote
    stores, records every remote call in a trace, and lets a call either
    answer from the store, answer with an error object, or reject (throw),
    as decided by a fault plan of the environment. *)

From Stdlib Require Import ZArith Ascii String List Bool Lia DecimalString.
From stdpp Require Import base option list gmap strings.

Local Open Scope string_scope.
Set Warnings "-register-all".

(** ** JavaScript values the handlers compute with *)

Module JS.

(** A request parameter, a row column or an SDK field that holds either a
    string or [undefined]/[null]. *)
Definition value := option string.

(** [!!v] for such a value: [undefined], [null] and the empty string are
    falsy. *)
Definition truthy (v : value) : bool :=
  match v with
  | Some s => negb (String.eqb s EmptyString)
  | None => false
  end.

(** A value that passed an [if (!x) return ...] guard, or took the
    [if (x)] branch. *)
Definition required (v : value) : option string :=
  if truthy v then v else None.

(** [hay.includes(needle)]. *)
Fixpoint includes (hay needle : string) : bool :=
  if String.prefix needle hay then true
  else match hay with
       | EmptyString => false
       | String _ rest => includes rest needle
       end.

(** JSON documents sent with [res.json(...)].  [JDate t] is a string that
    denotes the instant [t]: [new Date(t).toISOString()], or a timestamp
    column as the database renders it.  Keeping the time value instead of
    its rendering loses nothing: the handlers only pass such strings on,
    or parse them back with [new Date(...)]. *)
Inductive json : Type :=
| JNull
| JBool (b : bool)
| JNum (n : Z)
| JStr (s : string)
| JDate (t : Z)
| JArr (items : list json)
| JObj (fields : list (string * json)).

(** [doc.key]; [None] is [undefined] (key absent, or [doc] not an
    object). *)
Fixpoint assoc (key : string) (fields : list (string * json)) : option json :=
  match fields with
  | [] => None
  | (k, v) :: rest => if String.eqb k key then Some v else assoc key rest
  end.

Definition field (key : string) (doc : json) : option json :=
  match doc with
  | JObj fields => assoc key fields
  | _ => None
  end.

(** A string-or-null column rendered in a JSON document. *)
Definition jvalue (v : value) : json :=
  match v with Some s => JStr s | None => JNull end.

(** An object literal some of whose properties may be [undefined]:
    [JSON.stringify] leaves those keys out. *)
Definition jobject (props : list (string * option json)) : json :=
  JObj (omap (λ kv, match snd kv with
                    | Some v => Some (fst kv, v)
                    | None => None
                    end) props).

(** *** [Date]: time values, local time, [getDate] and [setDate]

    Time values are milliseconds since the epoch.  The definitions are
    those of ECMA-262 (Day, TimeWithinDay, DayFromYear, YearFromTime,
    MonthFromTime, DateFromTime, MakeDay, MakeDate, LocalTime, UTC); the
    host's time zone enters through [LocalTZA]. *)

Definition msPerDay : Z := 86400000.
Definition Day (t : Z) : Z := t / msPerDay.
Definition TimeWithinDay (t : Z) : Z := t mod msPerDay.

Definition DaysInYear (y : Z) : Z :=
  if (y mod 4 =? 0)%Z && (negb (y mod 100 =? 0)%Z || (y mod 400 =? 0)%Z)
  then 366 else 365.

Definition DayFromYear (y : Z) : Z :=
  365 * (y - 1970) + (y - 1969) / 4 - (y - 1901) / 100 + (y - 1601) / 400.

(** The largest [y] with [DayFromYear y <= d], searched upwards from a
    year that is not after it. *)
Fixpoint year_search (fuel : nat) (d y : Z) : Z :=
  match fuel with
  | O => y
  | S fuel' => if (DayFromYear (y + 1) <=? d)%Z
               then year_search fuel' d (y + 1) else y
  end.

Definition YearFromTime (t : Z) : Z :=
  let d := Day t in
  let y0 := (1970 + (if (0 <=? d)%Z then d / 366 else d / 365))%Z in
  year_search (Z.to_nat (Z.abs d / 100000) + 2) d y0.

Definition InLeapYear (t : Z) : Z :=
  if (DaysInYear (YearFromTime t) =? 366)%Z then 1 else 0.

Definition DayWithinYear (t : Z) : Z := Day t - DayFromYear (YearFromTime t).

(** Day number, within its year, of the first day of month [m] (0..11);
    [leap] is 1 in a leap year and 0 otherwise. *)
Definition month_start (m leap : Z) : Z :=
  if (m <=? 0)%Z then 0
  else if (m =? 1)%Z then 31
  else if (m =? 2)%Z then 59 + leap
  else if (m =? 3)%Z then 90 + leap
  else if (m =? 4)%Z then 120 + leap
  else if (m =? 5)%Z then 151 + leap
  else if (m =? 6)%Z then 181 + leap
  else if (m =? 7)%Z then 212 + leap
  else if (m =? 8)%Z then 243 + leap
  else if (m =? 9)%Z then 273 + leap
  else if (m =? 10)%Z then 304 + leap
  else 334 + leap.

Definition MonthFromTime (t : Z) : Z :=
  let d := DayWithinYear t in
  let leap := InLeapYear t in
  if (d <? 31)%Z then 0
  else if (d <? 59 + leap)%Z then 1
  else if (d <? 90 + leap)%Z then 2
  else if (d <? 120 + leap)%Z then 3
  else if (d <? 151 + leap)%Z then 4
  else if (d <? 181 + leap)%Z then 5
  else if (d <? 212 + leap)%Z then 6
  else if (d <? 243 + leap)%Z then 7
  else if (d <? 273 + leap)%Z then 8
  else if (d <? 304 + leap)%Z then 9
  else if (d <? 334 + leap)%Z then 10
  else 11.

Definition DateFromTime (t : Z) : Z :=
  DayWithinYear t - month_start (MonthFromTime t) (InLeapYear t) + 1.

Definition MakeDay (year month date : Z) : Z :=
  let ym := (year + month / 12)%Z in
  let mn := (month mod 12)%Z in
  let leap := if (DaysInYear ym =? 366)%Z then 1%Z else 0%Z in
  DayFromYear ym + month_start mn leap + date - 1.

Definition MakeDate (day time : Z) : Z := day * msPerDay + time.

(** [n] written with [width] decimal digits, zero-padded. *)
Fixpoint digits (width : nat) (n : Z) : string :=
  match width with
  | O => EmptyString
  | S w =>
      digits w (n / 10)
      +:+ String (ascii_of_nat (48 + Z.to_nat (n mod 10))) EmptyString
  end.

(** [new Date(t).toISOString()], in UTC. *)
Definition toISOString (t : Z) : string :=
  let y := YearFromTime t in
  let year :=
    if (0 <=? y)%Z && (y <=? 9999)%Z then digits 4 y
    else (if (y <? 0)%Z then "-" else "+") +:+ digits 6 (Z.abs y) in
  year +:+ "-" +:+ digits 2 (MonthFromTime t + 1)
       +:+ "-" +:+ digits 2 (DateFromTime t)
       +:+ "T" +:+ digits 2 ((t / 3600000) mod 24)
       +:+ ":" +:+ digits 2 ((t / 60000) mod 60)
       +:+ ":" +:+ digits 2 ((t / 1000) mod 60)
       +:+ "." +:+ digits 3 (t mod 1000) +:+ "Z".

(** *** The regular expression [/^[^\s@]+@[^\s@]+\.[^\s@]+$/] *)

Definition bytes (l : list nat) : string :=
  foldr (λ n s, String (ascii_of_nat n) s) EmptyString l.

(** The characters of class [\s], in UTF-8. *)
Definition whitespace : list string :=
  [ bytes [9]; bytes [10]; bytes [11]; bytes [12]; bytes [13]; bytes [32];
    bytes [194; 160]; bytes [225; 154; 128];
    bytes [226; 128; 128]; bytes [226; 128; 129]; bytes [226; 128; 130];
    bytes [226; 128; 131]; bytes [226; 128; 132]; bytes [226; 128; 133];
    bytes [226; 128; 134]; bytes [226; 128; 135]; bytes [226; 128; 136];
    bytes [226; 128; 137]; bytes [226; 128; 138];
    bytes [226; 128; 168]; bytes [226; 128; 169]; bytes [226; 128; 175];
    bytes [226; 129; 159]; bytes [227; 128; 128]; bytes [239; 187; 191] ].

(** Every character of [s] is in [[^\s@]]. *)
Definition no_space_no_at (s : string) : bool :=
  negb (includes s "@") && forallb (λ w, negb (includes s w)) whitespace.

(** [s] cut at its first [c]. *)
Fixpoint cut (c : ascii) (s : string) : option (string * string) :=
  match s with
  | EmptyString => None
  | String d rest =>
      if Ascii.eqb c d then Some (EmptyString, rest)
      else match cut c rest with
           | Some (a, b) => Some (String d a, b)
           | None => None
           end
  end.

(** [s] has a dot that is neither its first nor its last character. *)
Definition inner_dot (s : string) : bool :=
  match s with
  | EmptyString => false
  | String _ rest =>
      (fix go (r : string) : bool :=
         match r with
         | EmptyString => false
         | String c r' =>
             (Ascii.eqb c "."%char && negb (String.eqb r' EmptyString)) || go r'
         end) rest
  end.

Definition emailRegex_test (s : string) : bool :=
  match cut "@"%char s with
  | Some (local_part, domain) =>
      negb (String.eqb local_part EmptyString)
      && no_space_no_at local_part
      && no_space_no_at domain
      && inner_dot domain
  | None => false
  end.

Section LocalClock.
(** [LocalTZA t isUTC]: the offset of the host's local time from UTC,
    in milliseconds, at UTC time [t] ([isUTC = true]) or at local time
    [t] ([isUTC = false]). *)
Variable LocalTZA : Z → bool → Z.

Definition LocalTime (t : Z) : Z := t + LocalTZA t true.
Definition UTC (t : Z) : Z := t - LocalTZA t false.

(** [d.getDate()] for [d] of time value [t]. *)
Definition getDate (t : Z) : Z := DateFromTime (LocalTime t).

(** The time value of [d] after [d.setDate(dt)]. *)
Definition setDate (t dt : Z) : Z :=
  let lt := LocalTime t in
  let newDate :=
    MakeDate (MakeDay (YearFromTime lt) (MonthFromTime lt) dt)
             (TimeWithinDay lt) in
  UTC newDate.
End LocalClock.

End JS.

Export JS.

(** ** The remote services: Supabase tables and the Stripe API *)

Module Remote.

(** The [error] object of a Supabase reply. *)
Record db_error := { code : string; message : string }.

(** A thrown value as a [catch] block sees it: [error.type] and
    [error.message], either of which may be [undefined]. *)
Record exn := { exn_type : value; exn_message : value }.

(** A row of table [user].  Only the columns that the handlers below
    read or write are kept; [premium_expires_at] is a timestamp column,
    held as the time value that [new Date(...)] makes of it. *)
Record user_row := {
  u_id : string;
  u_email : string;
  is_premium : option bool;
  premium_expires_at : option Z;
  stripe_customer_id : value
}.

(** The object handed to [.update(...)]: [None] is a key that the
    object does not have. *)
Record user_patch := {
  set_is_premium : option bool;
  set_premium_expires_at : option Z;
  set_stripe_customer_id : option value
}.

Definition apply_patch (p : user_patch) (r : user_row) : user_row :=
  {| u_id := u_id r;
     u_email := u_email r;
     is_premium :=
       match set_is_premium p with Some b => Some b | None => is_premium r end;
     premium_expires_at :=
       match set_premium_expires_at p with
       | Some t => Some t
       | None => premium_expires_at r
       end;
     stripe_customer_id :=
       match set_stripe_customer_id p with
       | Some c => c
       | None => stripe_customer_id r
       end |}.

(** A row of table [favorie] (server side). *)
Record favorie_row := {
  f_id : string;
  f_user_id : value;
  f_ville : string;
  f_created_at : Z
}.

(** A row of table [favoris] (used by [favorisService]); its column
    [id] holds the owning user's identifier. *)
Record favoris_row := {
  fs_id : string;
  fs_ville : string;
  fs_created_at : Z
}.

(** A Stripe Checkout Session, as far as the handlers look at it ([created]
    is only logged and is left out). *)
Record session := {
  s_id : string;
  s_url : value;
  payment_status : string;
  customer_email : value;
  customer : value;
  amount_total : option Z;
  currency : value;
  metadata : gmap string string
}.

(** Every remote call a handler can make. *)
Inductive call :=
| StripeCreate (metadata : gmap string string) (customer_email : string)
| StripeRetrieve (session_id : string)
| UserSelectById (id : string)
| UserSelectByEmail (email : string)
| UserUpdate (id : string) (patch : user_patch)
| FavorieProbe
| FavorieList (user_id : value)
| FavorieCount (user_id : string)
| FavorieInsert (user_id : value) (ville : string)
| FavorieDeleteById (id : string)
| FavorieDeleteByVille (ville : string) (user_id : value)
| FavorisSelect (user_id : string)
| FavorisInsert (user_id : string) (ville : string).

(** What the environment does to a call: let the service answer from
    its contents, make it answer with an error object, or make the
    awaited promise reject. *)
Inductive fault :=
| Proceed
| Fail (e : db_error)
| Reject (x : exn).

(** The environment of one request; the clock is read as not advancing
    while the request is handled. *)
Record env := {
  clock : Z;                      (* the value of [new Date()] *)
  LocalTZA : Z → bool → Z;        (* the server's time zone *)
  faults : call → fault;
  fresh_session : string;         (* the id Stripe gives the next session *)
  fresh_row : string              (* the id the database gives the next row *)
}.

Record store := {
  tbl_user : list user_row;
  tbl_favorie : list favorie_row;
  tbl_favoris : list favoris_row;
  stripe_sessions : list session;
  trace : list call
}.

Definition log (c : call) (st : store) : store :=
  {| tbl_user := tbl_user st;
     tbl_favorie := tbl_favorie st;
     tbl_favoris := tbl_favoris st;
     stripe_sessions := stripe_sessions st;
     trace := trace st ++ [c] |}.

Definition with_user (rows : list user_row) (st : store) : store :=
  {| tbl_user := rows;
     tbl_favorie := tbl_favorie st;
     tbl_favoris := tbl_favoris st;
     stripe_sessions := stripe_sessions st;
     trace := trace st |}.

Definition with_favorie (rows : list favorie_row) (st : store) : store :=
  {| tbl_user := tbl_user st;
     tbl_favorie := rows;
     tbl_favoris := tbl_favoris st;
     stripe_sessions := stripe_sessions st;
     trace := trace st |}.

Definition with_favoris (rows : list favoris_row) (st : store) : store :=
  {| tbl_user := tbl_user st;
     tbl_favorie := tbl_favorie st;
     tbl_favoris := rows;
     stripe_sessions := stripe_sessions st;
     trace := trace st |}.

Definition with_sessions (ss : list session) (st : store) : store :=
  {| tbl_user := tbl_user st;
     tbl_favorie := tbl_favorie st;
     tbl_favoris := tbl_favoris st;
     stripe_sessions := ss;
     trace := trace st |}.

(** *** The monad of handlers *)

Inductive result (A : Type) :=
| Val (a : A)
| Raise (x : exn).
Arguments Val {A} a.
Arguments Raise {A} x.

Definition M (A : Type) : Type := env → store → result A * store.

#[global] Instance M_ret : MRet M := λ A a _ st, (Val a, st).

#[global] Instance M_bind : MBind M := λ A B f m e st,
  match m e st with
  | (Val a, st') => f a e st'
  | (Raise x, st') => (Raise x, st')
  end.

Definition throw {A} (x : exn) : M A := λ _ st, (Raise x, st).

(** [try { m } catch (error) { h error }] *)
Definition try_catch {A} (m : M A) (h : exn → M A) : M A := λ e st,
  match m e st with
  | (Raise x, st') => h x e st'
  | r => r
  end.

Definition ask : M env := λ e st, (Val e, st).

(** [new Date()] *)
Definition new_Date : M Z := λ e st, (Val (clock e), st).

(** *** Supabase *)

(** The [{ data, error }] pair a query resolves to. *)
Record reply (A : Type) := { data : option A; error : option db_error }.
Arguments data {A} r.
Arguments error {A} r.

Definition answer {A} (a : A) : reply A := {| data := Some a; error := None |}.
Definition failed {A} (e : db_error) : reply A := {| data := None; error := Some e |}.
Definition done_ : reply unit := {| data := None; error := None |}.

(** [await] of a Supabase query: the call is logged, then the fault plan
    decides. *)
Definition query_ {A} (c : call) (run : env → store → reply A * store)
  : M (reply A) :=
  λ e st,
    let st1 := log c st in
    match faults e c with
    | Proceed => let '(r, st2) := run e st1 in (Val r, st2)
    | Fail err => (Val (failed err), st1)
    | Reject x => (Raise x, st1)
    end.

Definition PGRST116 : db_error :=
  {| code := "PGRST116";
     message := "JSON object requested, multiple (or no) rows returned" |}.

(** [.single()]: exactly one row, or error PGRST116. *)
Definition single {A} (rows : list A) : reply A :=
  match rows with
  | [r] => answer r
  | _ => failed PGRST116
  end.

(** [from("user").select(...).eq("id", id).single()] *)
Definition user_by_id (id : string) : M (reply user_row) :=
  query_ (UserSelectById id)
    (λ _ st, (single (filter (λ r, u_id r = id) (tbl_user st)), st)).

(** [from("user").select("id").eq("email", email).single()] *)
Definition user_by_email (email : string) : M (reply user_row) :=
  query_ (UserSelectByEmail email)
    (λ _ st, (single (filter (λ r, u_email r = email) (tbl_user st)), st)).

Definition patch_rows (id : string) (p : user_patch) (rows : list user_row)
  : list user_row :=
  (λ r, if decide (u_id r = id) then apply_patch p r else r) <$> rows.

(** [from("user").update(patch).eq("id", id)] *)
Definition user_update (id : string) (p : user_patch) : M (reply unit) :=
  query_ (UserUpdate id p)
    (λ _ st, (done_, with_user (patch_rows id p (tbl_user st)) st)).

(** Rows of [favorie] owned by [user_id]: [.eq("user_id", user_id)]. *)
Definition favorie_of (user_id : string) (rows : list favorie_row)
  : list favorie_row :=
  filter (λ r, f_user_id r = Some user_id) rows.

(** [from("favorie").select("id").limit(1)] *)
Definition favorie_probe : M (reply (list favorie_row)) :=
  query_ FavorieProbe (λ _ st, (answer (take 1 (tbl_favorie st)), st)).

(** Insertion of [x] into a list that is ordered most recent first. *)
Fixpoint insert_recent (x : favorie_row) (rows : list favorie_row)
  : list favorie_row :=
  match rows with
  | [] => [x]
  | y :: rest =>
      if (f_created_at y <=? f_created_at x)%Z then x :: rows
      else y :: insert_recent x rest
  end.

(** [.order("created_at", { ascending: false })] *)
Definition most_recent_first (rows : list favorie_row) : list favorie_row :=
  foldr insert_recent [] rows.

(** [from("favorie").select("*").order(...)], with [.eq("user_id", ...)]
    when a user is given. *)
Definition favorie_list (user_id : value) : M (reply (list favorie_row)) :=
  query_ (FavorieList user_id)
    (λ _ st,
       let rows := most_recent_first (tbl_favorie st) in
       (answer (match required user_id with
                | Some u => favorie_of u rows
                | None => rows
                end), st)).

(** [from("favorie").select("id").eq("user_id", user_id)] *)
Definition favorie_count (user_id : string) : M (reply (list favorie_row)) :=
  query_ (FavorieCount user_id)
    (λ _ st, (answer (favorie_of user_id (tbl_favorie st)), st)).

(** [from("favorie").insert([insertData]).select().single()]; the
    database supplies the row's id and creation time.  Which constraints
    table [favorie] carries is not part of the repository: a rejected
    insertion is a [Fail] of the fault plan. *)
Definition favorie_insert (user_id : value) (ville : string)
  : M (reply favorie_row) :=
  query_ (FavorieInsert user_id ville)
    (λ e st,
       let row := {| f_id := fresh_row e; f_user_id := user_id;
                     f_ville := ville; f_created_at := clock e |} in
       (answer row, with_favorie (tbl_favorie st ++ [row]) st)).

(** [from("favorie").delete().eq(...).select().single()]: the matching
    rows are deleted, and [.single()] then wants exactly one of them. *)
Definition favorie_delete (c : call) (P : favorie_row → Prop)
  `{∀ r, Decision (P r)} : M (reply favorie_row) :=
  query_ c
    (λ _ st,
       (single (filter P (tbl_favorie st)),
        with_favorie (filter (λ r, ¬ P r) (tbl_favorie st)) st)).

(** Rows of [favoris] owned by [user_id]: [.eq("id", user_id)]. *)
Definition favoris_of (user_id : string) (rows : list favoris_row)
  : list favoris_row :=
  filter (λ r, fs_id r = user_id) rows.

(** [from("favoris").select("ville").eq("id", userId)] *)
Definition favoris_select (user_id : string) : M (reply (list favoris_row)) :=
  query_ (FavorisSelect user_id)
    (λ _ st, (answer (favoris_of user_id (tbl_favoris st)), st)).

(** [from("favoris").insert([{ id: userId, ville }]).select()] *)
Definition favoris_insert (user_id ville : string)
  : M (reply (list favoris_row)) :=
  query_ (FavorisInsert user_id ville)
    (λ e st,
       let row := {| fs_id := user_id; fs_ville := ville;
                     fs_created_at := clock e |} in
       (answer [row], with_favoris (tbl_favoris st ++ [row]) st)).

(** *** Stripe

    The Stripe SDK reports every failure by rejecting: a [Fail] of the
    fault plan is thrown as an error whose [type] is the error's code. *)
Definition stripe_ {A} (c : call) (run : env → store → result A * store) : M A :=
  λ e st,
    let st1 := log c st in
    match faults e c with
    | Proceed => run e st1
    | Fail err =>
        (Raise {| exn_type := Some (code err);
                  exn_message := Some (message err) |}, st1)
    | Reject x => (Raise x, st1)
    end.

(** [stripe.checkout.sessions.create({...})]: a one-off payment of
    9,99 EUR, not paid yet.  Of the parameters only the metadata and the
    customer e-mail vary from one request to the next. *)
Definition sessions_create (meta : gmap string string) (email : string)
  : M session :=
  stripe_ (StripeCreate meta email)
    (λ e st,
       let s := {| s_id := fresh_session e;
                   s_url := Some ("https://checkout.stripe.com/c/pay/"
                                  +:+ fresh_session e);
                   payment_status := "unpaid";
                   customer_email := Some email;
                   customer := None;
                   amount_total := Some 999%Z;
                   currency := Some "eur";
                   metadata := meta |} in
       (Val s, with_sessions (stripe_sessions st ++ [s]) st)).

(** [stripe.checkout.sessions.retrieve(session_id)] *)
Definition sessions_retrieve (session_id : string) : M session :=
  stripe_ (StripeRetrieve session_id)
    (λ _ st,
       match filter (λ s, s_id s = session_id) (stripe_sessions st) with
       | s :: _ => (Val s, st)
       | [] =>
           (Raise {| exn_type := Some "StripeInvalidRequestError";
                     exn_message := Some ("No such checkout.session: "
                                          +:+ session_id) |}, st)
       end).

(** *** HTTP *)

Record request := {
  method : string;
  query : gmap string string;     (* [req.query] *)
  body : gmap string string       (* [req.body] *)
}.

(** [res.status(http).json(doc)] *)
Record response := { http : Z; doc : json }.

Definition respond (status : Z) (fields : list (string * json)) : M response :=
  mret {| http := status; doc := JObj fields |}.

(** The same for an object literal with properties that may be
    [undefined]. *)
Definition respond_some (status : Z) (props : list (string * option json))
  : M response :=
  mret {| http := status; doc := jobject props |}.

End Remote.

Export Remote.

(** ** GET /api/users/premium-status *)

Module PremiumStatus.

Definition expired_patch : user_patch :=
  {| set_is_premium := Some false;
     set_premium_expires_at := None;
     set_stripe_customer_id := None |}.

Definition jexpiry (t : option Z) : json :=
  match t with Some t => JDate t | None => JNull end.

(** The [response] object of the handler's last statement. *)
Definition status_reply (userId : string) (expirationInfo : option Z)
  (checked_at : Z) (isPremium : bool) : response :=
  {| http := 200;
     doc := JObj [("is_premium", JBool isPremium);
                  ("premium_expires_at", jexpiry expirationInfo);
                  ("checked_at", JDate checked_at);
                  ("user_id", JStr userId)] |}.

Definition handler (req : request) : M response :=
  if negb (String.eqb (method req) "GET") then
    respond 405 [("message", JStr "Method not allowed");
                 ("allowed", JStr "GET");
                 ("received", JStr (method req))]
  else
    try_catch
      (match required (query req !! "userId") with
       | None =>
           respond 400 [("error", JStr "ID utilisateur requis");
                        ("parameter", JStr "userId")]
       | Some userId =>
           r ← user_by_id userId;
           match error r, data r with
           | Some err, _ =>
               if String.eqb (code err) "PGRST116" then
                 respond 404 [("error", JStr "Utilisateur non trouvé");
                              ("userId", JStr userId)]
               else
                 respond 500
                   [("error", JStr "Erreur serveur lors de la vérification du statut");
                    ("details", JStr (message err))]
           | None, userData =>
               (* userData?.is_premium || false *)
               let stored := default false (userData ≫= is_premium) in
               (* userData?.premium_expires_at || null *)
               let expirationInfo := userData ≫= premium_expires_at in
               isPremium ←
                 match stored, expirationInfo with
                 | true, Some expiresAt =>
                     now ← new_Date;
                     if (now >? expiresAt)%Z then
                       (* an error object in the reply is only logged *)
                       _ ← user_update userId expired_patch;
                       mret false
                     else mret true
                 | _, _ => mret stored
                 end;
               checked_at ← new_Date;
               mret (status_reply userId expirationInfo checked_at isPremium)
           end
       end)
      (λ x,
         now ← new_Date;
         respond_some 500 [("error", Some (JStr "Erreur serveur interne"));
                           ("details", JStr <$> exn_message x);
                           ("timestamp", Some (JDate now))]).

End PremiumStatus.


(** ** POST /api/checkout_sessions: creation of a Stripe session *)

Module CheckoutCreate.

(** The [metadata] object of the session. *)
Definition session_metadata (userId userEmail : string) (now : Z)
  : gmap string string :=
  <["userId" := userId]>
    (<["userEmail" := userEmail]>
       (<["purchaseType" := "premium_monthly"]>
          (<["timestamp" := toISOString now]> ∅))).

(** The [catch] block: the reply is chosen by [error.type]. *)
Definition on_error (x : exn) : M response :=
  let type_is t := bool_decide (exn_type x = Some t) in
  if type_is "StripeCardError" then
    respond_some 400 [("error", Some (JStr "Erreur de carte de crédit"));
                      ("details", JStr <$> exn_message x)]
  else if type_is "StripeRateLimitError" then
    respond 429 [("error", JStr "Trop de requêtes");
                 ("details", JStr "Veuillez patienter avant de réessayer")]
  else if type_is "StripeInvalidRequestError" then
    respond_some 400 [("error", Some (JStr "Requête invalide"));
                      ("details", JStr <$> exn_message x)]
  else if type_is "StripeAPIError" then
    respond 502 [("error", JStr "Erreur API Stripe");
                 ("details",
                  JStr "Problème temporaire avec le service de paiement")]
  else if type_is "StripeConnectionError" then
    respond 503 [("error", JStr "Erreur de connexion");
                 ("details",
                  JStr "Impossible de contacter le service de paiement")]
  else if type_is "StripeAuthenticationError" then
    respond 500 [("error", JStr "Erreur de configuration");
                 ("details",
                  JStr "Problème de configuration du service de paiement")]
  else
    now ← new_Date;
    respond 500 [("error", JStr "Erreur interne du serveur");
                 ("details", JStr "Une erreur inattendue s'est produite");
                 ("timestamp", JDate now)].

Definition handler (req : request) : M response :=
  if negb (String.eqb (method req) "POST") then
    respond 405 [("error", JStr "Méthode non autorisée")]
  else
    try_catch
      (match required (body req !! "userId"),
             required (body req !! "userEmail") with
       | Some userId, Some userEmail =>
           if negb (emailRegex_test userEmail) then
             respond 400 [("error", JStr "Format email invalide");
                          ("details", JStr "Veuillez fournir un email valide")]
           else
             now ← new_Date;
             session ← sessions_create
                         (session_metadata userId userEmail now) userEmail;
             respond 200 [("url", jvalue (s_url session));
                          ("sessionId", JStr (s_id session));
                          ("message", JStr "Session créée avec succès")]
       | _, _ =>
           respond 400 [("error", JStr "ID utilisateur et email requis");
                        ("details",
                         JStr "userId et userEmail sont obligatoires")]
       end)
      on_error.

End CheckoutCreate.

(** ** GET /api/checkout-sessions/[session_id]: confirmation *)

Module CheckoutConfirm.

Definition jamount (n : option Z) : json :=
  match n with Some n => JNum n | None => JNull end.

(** Identification of the user: [session.metadata?.user_id], and failing
    that the row of table [user] with the session's customer e-mail.  The
    result is the final value of variable [userId]. *)
Definition resolve_user (session : session) : M value :=
  let userId := metadata session !! "user_id" in
  if negb (truthy userId) then
    match required (customer_email session) with
    | Some email =>
        r ← user_by_email email;
        match data r with
        | Some userData => mret (Some (u_id userData))
        | None => mret userId
        end
    | None => mret userId
    end
  else mret userId.

(** [updateData] *)
Definition premium_patch (premiumExpiresAt : Z) (session : session)
  : user_patch :=
  {| set_is_premium := Some true;
     set_premium_expires_at := Some premiumExpiresAt;
     set_stripe_customer_id := Some (customer session) |}.

(** [d = new Date(); d.setDate(d.getDate() + 30)] *)
Definition thirty_days_from (e : env) (now : Z) : Z :=
  setDate (LocalTZA e) now (getDate (LocalTZA e) now + 30).

(** The five replies of the [try] block and of its [catch]. *)

(** Paid, user found, row updated. *)
Definition activated_reply (session : session) (userId : string)
  (premiumExpiresAt : Z) : response :=
  {| http := 200;
     doc := JObj
       [("status", JStr "complete");
        ("session",
         JObj [("id", JStr (s_id session));
               ("payment_status", JStr (payment_status session));
               ("customer_email", jvalue (customer_email session));
               ("amount_total", jamount (amount_total session));
               ("currency", jvalue (currency session))]);
        ("user_updated", JBool true);
        ("user_id", JStr userId);
        ("premium_expires_at", JDate premiumExpiresAt);
        ("stripe_customer_id", jvalue (customer session));
        ("message", JStr "Statut premium activé avec succès")] |}.

(** Paid, user found, but the update came back with an error. *)
Definition not_updated_reply (session : session) (updateError : db_error)
  : response :=
  {| http := 200;
     doc := JObj
       [("session",
         JObj [("id", JStr (s_id session));
               ("payment_status", JStr (payment_status session));
               ("customer_email", jvalue (customer_email session));
               ("amount_total", jamount (amount_total session))]);
        ("user_updated", JBool false);
        ("error", JStr "Erreur lors de la mise à jour du profil utilisateur");
        ("details", JStr (message updateError))] |}.

(** Paid, but no user found. *)
Definition unidentified_reply (session : session) : response :=
  {| http := 200;
     doc := JObj
       [("status", JStr "complete");
        ("session",
         JObj [("id", JStr (s_id session));
               ("payment_status", JStr (payment_status session));
               ("customer_email", jvalue (customer_email session));
               ("amount_total", jamount (amount_total session))]);
        ("user_updated", JBool false);
        ("error", JStr "Utilisateur non trouvé");
        ("message",
         JStr "Paiement confirmé mais utilisateur non identifié")] |}.

(** Not paid. *)
Definition pending_reply (session : session) : response :=
  {| http := 200;
     doc := JObj
       [("status", JStr "pending");
        ("session",
         JObj [("id", JStr (s_id session));
               ("payment_status", JStr (payment_status session));
               ("customer_email", jvalue (customer_email session))]);
        ("user_updated", JBool false);
        ("message",
         JStr ("Paiement en cours: " +:+ payment_status session))] |}.

(** The [catch] block. *)
Definition error_reply (session_id : string) (x : exn) (now : Z) : response :=
  {| http := 500;
     doc := jobject
       [("status", Some (JStr "error"));
        ("error", Some (JStr "Erreur serveur lors de la vérification"));
        ("details", JStr <$> exn_message x);
        ("session_id", Some (JStr session_id));
        ("timestamp", Some (JDate now))] |}.

(** The [try] block. *)
Definition confirm (session_id : string) : M response :=
  session ← sessions_retrieve session_id;
  if String.eqb (payment_status session) "paid" then
    userId ← resolve_user session;
    match required userId with
    | Some userId =>
        now ← new_Date;
        e ← ask;
        let premiumExpiresAt := thirty_days_from e now in
        r ← user_update userId (premium_patch premiumExpiresAt session);
        match error r with
        | Some updateError => mret (not_updated_reply session updateError)
        | None => mret (activated_reply session userId premiumExpiresAt)
        end
    | None => mret (unidentified_reply session)
    end
  else mret (pending_reply session).

Definition handler (req : request) : M response :=
  if negb (String.eqb (method req) "GET") then
    respond 405 [("message", JStr "Method not allowed");
                 ("allowed", JStr "GET");
                 ("received", JStr (method req))]
  else
    match required (query req !! "session_id") with
    | None =>
        respond 400 [("message", JStr "Session ID is required");
                     ("parameter", JStr "session_id")]
    | Some session_id =>
        try_catch (confirm session_id)
          (λ x, now ← new_Date; mret (error_reply session_id x now))
    end.

End CheckoutConfirm.

(** ** pages/success.js: what the page shows for a confirmation reply *)

Module Success.

Inductive screen := Loading | PaymentSucceeded | PaymentError.

(** The three [return]s of the component, by the value of [status]. *)
Definition render (status : option json) : screen :=
  match status with
  | Some (JStr s) =>
      if String.eqb s "loading" then Loading
      else if String.eqb s "complete" || String.eqb s "paid"
           then PaymentSucceeded
           else PaymentError
  | _ => PaymentError
  end.

(** [setStatus(data.status)] with the reply's document. *)
Definition after_fetch (reply : response) : screen :=
  render (field "status" (doc reply)).

End Success.

(** ** /api/favoris: the favourites route (GET, POST, DELETE) *)

Module FavorisApi.

Definition jfavorie (r : favorie_row) : json :=
  JObj [("id", JStr (f_id r));
        ("user_id", jvalue (f_user_id r));
        ("ville", JStr (f_ville r));
        ("created_at", JDate (f_created_at r))].

(** [case "GET"] *)
Definition get (req : request) : M response :=
  let userId := query req !! "userId" in
  r ← favorie_list userId;
  match error r with
  | Some getFavorisError =>
      respond 500 [("error", JStr (message getFavorisError))]
  | None =>
      (* favoris || [] *)
      respond 200 [("data", JArr (jfavorie <$> default [] (data r)))]
  end.

(** The replies of [case "POST"]. *)
Definition limit_reply (current_count : nat) : response :=
  {| http := 400;
     doc := JObj [("error", JStr "Limite de 3 favoris atteinte");
                  ("current_count", JNum (Z.of_nat current_count));
                  ("max_allowed", JNum 3)] |}.

Definition duplicate_reply (ville : string) : response :=
  {| http := 400;
     doc := JObj [("error", JStr "Cette ville est déjà en favoris");
                  ("ville", JStr ville)] |}.

Definition created_reply (newFavori : option favorie_row) : response :=
  {| http := 201;
     doc := JObj [("data", match newFavori with
                           | Some row => jfavorie row
                           | None => JNull
                           end)] |}.

(** The end of [case "POST"]: [insertData] is [{ ville }], with [user_id]
    if there is a [userId]; a unique-constraint violation reported by the
    database (code 23505) is the only source of the duplicate reply. *)
Definition insert_favori (postUserId : value) (ville : string) : M response :=
  r ← favorie_insert (required postUserId) ville;
  match error r with
  | Some addError =>
      if String.eqb (code addError) "23505" then mret (duplicate_reply ville)
      else respond 500 [("error", JStr (message addError))]
  | None => mret (created_reply (data r))
  end.

(** [case "POST"] *)
Definition post (req : request) : M response :=
  let postUserId := body req !! "userId" in
  match required (body req !! "ville") with
  | None =>
      respond 400
        [("error", JStr "ville requise");
         ("received", jobject [("postUserId", JStr <$> postUserId);
                               ("ville", JStr <$> body req !! "ville")])]
  | Some ville =>
      (* the limit of three is looked at only if a userId is given *)
      match required postUserId with
      | Some userId =>
          r ← favorie_count userId;
          match error r, data r with
          | Some countError, _ =>
              respond 500 [("error", JStr (message countError))]
          | None, Some existingFavoris =>
              if (3 <=? length existingFavoris)%nat
              then mret (limit_reply (length existingFavoris))
              else insert_favori postUserId ville
          | None, None => insert_favori postUserId ville
          end
      | None => insert_favori postUserId ville
      end
  end.

(** [case "DELETE"] *)
Definition delete (req : request) : M response :=
  let deleteUserId := body req !! "userId" in
  let deleteVille := body req !! "ville" in
  let deleteId := body req !! "id" in
  if negb (truthy deleteVille) && negb (truthy deleteId) then
    respond 400
      [("error", JStr "ville ou id requis pour la suppression");
       ("received", jobject [("deleteUserId", JStr <$> deleteUserId);
                             ("deleteVille", JStr <$> deleteVille);
                             ("deleteId", JStr <$> deleteId)])]
  else
    r ←
      match required deleteId with
      | Some id => favorie_delete (FavorieDeleteById id) (λ r, f_id r = id)
      | None =>
          let ville := default EmptyString deleteVille in
          match required deleteUserId with
          | Some uid =>
              favorie_delete (FavorieDeleteByVille ville (Some uid))
                (λ r, f_ville r = ville ∧ f_user_id r = Some uid)
          | None =>
              favorie_delete (FavorieDeleteByVille ville None)
                (λ r, f_ville r = ville)
          end
      end;
    match error r, data r with
    | Some deleteError, _ =>
        respond 500 [("error", JStr (message deleteError))]
    | None, None => respond 404 [("error", JStr "Favori non trouvé")]
    | None, Some deletedFavori =>
        respond 200 [("data", jfavorie deletedFavori)]
    end.

(** The [try] block, after the probe of the table. *)
Definition route (req : request) : M response :=
  if String.eqb (method req) "GET" then get req
  else if String.eqb (method req) "POST" then post req
  else if String.eqb (method req) "DELETE" then delete req
  else
    respond 405
      [("error", JStr "Méthode non autorisée");
       ("allowed_methods", JArr [JStr "GET"; JStr "POST"; JStr "DELETE"]);
       ("received", JStr (method req))].

(** The [catch] block. *)
Definition on_error (x : exn) : M response :=
  now ← new_Date;
  respond_some 500 [("error", Some (JStr "Erreur serveur interne"));
                    ("details", JStr <$> exn_message x);
                    ("timestamp", Some (JDate now))].

Definition handler (req : request) : M response :=
  try_catch
    (probe ← favorie_probe;
     match error probe with
     | Some testError =>
         if String.eqb (code testError) "PGRST116" then
           respond 503
             [("error", JStr "Setup required");
              ("message",
               JStr "La table favorie doit être créée dans Supabase");
              ("needsSetup", JBool true)]
         else respond 500 [("error", JStr (message testError))]
     | None => route req
     end)
    on_error.

End FavorisApi.

(** ** lib/favorisService.js *)

Module FavorisService.

(** What the service's functions resolve to: [{ data, error }], [error]
    being a message. *)
Record outcome := { o_data : option favoris_row; o_error : value }.

Definition limite : string := "Limite de 3 favoris atteinte".
Definition doublon : string := "Cette ville est déjà dans vos favoris".

Section WithLowerCase.

(** [String.prototype.toLowerCase], the case mapping of the host. *)
Variable toLowerCase : string → string.

Definition ajouterFavori (userId ville : string) : M outcome :=
  try_catch
    (r ← favoris_select userId;
     match error r with
     | Some countError =>
         mret {| o_data := None; o_error := Some (message countError) |}
     | None =>
         let existingFavoris := data r in
         if match existingFavoris with
            | Some rows => (3 <=? length rows)%nat
            | None => false
            end
         then mret {| o_data := None; o_error := Some limite |}
         else
           (* existingFavoris?.some(f => f.ville.toLowerCase() === ...) *)
           let villeExiste :=
             match existingFavoris with
             | Some rows =>
                 existsb (λ f, String.eqb (toLowerCase (fs_ville f))
                                          (toLowerCase ville)) rows
             | None => false
             end in
           if villeExiste
           then mret {| o_data := None; o_error := Some doublon |}
           else
             ins ← favoris_insert userId ville;
             match error ins, data ins with
             | Some err, _ =>
                 mret {| o_data := None; o_error := Some (message err) |}
             | None, Some rows =>
                 (* data[0] *)
                 mret {| o_data := head rows; o_error := None |}
             | None, None =>
                 (* data[0] of null throws a TypeError *)
                 throw {| exn_type := None;
                          exn_message :=
                            Some "Cannot read properties of null (reading '0')" |}
             end
     end)
    (λ err, mret {| o_data := None; o_error := exn_message err |}).

End WithLowerCase.

(** A case mapping that agrees with [toLowerCase] on ASCII text: the
    letters A to Z are mapped to a to z, other bytes are kept. *)
Definition ascii_lower (c : ascii) : ascii :=
  let n := nat_of_ascii c in
  if (65 <=? n)%nat && (n <=? 90)%nat then ascii_of_nat (n + 32) else c.

Fixpoint asciiLowerCase (s : string) : string :=
  match s with
  | EmptyString => EmptyString
  | String c rest => String (ascii_lower c) (asciiLowerCase rest)
  end.

End FavorisService.

(** ** lib/demoAuth.js: the in-memory stand-in for Supabase Auth *)

Module DemoAuth.

(** [userData] / [user_metadata] *)
Record profile := {
  nom : value;
  prenom : value;
  telephone : value;
  localite : value
}.

Record auth_user := {
  id : string;
  email : string;
  user_metadata : profile;
  created_at : Z
}.

(** [{ data: { user } | null, error }]; [error] is a plain string here. *)
Record reply := { r_user : option auth_user; r_error : value }.

(** [this.user]; the only listener there can be is the one that
    [AuthProvider] registers when it is mounted in demo mode. *)
Record t := { user : option auth_user }.

(** [String(n)] for a time value. *)
Definition decimal (n : Z) : string := NilZero.string_of_int (Z.to_int n).

Definition signUp (now : Z) (email password : string) (userData : profile)
  : reply :=
  if String.eqb email "test@demo.com" then
    {| r_user := None; r_error := Some "Cet email est déjà utilisé (démo)" |}
  else
    {| r_user := Some {| id := "demo-user-" +:+ decimal now;
                         email := email;
                         user_metadata :=
                           {| nom := nom userData;
                              prenom := prenom userData;
                              telephone := telephone userData;
                              localite := localite userData |};
                         created_at := now |};
       r_error := None |}.

Definition demo_user (now : Z) : auth_user :=
  {| id := "demo-user-123";
     email := "demo@example.com";
     user_metadata := {| nom := Some "Démo";
                         prenom := Some "Utilisateur";
                         telephone := Some "0123456789";
                         localite := Some "Paris" |};
     created_at := now |}.

Definition signInWithPassword (now : Z) (email password : string) (d : t)
  : reply * t :=
  if String.eqb email "demo@example.com" && String.eqb password "demo123"
  then ({| r_user := Some (demo_user now); r_error := None |},
        {| user := Some (demo_user now) |})
  else ({| r_user := None;
           r_error := Some "Email ou mot de passe incorrect (démo)" |}, d).

Definition signOut (d : t) : t := {| user := None |}.

(** [{ ...old, ...new }] on profiles; [new] may be [undefined]. *)
Definition spread (old : profile) (new : option profile) : profile :=
  match new with
  | None => old
  | Some new =>
      let pick (f : profile → value) :=
        match f new with Some v => Some v | None => f old end in
      {| nom := pick nom; prenom := pick prenom;
         telephone := pick telephone; localite := pick localite |}
  end.

(** [updateUser(updates)]; [updates_data] is [updates.data]. *)
Definition updateUser (updates_data : option profile) (d : t) : reply * t :=
  match user d with
  | Some u =>
      let u' := {| id := id u; email := email u;
                   user_metadata := spread (user_metadata u) updates_data;
                   created_at := created_at u |} in
      ({| r_user := Some u'; r_error := None |}, {| user := Some u' |})
  | None => ({| r_user := None; r_error := Some "Utilisateur non connecté" |}, d)
  end.

End DemoAuth.

(** ** The authentication context ([AuthProvider]) *)

Module AuthProvider.

Import DemoAuth.

(** [isSupabaseConfigured()], from the two environment variables. *)
Definition isSupabaseConfigured (url key : value) : bool :=
  truthy url
  && negb (bool_decide (url = Some "https://demo.supabase.co"))
  && truthy key
  && negb (bool_decide (key = Some "demo-key")).

(** The state of the provider: the three [useState] cells, the demo
    backend it shares with the rest of the page, and whether the listener
    registered by the mount effect is the demo backend's
    ([demo_listener]) or Supabase's. *)
Record state := {
  user : option auth_user;
  loading : bool;
  isDemoMode : bool;
  demo : DemoAuth.t;
  demo_listener : bool
}.

Definition setUser (u : option auth_user) (s : state) : state :=
  {| user := u; loading := loading s; isDemoMode := isDemoMode s;
     demo := demo s; demo_listener := demo_listener s |}.

Definition setLoading (b : bool) (s : state) : state :=
  {| user := user s; loading := b; isDemoMode := isDemoMode s;
     demo := demo s; demo_listener := demo_listener s |}.

Definition setIsDemoMode (b : bool) (s : state) : state :=
  {| user := user s; loading := loading s; isDemoMode := b;
     demo := demo s; demo_listener := demo_listener s |}.

Definition with_demo (d : DemoAuth.t) (s : state) : state :=
  {| user := user s; loading := loading s; isDemoMode := isDemoMode s;
     demo := d; demo_listener := demo_listener s |}.

(** The callback given to [onAuthStateChange]. *)
Definition on_change (session_user : option auth_user) (s : state) : state :=
  setLoading false (setUser session_user s).

(** [demoAuth.notifyListeners]: reaches the provider only if its listener
    is the demo backend's. *)
Definition demo_notify (session_user : option auth_user) (s : state) : state :=
  if demo_listener s then on_change session_user s else s.

(** A change of the Supabase session reaches the provider only if its
    listener is Supabase's. *)
Definition live_notify (session_user : option auth_user) (s : state) : state :=
  if demo_listener s then s else on_change session_user s.

(** What a call of the Supabase client does: resolve with data, resolve
    with an [error] object of the given message, or reject. *)
Inductive live_reply (A : Type) :=
| Resolved (a : A)
| Refused (message : value)
| Rejected (x : exn).
Arguments Resolved {A} a.
Arguments Refused {A} message.
Arguments Rejected {A} x.

(** The live backend, as the environment of the provider. *)
Record live := {
  auth_signUp : string → string → live_reply (option auth_user);
  users_createUser : string → string → profile → live_reply unit;
  users_updateUser : string → profile → live_reply unit;
  auth_updateUser : profile → live_reply (option auth_user);
  auth_signIn : string → string → live_reply (option auth_user);
  auth_signOut : live_reply unit;
  auth_updatePassword : string → live_reply (option auth_user);
  rpc_delete_user_account : live_reply unit;
  now : Z
}.

(** The calls the provider makes to its two backends. *)
Inductive backend_call :=
| LiveSignUp (email password : string)
| LiveCreateUser (id email : string) (userData : profile)
| LiveUpdateUser (userData : profile)
| LiveUpdateUserRow (id : string) (updates : profile)
| LiveSignIn (email password : string)
| LiveSignOut
| LiveUpdatePassword (newPassword : string)
| LiveDeleteAccount
| DemoSignUp (email password : string) (userData : profile)
| DemoSignIn (email password : string)
| DemoSignOut
| DemoUpdateUser.

(** [{ data, error }]: [f_data = Some u] is a [data] object whose [user]
    is [u]. *)
Record facade_reply := {
  f_data : option (option auth_user);
  f_error : value
}.

Definition ok (u : option auth_user) : facade_reply :=
  {| f_data := Some u; f_error := None |}.

(** [{ data: null, error: error.message }] *)
Definition ko (x : exn) : facade_reply :=
  {| f_data := None; f_error := exn_message x |}.

(** [new Error(message)], and a thrown string (which has no [message]). *)
Definition new_Error (message : string) : exn :=
  {| exn_type := None; exn_message := Some message |}.
Definition thrown_string : exn :=
  {| exn_type := None; exn_message := None |}.
(** The [error] object of a Supabase reply, thrown as it is. *)
Definition thrown_error (message : value) : exn :=
  {| exn_type := None; exn_message := message |}.

(** [v?.includes(needle)] in a condition. *)
Definition mentions (v : value) (needle : string) : bool :=
  match v with Some s => includes s needle | None => false end.

(** The message of the error thrown for a refused live registration. *)
Definition signUp_message (message : value) : string :=
  if mentions message "User already registered" then
    "Cette adresse email est déjà utilisée"
  else if mentions message "Signup is disabled" then
    "L'inscription est désactivée sur ce projet"
  else if mentions message "Email rate limit exceeded" then
    "Limite d'emails atteinte, veuillez réessayer plus tard"
  else "Erreur d'inscription: " +:+ default "undefined" message.

(** A refusal that the provider words for the user: one of the three
    messages that [signUp] translates. *)
Definition user_facing (message : value) : bool :=
  mentions message "User already registered"
  || mentions message "Signup is disabled"
  || mentions message "Email rate limit exceeded".

(** A live registration that fails with an error whose message speaks of
    an unprocessable request (status 422) and is not worded for the user,
    be the error returned by the provider or thrown by the call. *)
Definition unprocessable (r : live_reply (option auth_user)) : bool :=
  match r with
  | Refused message => mentions message "422" && negb (user_facing message)
  | Rejected x => mentions (exn_message x) "422"
  | Resolved _ => false
  end.

(** The reply of the facade to a registration made with the demo
    backend in the [catch] block. *)
Definition demo_retry (now : Z) (email password : string) (userData : profile)
  : facade_reply :=
  match r_error (DemoAuth.signUp now email password userData) with
  | Some _ => ko thrown_string
  | None => ok (r_user (DemoAuth.signUp now email password userData))
  end.

(** [userData.x || ""] for the four fields. *)
Definition or_empty (userData : profile) : profile :=
  let f (v : value) := if truthy v then v else Some EmptyString in
  {| nom := f (nom userData); prenom := f (prenom userData);
     telephone := f (telephone userData); localite := f (localite userData) |}.

(** The [try] block of [signUp]: its result or the value it throws, and
    the backend calls made. *)
Definition signUp_try (bk : live) (s : state)
  (email password : string) (userData : profile)
  : result facade_reply * list backend_call :=
  if isDemoMode s then
    let r := DemoAuth.signUp (now bk) email password userData in
    (match r_error r with
     | Some _ => Raise thrown_string
     | None => Val (ok (r_user r))
     end, [DemoSignUp email password userData])
  else
    match auth_signUp bk email password with
    | Rejected x => (Raise x, [LiveSignUp email password])
    | Refused message =>
        (Raise (new_Error (signUp_message message)),
         [LiveSignUp email password])
    | Resolved data_user =>
        (Val (ok data_user),
         LiveSignUp email password ::
         match data_user with
         | Some u =>
             (* inner try: whatever happens there is only logged *)
             LiveCreateUser (id u) (DemoAuth.email u) userData ::
             match users_createUser bk (id u) (DemoAuth.email u) userData with
             | Rejected _ => []
             | _ => [LiveUpdateUser (or_empty userData)]
             end
         | None => []
         end)
    end.

Definition signUp (bk : live) (email password : string) (userData : profile)
  (s : state) : facade_reply * state * list backend_call :=
  match signUp_try bk s email password userData with
  | (Val r, calls) => (r, s, calls)
  | (Raise error, calls) =>
      if negb (isDemoMode s) && mentions (exn_message error) "422" then
        let s' := setIsDemoMode true s in
        (demo_retry (now bk) email password userData, s',
         (calls ++ [DemoSignUp email password userData])%list)
      else (ko error, s, calls)
  end.

Definition signIn (bk : live) (email password : string) (s : state)
  : facade_reply * state * list backend_call :=
  if isDemoMode s then
    let '(r, d) := DemoAuth.signInWithPassword (now bk) email password (demo s) in
    match r_error r with
    | Some _ => (ko thrown_string, s, [DemoSignIn email password])
    | None =>
        (ok (r_user r), demo_notify (r_user r) (with_demo d s),
         [DemoSignIn email password])
    end
  else
    match auth_signIn bk email password with
    | Resolved u => (ok u, live_notify u s, [LiveSignIn email password])
    | Refused message =>
        (ko (thrown_error message), s, [LiveSignIn email password])
    | Rejected x => (ko x, s, [LiveSignIn email password])
    end.

(** [{ error }] is returned as a reply without data. *)
Definition signOut (bk : live) (s : state)
  : facade_reply * state * list backend_call :=
  if isDemoMode s then
    ({| f_data := None; f_error := None |},
     demo_notify None (with_demo (DemoAuth.signOut (demo s)) s),
     [DemoSignOut])
  else
    match auth_signOut bk with
    | Resolved _ =>
        ({| f_data := None; f_error := None |}, live_notify None s, [LiveSignOut])
    | Refused message => (ko (thrown_error message), s, [LiveSignOut])
    | Rejected x => (ko x, s, [LiveSignOut])
    end.

Definition updateProfile (bk : live) (updates : profile) (s : state)
  : facade_reply * state * list backend_call :=
  if isDemoMode s then
    (* [updates] has no [data] property *)
    let '(r, d) := DemoAuth.updateUser None (demo s) in
    ({| f_data := match r_user r with Some u => Some (Some u) | None => None end;
        f_error := r_error r |},
     match r_user r with
     | Some u => demo_notify (Some u) (with_demo d s)
     | None => s
     end, [DemoUpdateUser])
  else
    match auth_updateUser bk updates with
    | Resolved data_user =>
        (ok data_user, live_notify data_user s,
         LiveUpdateUser updates ::
         match data_user with
         | Some u => [LiveUpdateUserRow (id u) updates]
         | None => []
         end)
    | Refused message => (ko (thrown_error message), s, [LiveUpdateUser updates])
    | Rejected x => (ko x, s, [LiveUpdateUser updates])
    end.

(** [demoAuth] has neither [updatePassword] nor [deleteAccount]: calling
    them throws a TypeError, which the [catch] turns into a reply. *)
Definition updatePassword (bk : live) (newPassword : string) (s : state)
  : facade_reply * state * list backend_call :=
  if isDemoMode s then
    (ko (new_Error "authClient.updatePassword is not a function"), s, [])
  else
    match auth_updatePassword bk newPassword with
    | Resolved u => (ok u, s, [LiveUpdatePassword newPassword])
    | Refused message =>
        (ko (thrown_error message), s, [LiveUpdatePassword newPassword])
    | Rejected x => (ko x, s, [LiveUpdatePassword newPassword])
    end.

Definition deleteAccount (bk : live) (s : state)
  : facade_reply * state * list backend_call :=
  if isDemoMode s then
    (ko (new_Error "authClient.deleteAccount is not a function"), s, [])
  else
    match rpc_delete_user_account bk with
    | Resolved _ => ({| f_data := None; f_error := None |}, s, [LiveDeleteAccount])
    | Refused message => (ko (thrown_error message), s, [LiveDeleteAccount])
    | Rejected x => (ko x, s, [LiveDeleteAccount])
    end.

(** The state of a freshly mounted provider, once the mount effect has
    read the current session. *)
Definition mount (url key : value) (d : DemoAuth.t)
  (session_user : option auth_user) : state :=
  let demoMode := negb (isSupabaseConfigured url key) in
  {| user := if demoMode then DemoAuth.user d else session_user;
     loading := false;
     isDemoMode := demoMode;
     demo := d;
     demo_listener := demoMode |}.

(** Everything a page can ask of the context during a session. *)
Inductive request :=
| SignUp (email password : string) (userData : profile)
| SignIn (email password : string)
| SignOut
| UpdateProfile (updates : profile)
| UpdatePassword (newPassword : string)
| DeleteAccount.

Definition serve (bk : live) (q : request) (s : state)
  : facade_reply * state * list backend_call :=
  match q with
  | SignUp email password userData => signUp bk email password userData s
  | SignIn email password => signIn bk email password s
  | SignOut => signOut bk s
  | UpdateProfile updates => updateProfile bk updates s
  | UpdatePassword newPassword => updatePassword bk newPassword s
  | DeleteAccount => deleteAccount bk s
  end.

(** A session: requests served one after the other, the backend's
    behaviour possibly different at each. *)
Fixpoint session (qs : list (live * request)) (s : state) : state :=
  match qs with
  | [] => s
  | (bk, q) :: rest => session rest (snd (fst (serve bk q s)))
  end.

End AuthProvider.

(** A live backend for the examples: it refuses every registration with
    the given message and serves everything else. *)
Module AuthExamples.
Import DemoAuth AuthProvider.

Definition refusing (message : string) : live :=
  {| auth_signUp := λ _ _, Refused (Some message);
     users_createUser := λ _ _ _, Resolved tt;
     users_updateUser := λ _ _, Resolved tt;
     auth_updateUser := λ _, Resolved None;
     auth_signIn := λ _ _, Refused (Some "Invalid login credentials");
     auth_signOut := Resolved tt;
     auth_updatePassword := λ _, Resolved None;
     rpc_delete_user_account := Resolved tt;
     now := 1762128000000 |}.

Definition jean : profile :=
  {| nom := Some "Neyraud"; prenom := Some "Jean";
     telephone := Some "0123456789"; localite := Some "Lyon" |}.

(** A provider mounted with a real Supabase configuration, nobody
    signed in. *)
Definition live_start : state :=
  mount (Some "https://xyz.supabase.co") (Some "anon-key")
    {| DemoAuth.user := None |} None.

End AuthExamples.

(** ** Concrete environments and stores *)

Module Examples.

(** No fault: every remote call is served from the store. *)
Definition quiet : call → fault := λ _, Proceed.

(** A server whose local time is UTC. *)
Definition utc : Z → bool → Z := λ _ _, 0%Z.

(** A server on Central European Time, for the autumn of 2025: two hours
    ahead of UTC until 26 October 2025, 01:00 UTC, one hour after. *)
Definition cet_2025 : Z → bool → Z := λ t isUTC,
  let switch := 1761440400000%Z in
  if isUTC then (if (t <? switch)%Z then 7200000 else 3600000)%Z
  else (if (t <? switch + 7200000)%Z then 7200000 else 3600000)%Z.

(** 10 October 2025, 10:00 UTC, on a server in Paris. *)
Definition paris_october : env :=
  {| clock := 1760090400000; LocalTZA := cet_2025; faults := quiet;
     fresh_session := "cs_test_a1"; fresh_row := "f-4" |}.

(** 3 November 2025, 00:00 UTC. *)
Definition today : Z := 1762128000000.
Definition yesterday : Z := today - msPerDay.

Definition server (fs : call → fault) : env :=
  {| clock := today; LocalTZA := utc; faults := fs;
     fresh_session := "cs_test_a1"; fresh_row := "f-4" |}.

Definition u1 : user_row :=
  {| u_id := "u1"; u_email := "a@x.com"; is_premium := Some true;
     premium_expires_at := Some yesterday; stripe_customer_id := None |}.

(** Premium until tomorrow. *)
Definition u3 : user_row :=
  {| u_id := "u3"; u_email := "c@x.com"; is_premium := Some true;
     premium_expires_at := Some (today + msPerDay)%Z;
     stripe_customer_id := Some "cus_3" |}.

Definition u2 : user_row :=
  {| u_id := "u2"; u_email := "b@x.com"; is_premium := Some false;
     premium_expires_at := None; stripe_customer_id := None |}.

Definition empty : store :=
  {| tbl_user := []; tbl_favorie := []; tbl_favoris := [];
     stripe_sessions := []; trace := [] |}.

Definition directory : store := with_user [u1; u2; u3] empty.

Definition GET (params : list (string * string)) : request :=
  {| method := "GET"; query := list_to_map params; body := ∅ |}.

Definition POST (params : list (string * string)) : request :=
  {| method := "POST"; query := ∅; body := list_to_map params |}.

(** A paid session whose metadata name user [u1] under key [user_id]. *)
Definition paid_u1 : session :=
  {| s_id := "cs_test_paid"; s_url := None; payment_status := "paid";
     customer_email := Some "a@x.com"; customer := Some "cus_1";
     amount_total := Some 999%Z; currency := Some "eur";
     metadata := {[ "user_id" := "u1" ]} |}.

(** A paid session of a customer whom the directory does not know. *)
Definition paid_stranger : session :=
  {| s_id := "cs_test_stranger"; s_url := None; payment_status := "paid";
     customer_email := Some "nobody@x.com"; customer := None;
     amount_total := Some 999%Z; currency := Some "eur";
     metadata := ∅ |}.

(** A session that is not paid yet. *)
Definition unpaid : session :=
  {| s_id := "cs_test_unpaid"; s_url := None; payment_status := "unpaid";
     customer_email := Some "b@x.com"; customer := None;
     amount_total := Some 999%Z; currency := Some "eur";
     metadata := ∅ |}.

Definition shop : store :=
  with_sessions [paid_u1; paid_stranger; unpaid] directory.

(** User [a@x.com] has the favourites Paris, Lyon and Nice, in the table
    of the API route and in the table of the client service; user [b]
    has Paris alone. *)
Definition favorie_3 : list favorie_row :=
  [ {| f_id := "f-1"; f_user_id := Some "a@x.com"; f_ville := "Paris";
       f_created_at := today - 3 |};
    {| f_id := "f-2"; f_user_id := Some "a@x.com"; f_ville := "Lyon";
       f_created_at := today - 2 |};
    {| f_id := "f-3"; f_user_id := Some "a@x.com"; f_ville := "Nice";
       f_created_at := today - 1 |};
    {| f_id := "f-0"; f_user_id := Some "b"; f_ville := "Paris";
       f_created_at := today - 9 |} ].

Definition favoris_3 : list favoris_row :=
  [ {| fs_id := "a@x.com"; fs_ville := "Paris"; fs_created_at := today - 3 |};
    {| fs_id := "a@x.com"; fs_ville := "Lyon"; fs_created_at := today - 2 |};
    {| fs_id := "a@x.com"; fs_ville := "Nice"; fs_created_at := today - 1 |};
    {| fs_id := "b"; fs_ville := "Paris"; fs_created_at := today - 9 |} ].

Definition favourites : store :=
  with_favoris favoris_3 (with_favorie favorie_3 empty).

(** The database rejects every insertion into [favorie] as a violation of
    a unique constraint. *)
Definition unique_violation : db_error :=
  {| code := "23505";
     message := "duplicate key value violates unique constraint" |}.

Definition rejecting : call → fault := λ c,
  match c with
  | FavorieInsert _ _ => Fail unique_violation
  | _ => Proceed
  end.

(** The directory refuses every update of a user row. *)
Definition denied : db_error :=
  {| code := "42501"; message := "permission denied for table user" |}.

Definition read_only : call → fault := λ c,
  match c with
  | UserUpdate _ _ => Fail denied
  | _ => Proceed
  end.

End Examples.

From Stdlib Require Import Sorted.

(** ** What a handler may have done to the stores *)

Module Footprint.

(** The two tables of favourites are as they were. *)
Definition same_favourites (st st' : store) : Prop :=
  tbl_favorie st' = tbl_favorie st ∧ tbl_favoris st' = tbl_favoris st.

(** Nothing but the trace has changed. *)
Definition same_contents (st st' : store) : Prop :=
  tbl_user st' = tbl_user st
  ∧ same_favourites st st'
  ∧ stripe_sessions st' = stripe_sessions st.

(** Every user has at most three rows in table [favorie]. *)
Definition capped (rows : list favorie_row) : Prop :=
  ∀ user_id, (length (favorie_of user_id rows) <= 3)%nat.

(** The same for table [favoris]. *)
Definition capped_favoris (rows : list favoris_row) : Prop :=
  ∀ user_id, (length (favoris_of user_id rows) <= 3)%nat.

(** No two favourites of one user in table [favoris] have the same name
    up to case. *)
Definition distinct_villes (toLowerCase : string → string)
    (rows : list favoris_row) : Prop :=
  ∀ user_id,
    NoDup ((λ f, toLowerCase (fs_ville f)) <$> favoris_of user_id rows).

(** Only table [favorie] may have changed, and no user has been taken
    beyond three rows of it: a user has as many rows as before, or fewer,
    or at most three. *)
Definition within_cap (st st' : store) : Prop :=
  tbl_user st' = tbl_user st
  ∧ tbl_favoris st' = tbl_favoris st
  ∧ stripe_sessions st' = stripe_sessions st
  ∧ ∀ user_id,
      (length (favorie_of user_id (tbl_favorie st'))
       <= 3 `max` length (favorie_of user_id (tbl_favorie st)))%nat.

(** What a part of the handler of /api/favoris may do: stay within the
    cap and, if it returns, return what [ok] allows. *)
Definition tame {A} (ok : A → Prop) (m : M A) (e : env) (st : store) : Prop :=
  ∀ r st', m e st = (r, st') →
    within_cap st st' ∧ ∀ a, r = Val a → ok a.

(** The order of [.order("created_at", { ascending: false })]. *)
Definition newer_first (a b : favorie_row) : Prop :=
  (f_created_at b <= f_created_at a)%Z.

(** Requests to /api/favoris served one after the other, each in the
    environment it meets. *)
Fixpoint serve_all (requests : list (request * env)) (st : store) : store :=
  match requests with
  | [] => st
  | (req, e) :: rest => serve_all rest (FavorisApi.handler req e st).2
  end.

(** The calls of the authentication context that go to the demo
    backend. *)
Definition demo_call (c : AuthProvider.backend_call) : bool :=
  match c with
  | AuthProvider.DemoSignUp _ _ _ | AuthProvider.DemoSignIn _ _
  | AuthProvider.DemoSignOut | AuthProvider.DemoUpdateUser => true
  | _ => false
  end.

End Footprint.

(** ** components/PremiumStatus.js *)

Module PremiumBanner.

(** The truth value of a property of a parsed JSON document, [None]
    being [undefined]; a timestamp is rendered as a string that is not
    empty. *)
Definition json_truthy (v : option json) : bool :=
  match v with
  | None | Some JNull => false
  | Some (JBool b) => b
  | Some (JNum n) => negb (n =? 0)%Z
  | Some (JStr s) => negb (String.eqb s EmptyString)
  | Some (JDate _) | Some (JArr _) | Some (JObj _) => true
  end.

(** What the component returns: nothing, or the banner [Utilisateur
    Premium] with the date made of [premiumStatus.premium_expires_at]. *)
Inductive screen :=
| Hidden
| PremiumUntil (premium_expires_at : option json).

(** The component, by its three cells: the user's [id], [loading] and
    [premiumStatus] ([None] is [null]). *)
Definition render (user_id : value) (loading : bool)
    (premiumStatus : option json) : screen :=
  if negb (truthy user_id) || loading then Hidden
  else if json_truthy (premiumStatus ≫= field "is_premium")
       then PremiumUntil (premiumStatus ≫= field "premium_expires_at")
       else Hidden.

(** [fetchPremiumStatus] with the reply of the API: [setPremiumStatus(data)],
    then [setLoading(false)]. *)
Definition after_fetch (user_id : value) (reply : response) : screen :=
  render user_id false (Some (doc reply)).

End PremiumBanner.

(** ** The component FavorisManager *)

Module FavorisManager.

Section WithLowerCase.

(** [String.prototype.toLowerCase], the case mapping of the host. *)
Variable toLowerCase : string → string.

(** [favoris.some((f) => f.ville.toLowerCase() ===
    villeActuelle?.toLowerCase())] *)
Definition villeEstEnFavori (favoris : list favorie_row)
    (villeActuelle : value) : bool :=
  existsb (λ f, match villeActuelle with
                | Some ville =>
                    String.eqb (toLowerCase (f_ville f)) (toLowerCase ville)
                | None => false
                end) favoris.

(** The [disabled] attribute of the button. *)
Definition disabled (isLoading : bool) (villeActuelle : value)
    (favoris : list favorie_row) : bool :=
  isLoading
  || negb (truthy villeActuelle)
  || villeEstEnFavori favoris villeActuelle
  || (3 <=? length favoris)%nat.

(** The request that [ajouterFavori] sends, if it sends one. *)
Definition ajouterFavori (user_id villeActuelle : value) : option request :=
  match required user_id, required villeActuelle with
  | Some id, Some ville =>
      Some {| method := "POST"; query := ∅;
              body := <["userId" := id]> (<["ville" := ville]> ∅) |}
  | _, _ => None
  end.

(** A click on the button: nothing if the button is disabled. *)
Definition click (user_id : value) (isLoading : bool) (villeActuelle : value)
    (favoris : list favorie_row) : option request :=
  if disabled isLoading villeActuelle favoris then None
  else ajouterFavori user_id villeActuelle.

End WithLowerCase.

End FavorisManager.

(** ** Further stores for the examples *)

Module ExamplesX.

(** A paid session that the customer [a@x.com], who is user [u1], bought
    for user [u2]. *)
Definition paid_for_u2 : session :=
  {| s_id := "cs_test_gift"; s_url := None; payment_status := "paid";
     customer_email := Some "a@x.com"; customer := Some "cus_1";
     amount_total := Some 999%Z; currency := Some "eur";
     metadata := {[ "user_id" := "u2" ]} |}.

(** A paid session whose metadata name a user whom the directory does
    not hold. *)
Definition paid_ghost : session :=
  {| s_id := "cs_test_ghost"; s_url := None; payment_status := "paid";
     customer_email := Some "a@x.com"; customer := None;
     amount_total := Some 999%Z; currency := Some "eur";
     metadata := {[ "user_id" := "u9" ]} |}.

Definition shop_x : store :=
  with_sessions [paid_for_u2; paid_ghost] Examples.directory.

(** Table [favorie] answers the probe with error PGRST116. *)
Definition no_table : call → fault := λ c,
  match c with
  | FavorieProbe => Fail PGRST116
  | _ => Proceed
  end.

Definition DELETE (params : list (string * string)) : request :=
  {| method := "DELETE"; query := ∅; body := list_to_map params |}.

(** A live backend that accepts every registration, and answers the
    creation of the row in table [user] as told. *)
Definition welcoming (create : AuthProvider.live_reply unit)
  : AuthProvider.live :=
  {| AuthProvider.auth_signUp := λ email _,
       AuthProvider.Resolved
         (Some {| DemoAuth.id := "u-7"; DemoAuth.email := email;
                  DemoAuth.user_metadata :=
                    {| DemoAuth.nom := None; DemoAuth.prenom := None;
                       DemoAuth.telephone := None;
                       DemoAuth.localite := None |};
                  DemoAuth.created_at := 1762128000000 |});
     AuthProvider.users_createUser := λ _ _ _, create;
     AuthProvider.users_updateUser := λ _ _, AuthProvider.Resolved tt;
     AuthProvider.auth_updateUser := λ _, AuthProvider.Resolved None;
     AuthProvider.auth_signIn := λ _ _, AuthProvider.Resolved None;
     AuthProvider.auth_signOut := AuthProvider.Resolved tt;
     AuthProvider.auth_updatePassword := λ _, AuthProvider.Resolved None;
     AuthProvider.rpc_delete_user_account := AuthProvider.Resolved tt;
     AuthProvider.now := 1762128000000 |}.

(** A context without a Supabase configuration, in which the demo
    account has signed in. *)
Definition demo_signed_in : AuthProvider.state :=
  (AuthProvider.signIn (welcoming (AuthProvider.Resolved tt))
     "demo@example.com" "demo123"
     (AuthProvider.mount None None {| DemoAuth.user := None |} None)).1.2.

End ExamplesX.

(** * Properties *)

(** ** The monad and the remote calls *)

Section Steps.
Context {A B : Type}.

Lemma bind_Val (m : M A) (f : A → M B) e st a st' :
  m e st = (Val a, st') → (m ≫= f) e st = f a e st'.
Proof. intros H. unfold mbind, M_bind. by rewrite H. Qed.

Lemma bind_Raise (m : M A) (f : A → M B) e st x st' :
  m e st = (Raise x, st') → (m ≫= f) e st = (Raise x, st').
Proof. intros H. unfold mbind, M_bind. by rewrite H. Qed.

Lemma try_catch_Val (m : M A) h e st a st' :
  m e st = (Val a, st') → try_catch m h e st = (Val a, st').
Proof. intros H. unfold try_catch. by rewrite H. Qed.

Lemma try_catch_Raise (m : M A) h e st x st' :
  m e st = (Raise x, st') → try_catch m h e st = h x e st'.
Proof. intros H. unfold try_catch. by rewrite H. Qed.

Lemma query_Proceed c (run : env → store → reply A * store) e st :
  faults e c = Proceed →
  query_ c run e st = (Val (run e (log c st)).1, (run e (log c st)).2).
Proof. intros H. unfold query_. rewrite H. by destruct (run e (log c st)). Qed.

Lemma query_Fail c (run : env → store → reply A * store) e st err :
  faults e c = Fail err → query_ c run e st = (Val (failed err), log c st).
Proof. intros H. unfold query_. by rewrite H. Qed.

Lemma query_Reject c (run : env → store → reply A * store) e st x :
  faults e c = Reject x → query_ c run e st = (Raise x, log c st).
Proof. intros H. unfold query_. by rewrite H. Qed.

End Steps.

(** Unfolding of the monad's operations in a goal. *)
Ltac run_M :=
  unfold mbind, M_bind, mret, M_ret, new_Date, ask, respond, respond_some;
  cbn beta iota.

(** A guard [if (!x)] lets exactly the non-empty strings through. *)
Lemma required_Some v s : required v = Some s → v = Some s ∧ s ≠ EmptyString.
Proof.
  unfold required, truthy. destruct v as [s'|]; [|done].
  destruct (String.eqb_spec s' EmptyString); simpl; [done|].
  intros [= ->]. done.
Qed.

Lemma required_truthy v s : required v = Some s → truthy v = true.
Proof. unfold required. by destruct (truthy v). Qed.

Lemma required_falsy v : truthy v = false → required v = None.
Proof. unfold required. by intros ->. Qed.

Lemma required_intro s : s ≠ EmptyString → required (Some s) = Some s.
Proof.
  intros H. unfold required, truthy.
  by destruct (String.eqb_spec s EmptyString).
Qed.

(** ** The user directory *)


Lemma user_update_done e st id p :
  faults e (UserUpdate id p) = Proceed →
  user_update id p e st
  = (Val done_, with_user (patch_rows id p (tbl_user st)) (log (UserUpdate id p) st)).
Proof. intros Hf. unfold user_update. by rewrite query_Proceed. Qed.

Lemma user_update_refused e st id p err :
  faults e (UserUpdate id p) = Fail err →
  user_update id p e st = (Val (failed err), log (UserUpdate id p) st).
Proof. intros Hf. unfold user_update, query_. by rewrite Hf. Qed.

(** An update keeps the identifiers, so it commutes with the selection of
    a user's rows. *)
Lemma filter_patch_rows id p rows :
  filter (λ r, u_id r = id) (patch_rows id p rows)
  = apply_patch p <$> filter (λ r, u_id r = id) rows.
Proof.
  unfold patch_rows. induction rows as [|r rows IH]; [done|].
  rewrite fmap_cons, !filter_cons. destruct (decide (u_id r = id)) as [Hr|Hr].
  - cbn [apply_patch u_id]. rewrite decide_True by done.
    rewrite fmap_cons. by rewrite IH.
  - rewrite decide_False by done. apply IH.
Qed.

(** Rows of other users are left as they were. *)
Lemma patch_rows_other id p rows r :
  r ∈ rows → u_id r ≠ id → r ∈ patch_rows id p rows.
Proof.
  intros Hin Hne. unfold patch_rows. apply list_elem_of_fmap.
  exists r. by rewrite decide_False.
Qed.

(** ** GET /api/users/premium-status *)

Section PremiumStatusFacts.
Import PremiumStatus.

Variables (e : env) (st : store) (req : request) (userId : string) (row : user_row).
Hypothesis Hmethod : method req = "GET".
Hypothesis HuserId : required (query req !! "userId") = Some userId.
Hypothesis Hselect : faults e (UserSelectById userId) = Proceed.
Hypothesis Hrow : filter (λ r, u_id r = userId) (tbl_user st) = [row].



End PremiumStatusFacts.






(** ** [Date]: thirty days on the local calendar *)

Lemma MonthFromTime_range t : (0 <= MonthFromTime t <= 11)%Z.
Proof.
  unfold MonthFromTime.
  repeat match goal with
         | |- context [if ?b then _ else _] => destruct b
         end; lia.
Qed.

(** [MakeDay] undoes [YearFromTime], [MonthFromTime] and [DateFromTime],
    and a date beyond the month's end simply runs on into the following
    days. *)
Lemma MakeDay_DateFromTime t n :
  MakeDay (YearFromTime t) (MonthFromTime t) (DateFromTime t + n)
  = (Day t + n)%Z.
Proof.
  pose proof (MonthFromTime_range t) as Hm.
  unfold MakeDay. rewrite Z.div_small, Z.mod_small by lia.
  rewrite Z.add_0_r.
  unfold DateFromTime, DayWithinYear, InLeapYear. lia.
Qed.

Lemma setDate_getDate tz t n :
  setDate tz t (getDate tz t + n)
  = UTC tz (LocalTime tz t + n * msPerDay)%Z.
Proof.
  unfold setDate, getDate. rewrite MakeDay_DateFromTime.
  f_equal. unfold MakeDate, Day, TimeWithinDay.
  pose proof (Z.div_mod (LocalTime tz t) msPerDay) as Hdm.
  unfold msPerDay in *. lia.
Qed.

(** The local clock reads, at the expiry, thirty days more than it reads
    now; the two instants are thirty times 24 hours apart when the
    server's offset from UTC is the same at both. *)
Lemma thirty_days_local e now :
  let expiry := CheckoutConfirm.thirty_days_from e now in
  (expiry + LocalTZA e (LocalTime (LocalTZA e) now + 30 * msPerDay) false
   = LocalTime (LocalTZA e) now + 30 * msPerDay)%Z.
Proof.
  unfold CheckoutConfirm.thirty_days_from. rewrite setDate_getDate.
  unfold UTC. lia.
Qed.

Lemma thirty_days_exact e now :
  LocalTZA e (LocalTime (LocalTZA e) now + 30 * msPerDay)%Z false
  = LocalTZA e now true →
  CheckoutConfirm.thirty_days_from e now = (now + 30 * msPerDay)%Z.
Proof.
  intros Hsame. pose proof (thirty_days_local e now) as H. cbn zeta in H.
  rewrite Hsame in H. unfold LocalTime in H. lia.
Qed.

(** On a server that keeps daylight saving time the two instants can be
    an hour further apart: from 10 October 2025, 10:00 UTC (noon in
    Paris) the expiry is 9 November 2025, 11:00 UTC (noon in Paris). *)
Example thirty_days_across_dst :
  let e := Examples.paris_october in
  CheckoutConfirm.thirty_days_from e (clock e)
  = (clock e + 30 * msPerDay + 3600000)%Z.
Proof. vm_compute. reflexivity. Qed.

(** ** GET /api/checkout-sessions/[session_id] *)

Lemma sessions_retrieve_found e st session_id session rest :
  faults e (StripeRetrieve session_id) = Proceed →
  filter (λ s, s_id s = session_id) (stripe_sessions st) = session :: rest →
  sessions_retrieve session_id e st
  = (Val session, log (StripeRetrieve session_id) st).
Proof.
  intros Hf Hs. unfold sessions_retrieve, stripe_. rewrite Hf.
  cbn [stripe_sessions log]. by rewrite Hs.
Qed.

Lemma sessions_retrieve_trace e st session_id r st' :
  sessions_retrieve session_id e st = (r, st') →
  st' = log (StripeRetrieve session_id) st.
Proof.
  unfold sessions_retrieve, stripe_.
  destruct (faults e (StripeRetrieve session_id)); [|by intros [= _ <-]..].
  destruct (filter _ _); by intros [= _ <-].
Qed.

(** The two ways in which a user is identified. *)
Lemma resolve_by_metadata e st session userId :
  required (metadata session !! "user_id") = Some userId →
  CheckoutConfirm.resolve_user session e st = (Val (Some userId), st).
Proof.
  intros H. unfold CheckoutConfirm.resolve_user.
  rewrite (required_truthy _ _ H). cbn [negb].
  by destruct (required_Some _ _ H) as [-> _].
Qed.

Lemma resolve_by_email e st session email row :
  truthy (metadata session !! "user_id") = false →
  required (customer_email session) = Some email →
  faults e (UserSelectByEmail email) = Proceed →
  filter (λ r, u_email r = email) (tbl_user st) = [row] →
  CheckoutConfirm.resolve_user session e st
  = (Val (Some (u_id row)), log (UserSelectByEmail email) st).
Proof.
  intros Hm He Hf Hrow. unfold CheckoutConfirm.resolve_user.
  rewrite Hm, He. cbn [negb].
  unfold user_by_email. erewrite bind_Val by (by apply query_Proceed).
  cbn [fst snd tbl_user log]. rewrite Hrow. reflexivity.
Qed.

Section ConfirmFacts.
Import CheckoutConfirm.

Variables (e : env) (st : store) (req : request) (session_id : string).
Variable session : session.
Hypothesis Hmethod : method req = "GET".
Hypothesis Hid : required (query req !! "session_id") = Some session_id.
Hypothesis Hsession :
  sessions_retrieve session_id e st
  = (Val session, log (StripeRetrieve session_id) st).

Lemma handler_confirm :
  handler req e st
  = try_catch (confirm session_id)
      (λ x, now ← new_Date; mret (error_reply session_id x now)) e st.
Proof using Hmethod Hid.
  unfold handler. rewrite Hmethod, String.eqb_refl. cbn [negb].
  by rewrite Hid.
Qed.

Lemma handler_pending :
  payment_status session ≠ "paid" →
  handler req e st
  = (Val (pending_reply session), log (StripeRetrieve session_id) st).
Proof using Hmethod Hid Hsession.
  intros Hp. rewrite handler_confirm. apply try_catch_Val.
  unfold confirm. erewrite bind_Val by exact Hsession.
  by destruct (String.eqb_spec (payment_status session) "paid").
Qed.

Variables (u : value) (st1 : store).
Hypothesis Hpaid : payment_status session = "paid".
Hypothesis Hresolve :
  resolve_user session e (log (StripeRetrieve session_id) st) = (Val u, st1).

Lemma handler_unidentified :
  truthy u = false →
  handler req e st = (Val (unidentified_reply session), st1).
Proof using Hmethod Hid Hsession Hpaid Hresolve.
  intros Hu. rewrite handler_confirm. apply try_catch_Val.
  unfold confirm. erewrite bind_Val by exact Hsession.
  rewrite Hpaid, String.eqb_refl.
  erewrite bind_Val by exact Hresolve.
  by rewrite (required_falsy _ Hu).
Qed.

Variable userId : string.
Hypothesis Huser : required u = Some userId.

Lemma handler_activated :
  let expiry := thirty_days_from e (clock e) in
  faults e (UserUpdate userId (premium_patch expiry session)) = Proceed →
  handler req e st
  = (Val (activated_reply session userId expiry),
     with_user (patch_rows userId (premium_patch expiry session) (tbl_user st1))
       (log (UserUpdate userId (premium_patch expiry session)) st1)).
Proof using Hmethod Hid Hsession Hpaid Hresolve Huser.
  intros expiry Hf. rewrite handler_confirm. apply try_catch_Val.
  unfold confirm. erewrite bind_Val by exact Hsession.
  rewrite Hpaid, String.eqb_refl.
  erewrite bind_Val by exact Hresolve.
  rewrite Huser. run_M. fold expiry.
  by rewrite (user_update_done e st1 _ _ Hf).
Qed.

Lemma handler_not_updated err :
  let expiry := thirty_days_from e (clock e) in
  faults e (UserUpdate userId (premium_patch expiry session)) = Fail err →
  handler req e st
  = (Val (not_updated_reply session err),
     log (UserUpdate userId (premium_patch expiry session)) st1).
Proof using Hmethod Hid Hsession Hpaid Hresolve Huser.
  intros expiry Hf. rewrite handler_confirm. apply try_catch_Val.
  unfold confirm. erewrite bind_Val by exact Hsession.
  rewrite Hpaid, String.eqb_refl.
  erewrite bind_Val by exact Hresolve.
  rewrite Huser. run_M. fold expiry.
  by rewrite (user_update_refused e st1 _ _ err Hf).
Qed.

End ConfirmFacts.

Lemma resolve_user_tables e st session r st' :
  CheckoutConfirm.resolve_user session e st = (r, st') →
  tbl_user st' = tbl_user st.
Proof.
  unfold CheckoutConfirm.resolve_user.
  destruct (negb _); [|by intros [= _ <-]].
  destruct (required _) as [email|]; [|by intros [= _ <-]].
  unfold user_by_email, query_, mbind, M_bind.
  destruct (faults e (UserSelectByEmail email)); cbn.
  - destruct (data _); by intros [= _ <-].
  - by intros [= _ <-].
  - by intros [= _ <-].
Qed.

(** C2, as the handler has it. For a session that Stripe reports as paid
    and whose user is identified, the reply is the COMPLETE one with
    [user_updated = true], provided the directory carries out the update;
    the expiry date is the instant at which the server's local clock
    reads thirty days more than at the call, which is exactly thirty
    times 24 hours after the call when the server's offset from UTC is
    the same at both instants; every row of the user then holds
    [is_premium = true], that expiry date and the Stripe customer.  For a
    session that is not paid the reply is the PENDING one with
    [user_updated = false], and the directory is left alone. *)
Theorem confirm_paid_or_pending e st req session_id session :
  method req = "GET" →
  required (query req !! "session_id") = Some session_id →
  sessions_retrieve session_id e st
  = (Val session, log (StripeRetrieve session_id) st) →
  (payment_status session = "paid" →
   ∀ u st1 userId,
     CheckoutConfirm.resolve_user session e (log (StripeRetrieve session_id) st)
     = (Val u, st1) →
     required u = Some userId →
     let expiry := CheckoutConfirm.thirty_days_from e (clock e) in
     let patch := CheckoutConfirm.premium_patch expiry session in
     let reply := CheckoutConfirm.activated_reply session userId expiry in
     faults e (UserUpdate userId patch) = Proceed →
     ∃ st',
       CheckoutConfirm.handler req e st = (Val reply, st')
       ∧ http reply = 200%Z
       ∧ field "status" (doc reply) = Some (JStr "complete")
       ∧ field "user_updated" (doc reply) = Some (JBool true)
       ∧ field "premium_expires_at" (doc reply) = Some (JDate expiry)
       ∧ (expiry + LocalTZA e (LocalTime (LocalTZA e) (clock e)
                                + 30 * msPerDay) false
          = LocalTime (LocalTZA e) (clock e) + 30 * msPerDay)%Z
       ∧ (LocalTZA e (LocalTime (LocalTZA e) (clock e) + 30 * msPerDay)%Z false
          = LocalTZA e (clock e) true →
          expiry = (clock e + 30 * msPerDay)%Z)
       ∧ tbl_user st' = patch_rows userId patch (tbl_user st)
       ∧ filter (λ r, u_id r = userId) (tbl_user st')
         = apply_patch patch <$> filter (λ r, u_id r = userId) (tbl_user st)
       ∧ ∀ row, is_premium (apply_patch patch row) = Some true
                ∧ premium_expires_at (apply_patch patch row) = Some expiry
                ∧ stripe_customer_id (apply_patch patch row) = customer session)
  ∧ (payment_status session ≠ "paid" →
     let reply := CheckoutConfirm.pending_reply session in
     ∃ st',
       CheckoutConfirm.handler req e st = (Val reply, st')
       ∧ http reply = 200%Z
       ∧ field "status" (doc reply) = Some (JStr "pending")
       ∧ field "user_updated" (doc reply) = Some (JBool false)
       ∧ tbl_user st' = tbl_user st
       ∧ trace st' = (trace st ++ [StripeRetrieve session_id])%list).
Proof.
  intros Hm Hid Hs. split.
  - intros Hpaid u st1 userId Hres Hu expiry patch reply Hf.
    pose proof (resolve_user_tables _ _ _ _ _ Hres) as Htbl.
    cbn [tbl_user log] in Htbl.
    eexists. split.
    { eapply handler_activated; eauto. }
    cbn [tbl_user with_user]. rewrite Htbl.
    repeat split.
    + apply thirty_days_local.
    + apply thirty_days_exact.
    + apply filter_patch_rows.
  - intros Hp reply. eexists. split.
    { eapply handler_pending; eauto. }
    repeat split.
Qed.

Lemma confirm_paid_or_pending_witness :
  let e := Examples.server Examples.quiet in
  let expiry := (Examples.today + 30 * msPerDay)%Z in
  let reply := CheckoutConfirm.activated_reply Examples.paid_u1 "u1" expiry in
  (∃ st',
     CheckoutConfirm.handler (Examples.GET [("session_id", "cs_test_paid")])
       e Examples.shop = (Val reply, st')
     ∧ field "status" (doc reply) = Some (JStr "complete")
     ∧ field "user_updated" (doc reply) = Some (JBool true)
     ∧ field "premium_expires_at" (doc reply) = Some (JDate expiry)
     ∧ filter (λ r, u_id r = "u1") (tbl_user st')
       = [ {| u_id := "u1"; u_email := "a@x.com"; is_premium := Some true;
              premium_expires_at := Some expiry;
              stripe_customer_id := Some "cus_1" |} ])
  ∧ (∃ st',
       CheckoutConfirm.handler (Examples.GET [("session_id", "cs_test_unpaid")])
         e Examples.shop
       = (Val (CheckoutConfirm.pending_reply Examples.unpaid), st')
       ∧ tbl_user st' = tbl_user Examples.shop).
Proof.
  intros e expiry reply. split.
  - destruct (confirm_paid_or_pending e Examples.shop
                (Examples.GET [("session_id", "cs_test_paid")])
                "cs_test_paid" Examples.paid_u1) as [Hpaid _].
    + reflexivity.
    + reflexivity.
    + reflexivity.
    + destruct (Hpaid eq_refl (Some "u1")
                  (log (StripeRetrieve "cs_test_paid") Examples.shop) "u1")
        as (st' & Hrun & _ & Hst & Hup & Hexp & _ & Hexact & _ & Hrows & _).
      * reflexivity.
      * reflexivity.
      * reflexivity.
      * exists st'. rewrite Hexact in Hrun, Hrows by reflexivity.
        repeat split; [exact Hrun | exact Hrows].
  - destruct (confirm_paid_or_pending e Examples.shop
                (Examples.GET [("session_id", "cs_test_unpaid")])
                "cs_test_unpaid" Examples.unpaid) as [_ Hpending].
    + reflexivity.
    + reflexivity.
    + reflexivity.
    + destruct Hpending as (st' & Hrun & _ & _ & _ & Htbl & _).
      * vm_compute. discriminate.
      * exists st'. split; [exact Hrun | exact Htbl].
Defined.

(** C2 as it is stated fails in two places.  Where the directory answers
    the update with an error: the session is paid and its user is
    identified (and stored), yet the reply says [user_updated = false],
    bears no [status], and the row is as it was.  And on a server that
    keeps daylight saving time: on 10 October 2025 at noon in Paris the
    expiry date of the COMPLETE reply is thirty days and one hour
    away. *)
Lemma confirm_paid_not_as_stated :
  let req := Examples.GET [("session_id", "cs_test_paid")] in
  (payment_status Examples.paid_u1 = "paid"
   ∧ CheckoutConfirm.resolve_user Examples.paid_u1
       (Examples.server Examples.read_only) Examples.shop
     = (Val (Some "u1"), Examples.shop)
   ∧ filter (λ r, u_id r = "u1") (tbl_user Examples.shop) = [Examples.u1])
  ∧ (∃ reply st',
       CheckoutConfirm.handler req (Examples.server Examples.read_only)
         Examples.shop = (Val reply, st')
       ∧ field "user_updated" (doc reply) = Some (JBool false)
       ∧ field "status" (doc reply) ≠ Some (JStr "complete")
       ∧ field "premium_expires_at" (doc reply) = None
       ∧ tbl_user st' = tbl_user Examples.shop)
  ∧ (∃ reply st',
       CheckoutConfirm.handler req Examples.paris_october Examples.shop
       = (Val reply, st')
       ∧ field "user_updated" (doc reply) = Some (JBool true)
       ∧ field "premium_expires_at" (doc reply)
         = Some (JDate (clock Examples.paris_october
                        + 30 * msPerDay + 3600000))
       ∧ (clock Examples.paris_october + 30 * msPerDay + 3600000
          ≠ clock Examples.paris_october + 30 * msPerDay)%Z).
Proof.
  split; [|split].
  - repeat split; reflexivity.
  - eexists _, _. split; [vm_compute; reflexivity|].
    repeat split; try reflexivity. vm_compute. discriminate.
  - eexists _, _. split; [vm_compute; reflexivity|].
    repeat split; try reflexivity. vm_compute. discriminate.
Qed.

(** *** Soft failures and the error reply *)

(** The replies that the [try] block can give. *)
Lemma confirm_replies e st session_id reply st' :
  CheckoutConfirm.confirm session_id e st = (Val reply, st') →
  ∃ session,
    (∃ userId expiry,
       reply = CheckoutConfirm.activated_reply session userId expiry)
    ∨ (∃ err, reply = CheckoutConfirm.not_updated_reply session err)
    ∨ reply = CheckoutConfirm.unidentified_reply session
    ∨ reply = CheckoutConfirm.pending_reply session.
Proof.
  unfold CheckoutConfirm.confirm. unfold mbind at 1, M_bind at 1.
  destruct (sessions_retrieve session_id e st) as [[session|x] st0];
    [|discriminate].
  intros H. exists session. revert H.
  destruct (String.eqb _ _); [|intros [= <- _]; auto].
  unfold mbind at 1, M_bind at 1.
  destruct (CheckoutConfirm.resolve_user session e st0) as [[u|x] st1];
    [|discriminate].
  destruct (required u) as [userId|]; [|intros [= <- _]; auto].
  run_M.
  destruct (user_update _ _ e st1) as [[r|x] st2]; [|discriminate].
  destruct (error r) as [err|]; intros [= <- _]; eauto 6.
Qed.

(** The reply bears [status: "error"] exactly when the [try] block
    throws, and it then goes out with HTTP status 500, whereas every
    reply of the [try] block itself, the PENDING one included, goes out
    with status 200. *)
Lemma confirm_error_iff_thrown e st req session_id reply st' :
  method req = "GET" →
  required (query req !! "session_id") = Some session_id →
  CheckoutConfirm.handler req e st = (Val reply, st') →
  (field "status" (doc reply) = Some (JStr "error")
   ↔ ∃ x st1, CheckoutConfirm.confirm session_id e st = (Raise x, st1))
  ∧ (field "status" (doc reply) = Some (JStr "error") → http reply = 500%Z)
  ∧ (field "status" (doc reply) ≠ Some (JStr "error") → http reply = 200%Z).
Proof.
  intros Hm Hid. rewrite (handler_confirm e st req session_id Hm Hid).
  unfold try_catch.
  destruct (CheckoutConfirm.confirm session_id e st) as [[r|x] st0] eqn:Hc.
  - intros [= <- <-].
    destruct (confirm_replies _ _ _ _ _ Hc)
      as (session & [(userId & expiry & ->)|[(err & ->)|[->| ->]]]);
      (split; [split; [discriminate | intros (? & ? & [=])]
              | split; [discriminate | reflexivity]]).
  - run_M. intros [= <- <-]. split; [|split].
    + split; [eauto|]. intros _. cbn. by destruct (exn_message x).
    + reflexivity.
    + intros Hne. exfalso. apply Hne. cbn. by destruct (exn_message x).
Qed.

Lemma query_Raise {A} c (run : env → store → reply A * store) e st x st' :
  query_ c run e st = (Raise x, st') → faults e c = Reject x.
Proof.
  unfold query_. destruct (faults e c); [|discriminate|by intros [= ->]].
  by destruct (run e (log c st)).
Qed.

Lemma resolve_user_Raise e st session x st' :
  CheckoutConfirm.resolve_user session e st = (Raise x, st') →
  ∃ email, faults e (UserSelectByEmail email) = Reject x.
Proof.
  unfold CheckoutConfirm.resolve_user.
  destruct (negb _); [|discriminate].
  destruct (required _) as [email|]; [|discriminate].
  unfold mbind, M_bind.
  destruct (user_by_email email e st) as [[r|x0] st0] eqn:Hq.
  - by destruct (data r).
  - intros [= <- _]. exists email. by apply query_Raise in Hq.
Qed.

(** The [try] block throws only if a remote call fails: Stripe does not
    serve the retrieval or has no such session, or a call to the user
    directory rejects. *)
Lemma confirm_thrown_by_remote e st session_id x st' :
  CheckoutConfirm.confirm session_id e st = (Raise x, st') →
  faults e (StripeRetrieve session_id) ≠ Proceed
  ∨ filter (λ s, s_id s = session_id) (stripe_sessions st) = []
  ∨ ∃ c, faults e c = Reject x
         ∧ ((∃ email, c = UserSelectByEmail email)
            ∨ (∃ userId patch, c = UserUpdate userId patch)).
Proof.
  unfold CheckoutConfirm.confirm. unfold mbind at 1, M_bind at 1.
  unfold sessions_retrieve at 1, stripe_ at 1.
  destruct (faults e (StripeRetrieve session_id)) eqn:Hf;
    [|intros _; left; discriminate..].
  cbn [stripe_sessions log].
  destruct (filter _ (stripe_sessions st)) as [|session rest]; [auto|].
  intros H. right. right. revert H.
  destruct (String.eqb _ _); [|discriminate].
  unfold mbind at 1, M_bind at 1.
  destruct (CheckoutConfirm.resolve_user session e _) as [[u|x0] st1] eqn:Hr.
  - destruct (required u) as [userId|]; [|discriminate].
    run_M.
    destruct (user_update _ _ e st1) as [[r|x0] st2] eqn:Hu.
    + by destruct (error r).
    + intros [= <- _]. apply query_Raise in Hu. eauto 8.
  - intros [= <- _]. apply resolve_user_Raise in Hr as [email He]. eauto 8.
Qed.

(** C3. A paid session whose user is not found is a soft failure with
    the status of a COMPLETE outcome, and the success page shows the
    payment as succeeded.  A paid session whose user is found but whose
    update the directory refuses is a soft failure as well (HTTP 200,
    [user_updated = false]), but its reply has no [status] at all, and
    the success page, which shows whatever [status] says, shows a payment
    error. *)
Theorem confirm_not_updated_has_no_status :
  let e := Examples.server Examples.read_only in
  (∃ st',
     CheckoutConfirm.handler (Examples.GET [("session_id", "cs_test_stranger")])
       e Examples.shop
     = (Val (CheckoutConfirm.unidentified_reply Examples.paid_stranger), st')
     ∧ http (CheckoutConfirm.unidentified_reply Examples.paid_stranger) = 200%Z
     ∧ field "user_updated"
         (doc (CheckoutConfirm.unidentified_reply Examples.paid_stranger))
       = Some (JBool false)
     ∧ field "status"
         (doc (CheckoutConfirm.unidentified_reply Examples.paid_stranger))
       = Some (JStr "complete")
     ∧ Success.after_fetch
         (CheckoutConfirm.unidentified_reply Examples.paid_stranger)
       = Success.PaymentSucceeded)
  ∧ (∃ st',
       CheckoutConfirm.handler (Examples.GET [("session_id", "cs_test_paid")])
         e Examples.shop
       = (Val (CheckoutConfirm.not_updated_reply Examples.paid_u1
                 Examples.denied), st')
       ∧ http (CheckoutConfirm.not_updated_reply Examples.paid_u1
                 Examples.denied) = 200%Z
       ∧ field "user_updated"
           (doc (CheckoutConfirm.not_updated_reply Examples.paid_u1
                   Examples.denied))
         = Some (JBool false)
       ∧ field "status"
           (doc (CheckoutConfirm.not_updated_reply Examples.paid_u1
                   Examples.denied))
         = None
       ∧ Success.after_fetch
           (CheckoutConfirm.not_updated_reply Examples.paid_u1 Examples.denied)
         = Success.PaymentError).
Proof.
  split.
  - eexists. split; [vm_compute; reflexivity|]. repeat split.
  - eexists. split; [vm_compute; reflexivity|]. repeat split.
Qed.

(** ** From the creation of a session to its confirmation *)

(** No reply of the creation handler's [catch] block has status 200. *)
Lemma on_error_not_200 x e st reply st' :
  CheckoutCreate.on_error x e st = (Val reply, st') → http reply ≠ 200%Z.
Proof.
  unfold CheckoutCreate.on_error.
  repeat match goal with
         | |- context [bool_decide ?P] => destruct (bool_decide P)
         end;
    run_M; intros [= <- _]; discriminate.
Qed.

(** A successful creation leaves in Stripe a session whose metadata are
    those of [session_metadata] and whose customer e-mail is the
    request's. *)
Lemma create_success e st req reply st' :
  CheckoutCreate.handler req e st = (Val reply, st') →
  http reply = 200%Z →
  ∃ userId userEmail session,
    required (body req !! "userId") = Some userId
    ∧ required (body req !! "userEmail") = Some userEmail
    ∧ stripe_sessions st' = (stripe_sessions st ++ [session])%list
    ∧ metadata session
      = CheckoutCreate.session_metadata userId userEmail (clock e)
    ∧ customer_email session = Some userEmail.
Proof.
  unfold CheckoutCreate.handler.
  destruct (negb _); [run_M; intros [= <- _]; discriminate|].
  unfold try_catch.
  destruct (required (body req !! "userId")) as [userId|];
    [|run_M; intros [= <- _]; discriminate].
  destruct (required (body req !! "userEmail")) as [userEmail|];
    [|run_M; intros [= <- _]; discriminate].
  destruct (negb _); [run_M; intros [= <- _]; discriminate|].
  run_M. unfold sessions_create, stripe_.
  destruct (faults e _).
  - intros [= <- <-] _. eexists _, _, _. repeat split.
  - intros H Hhttp. by apply on_error_not_200 in H.
  - intros H Hhttp. by apply on_error_not_200 in H.
Qed.

(** C9. The creation endpoint files the user's identifier under the
    metadata key [userId]; the confirmation endpoint looks under
    [user_id].  So for a session created by a successful POST, and for
    any later state of that session that has kept its metadata and its
    customer e-mail, the metadata give no user, and the user is the one,
    if any, that the look-up by customer e-mail returns. *)
Theorem created_session_resolved_by_email e st req reply st' :
  CheckoutCreate.handler req e st = (Val reply, st') →
  http reply = 200%Z →
  ∃ userId userEmail session,
    required (body req !! "userId") = Some userId
    ∧ required (body req !! "userEmail") = Some userEmail
    ∧ stripe_sessions st' = (stripe_sessions st ++ [session])%list
    ∧ metadata session !! "userId" = Some userId
    ∧ metadata session !! "user_id" = None
    ∧ customer_email session = Some userEmail
    ∧ ∀ later e2 st2,
        metadata later = metadata session →
        customer_email later = customer_email session →
        CheckoutConfirm.resolve_user later e2 st2
        = (r ← user_by_email userEmail; mret (u_id <$> data r)) e2 st2.
Proof.
  intros Hrun Hhttp.
  destruct (create_success _ _ _ _ _ Hrun Hhttp)
    as (userId & userEmail & session & Hu & He & Hs & Hmeta & Hmail).
  exists userId, userEmail, session.
  assert (metadata session !! "user_id" = None) as Hnone.
  { rewrite Hmeta. unfold CheckoutCreate.session_metadata.
    by rewrite !lookup_insert_ne, lookup_empty. }
  repeat split; try done.
  - rewrite Hmeta. unfold CheckoutCreate.session_metadata.
    by rewrite lookup_insert_eq.
  - intros later e2 st2 Hm Hc. unfold CheckoutConfirm.resolve_user.
    rewrite Hm, Hnone, Hc, Hmail. cbn [truthy negb].
    pose proof (required_Some _ _ He) as [_ Hne].
    rewrite (required_intro _ Hne).
    unfold mbind, M_bind. destruct (user_by_email userEmail e2 st2) as [[r|x] s];
      [|reflexivity].
    by destruct (data r).
Qed.

Lemma created_session_resolved_by_email_witness :
  ∃ userId userEmail session,
    required (body (Examples.POST [("userId", "u2"); ("userEmail", "b@x.com")])
                !! "userId") = Some userId
    ∧ required (body (Examples.POST [("userId", "u2"); ("userEmail", "b@x.com")])
                  !! "userEmail") = Some userEmail
    ∧ stripe_sessions
        (CheckoutCreate.handler
           (Examples.POST [("userId", "u2"); ("userEmail", "b@x.com")])
           (Examples.server Examples.quiet) Examples.shop).2
      = (stripe_sessions Examples.shop ++ [session])%list
    ∧ metadata session !! "userId" = Some userId
    ∧ metadata session !! "user_id" = None
    ∧ customer_email session = Some userEmail
    ∧ ∀ later e2 st2,
        metadata later = metadata session →
        customer_email later = customer_email session →
        CheckoutConfirm.resolve_user later e2 st2
        = (r ← user_by_email userEmail; mret (u_id <$> data r)) e2 st2.
Proof.
  eapply (created_session_resolved_by_email (Examples.server Examples.quiet)
            Examples.shop
            (Examples.POST [("userId", "u2"); ("userEmail", "b@x.com")])).
  - vm_compute. reflexivity.
  - reflexivity.
Defined.

(** ** Favourites: the client service *)

Section ServiceFacts.
Import FavorisService.

Variable toLowerCase : string → string.
Variables (e : env) (st : store) (userId ville : string).
Hypothesis Hselect : faults e (FavorisSelect userId) = Proceed.

Lemma favoris_select_rows :
  favoris_select userId e st
  = (Val (answer (favoris_of userId (tbl_favoris st))),
     log (FavorisSelect userId) st).
Proof using Hselect. unfold favoris_select. by rewrite query_Proceed. Qed.

(** With three favourites or more the service answers with the limit
    message after its read, whatever the name. *)
Lemma ajouterFavori_limit :
  (3 <= length (favoris_of userId (tbl_favoris st)))%nat →
  ajouterFavori toLowerCase userId ville e st
  = (Val {| o_data := None; o_error := Some limite |},
     log (FavorisSelect userId) st).
Proof using Hselect.
  intros Hlen. unfold ajouterFavori. apply try_catch_Val.
  erewrite bind_Val by apply favoris_select_rows.
  cbn [error data answer].
  by destruct (Nat.leb_spec 3 (length (favoris_of userId (tbl_favoris st))));
    [|lia].
Qed.


End ServiceFacts.

(** ** Favourites: the API route *)

Section ApiFacts.
Import FavorisApi.

Variables (e : env) (st : store) (req : request) (ville : string).
Hypothesis Hmethod : method req = "POST".
Hypothesis Hville : required (body req !! "ville") = Some ville.
Hypothesis Hprobe : faults e FavorieProbe = Proceed.

(** A POST with a [ville] gets past the probe and into [case "POST"]. *)
Lemma handler_post :
  handler req e st = try_catch (post req) on_error e (log FavorieProbe st).
Proof using Hmethod Hprobe.
  unfold handler, try_catch.
  erewrite bind_Val
    by (unfold favorie_probe; by apply query_Proceed).
  cbn [fst snd error answer]. unfold route.
  by rewrite Hmethod.
Qed.

Lemma favorie_count_rows userId st0 :
  faults e (FavorieCount userId) = Proceed →
  favorie_count userId e st0
  = (Val (answer (favorie_of userId (tbl_favorie st0))),
     log (FavorieCount userId) st0).
Proof. intros Hf. unfold favorie_count. by rewrite query_Proceed. Qed.

(** Without a [userId] nothing is counted: the handler goes straight to
    the insertion. *)
Lemma handler_anonymous :
  truthy (body req !! "userId") = false →
  handler req e st
  = try_catch (insert_favori (body req !! "userId") ville) on_error
      e (log FavorieProbe st).
Proof using Hmethod Hville Hprobe.
  intros Hu. rewrite handler_post. unfold post.
  by rewrite Hville, (required_falsy _ Hu).
Qed.

Variable userId : string.
Hypothesis HuserId : required (body req !! "userId") = Some userId.
Hypothesis Hcount : faults e (FavorieCount userId) = Proceed.

Lemma handler_limit :
  (3 <= length (favorie_of userId (tbl_favorie st)))%nat →
  handler req e st
  = (Val (limit_reply (length (favorie_of userId (tbl_favorie st)))),
     log (FavorieCount userId) (log FavorieProbe st)).
Proof using Hmethod Hville Hprobe HuserId Hcount.
  intros Hlen. rewrite handler_post. apply try_catch_Val.
  unfold post. rewrite Hville, HuserId.
  erewrite bind_Val by (by apply favorie_count_rows).
  cbn [error data answer tbl_favorie log].
  by destruct (Nat.leb_spec 3 (length (favorie_of userId (tbl_favorie st))));
    [|lia].
Qed.

(** Below the limit the handler compares no names: it goes on to the
    insertion. *)
Lemma handler_below_limit :
  (length (favorie_of userId (tbl_favorie st)) < 3)%nat →
  handler req e st
  = try_catch (insert_favori (body req !! "userId") ville) on_error
      e (log (FavorieCount userId) (log FavorieProbe st)).
Proof using Hmethod Hville Hprobe HuserId Hcount.
  intros Hlen. rewrite handler_post. unfold post.
  rewrite Hville, HuserId. unfold try_catch at 1.
  erewrite bind_Val by (by apply favorie_count_rows).
  cbn [error data answer tbl_favorie log].
  by destruct (Nat.leb_spec 3 (length (favorie_of userId (tbl_favorie st))));
    [lia|].
Qed.

End ApiFacts.

(** What the insertion step does, by the fate of the insertion. *)
Lemma insert_favori_created e st postUserId ville :
  faults e (FavorieInsert (required postUserId) ville) = Proceed →
  let row := {| f_id := fresh_row e; f_user_id := required postUserId;
                f_ville := ville; f_created_at := clock e |} in
  try_catch (FavorisApi.insert_favori postUserId ville) FavorisApi.on_error e st
  = (Val (FavorisApi.created_reply (Some row)),
     with_favorie (tbl_favorie st ++ [row])
       (log (FavorieInsert (required postUserId) ville) st)).
Proof.
  intros Hf row. apply try_catch_Val. unfold FavorisApi.insert_favori.
  erewrite bind_Val
    by (unfold favorie_insert; by apply query_Proceed).
  reflexivity.
Qed.


(** C4. Once a user has three favourites or more, adding fails with the
    limit error whatever the place name: in the client service after the
    read of the user's favourites, and in the API route after the count,
    for a request that names a place.  Nothing is inserted. *)
Theorem add_at_limit :
  (∀ toLowerCase e st userId ville,
     faults e (FavorisSelect userId) = Proceed →
     (3 <= length (favoris_of userId (tbl_favoris st)))%nat →
     ∃ st',
       FavorisService.ajouterFavori toLowerCase userId ville e st
       = (Val {| FavorisService.o_data := None;
                 FavorisService.o_error := Some FavorisService.limite |}, st')
       ∧ tbl_favoris st' = tbl_favoris st
       ∧ trace st' = (trace st ++ [FavorisSelect userId])%list)
  ∧ (∀ e st req userId ville,
       method req = "POST" →
       required (body req !! "userId") = Some userId →
       required (body req !! "ville") = Some ville →
       faults e FavorieProbe = Proceed →
       faults e (FavorieCount userId) = Proceed →
       (3 <= length (favorie_of userId (tbl_favorie st)))%nat →
       ∃ reply st',
         FavorisApi.handler req e st = (Val reply, st')
         ∧ reply = FavorisApi.limit_reply
                     (length (favorie_of userId (tbl_favorie st)))
         ∧ http reply = 400%Z
         ∧ field "error" (doc reply) = Some (JStr "Limite de 3 favoris atteinte")
         ∧ tbl_favorie st' = tbl_favorie st
         ∧ trace st' = (trace st ++ [FavorieProbe; FavorieCount userId])%list).
Proof.
  split.
  - intros toLowerCase e st userId ville Hs Hlen. eexists. split.
    + by apply ajouterFavori_limit.
    + by split.
  - intros e st req userId ville Hm Hu Hv Hp Hc Hlen. eexists _, _. split.
    + eapply handler_limit; eauto.
    + repeat split. cbn [trace log]. by rewrite <- app_assoc.
Qed.

Lemma add_at_limit_witness :
  (∃ st',
     FavorisService.ajouterFavori FavorisService.asciiLowerCase
       "a@x.com" "Marseille" (Examples.server Examples.quiet)
       Examples.favourites
     = (Val {| FavorisService.o_data := None;
               FavorisService.o_error := Some "Limite de 3 favoris atteinte" |},
        st')
     ∧ tbl_favoris st' = tbl_favoris Examples.favourites
     ∧ trace st' = [FavorisSelect "a@x.com"])
  ∧ (∃ reply st',
       FavorisApi.handler
         (Examples.POST [("userId", "a@x.com"); ("ville", "Marseille")])
         (Examples.server Examples.quiet) Examples.favourites
       = (Val reply, st')
       ∧ reply = FavorisApi.limit_reply 3
       ∧ http reply = 400%Z
       ∧ field "error" (doc reply) = Some (JStr "Limite de 3 favoris atteinte")
       ∧ tbl_favorie st' = tbl_favorie Examples.favourites
       ∧ trace st' = [FavorieProbe; FavorieCount "a@x.com"]).
Proof.
  destruct add_at_limit as [Hservice Hapi]. split.
  - apply (Hservice FavorisService.asciiLowerCase
             (Examples.server Examples.quiet) Examples.favourites
             "a@x.com" "Marseille").
    + reflexivity.
    + vm_compute. lia.
  - apply (Hapi (Examples.server Examples.quiet) Examples.favourites
             (Examples.POST [("userId", "a@x.com"); ("ville", "Marseille")])
             "a@x.com" "Marseille").
    + reflexivity.
    + reflexivity.
    + reflexivity.
    + reflexivity.
    + reflexivity.
    + vm_compute. lia.
Defined.

(** C5, as the code has it. The user who has the three favourites Paris,
    Lyon and Nice is refused both [paris] and [Marseille] with the limit
    error, by the client service (whatever the case mapping) and by the
    API route: the limit is looked at before the names are. *)
Theorem three_favourites_scenario :
  ∀ toLowerCase,
    let e := Examples.server Examples.quiet in
    let add ville :=
      FavorisService.ajouterFavori toLowerCase "a@x.com" ville e
        Examples.favourites in
    let post ville :=
      FavorisApi.handler
        (Examples.POST [("userId", "a@x.com"); ("ville", ville)]) e
        Examples.favourites in
    let refused :=
      (Val {| FavorisService.o_data := None;
              FavorisService.o_error := Some FavorisService.limite |},
       log (FavorisSelect "a@x.com") Examples.favourites) in
    let refused_by_api :=
      (Val (FavorisApi.limit_reply 3),
       log (FavorieCount "a@x.com") (log FavorieProbe Examples.favourites)) in
    add "paris" = refused
    ∧ add "Marseille" = refused
    ∧ post "paris" = refused_by_api
    ∧ post "Marseille" = refused_by_api.
Proof.
  intros toLowerCase e add post refused refused_by_api.
  repeat split;
    solve [ apply ajouterFavori_limit; [reflexivity | vm_compute; lia]
          | vm_compute; reflexivity ].
Qed.

(** C5 as it is stated fails on [paris]: the user has Paris, Lyon and
    Nice, and the error is that of the limit, not that of a duplicate, in
    the service and in the API route alike. *)
Lemma three_favourites_paris_not_duplicate :
  favoris_of "a@x.com" (tbl_favoris Examples.favourites)
  = firstn 3 Examples.favoris_3
  ∧ (∃ o st',
       FavorisService.ajouterFavori FavorisService.asciiLowerCase
         "a@x.com" "paris" (Examples.server Examples.quiet)
         Examples.favourites = (Val o, st')
       ∧ FavorisService.o_error o = Some FavorisService.limite
       ∧ FavorisService.o_error o ≠ Some FavorisService.doublon)
  ∧ (∃ reply st',
       FavorisApi.handler
         (Examples.POST [("userId", "a@x.com"); ("ville", "paris")])
         (Examples.server Examples.quiet) Examples.favourites
       = (Val reply, st')
       ∧ reply = FavorisApi.limit_reply 3
       ∧ reply ≠ FavorisApi.duplicate_reply "paris").
Proof.
  split; [reflexivity|]. split.
  - eexists _, _. split; [vm_compute; reflexivity|].
    split; [reflexivity | discriminate].
  - eexists _, _. split; [vm_compute; reflexivity|].
    split; [reflexivity | discriminate].
Qed.




(** C10. A POST that names a place but no user is not counted against
    any limit: after the probe of the table the handler goes straight to
    the insertion, and, the database accepting it, the favourite is
    created without an owner, however many rows the table holds. *)
Theorem post_without_user_skips_limit e st req ville :
  method req = "POST" →
  truthy (body req !! "userId") = false →
  required (body req !! "ville") = Some ville →
  faults e FavorieProbe = Proceed →
  FavorisApi.handler req e st
  = try_catch (FavorisApi.insert_favori (body req !! "userId") ville)
      FavorisApi.on_error e (log FavorieProbe st)
  ∧ (faults e (FavorieInsert None ville) = Proceed →
     ∃ row st',
       FavorisApi.handler req e st
       = (Val (FavorisApi.created_reply (Some row)), st')
       ∧ f_user_id row = None
       ∧ f_ville row = ville
       ∧ tbl_favorie st' = (tbl_favorie st ++ [row])%list
       ∧ trace st'
         = (trace st ++ [FavorieProbe; FavorieInsert None ville])%list).
Proof.
  intros Hm Hu Hv Hp.
  pose proof (handler_anonymous e st req ville Hm Hv Hp Hu) as Hrun.
  split; [exact Hrun|]. intros Hf. eexists _, _. split.
  - rewrite Hrun. apply insert_favori_created.
    by rewrite (required_falsy _ Hu).
  - rewrite (required_falsy _ Hu). repeat split.
    cbn [trace with_favorie log]. by rewrite <- app_assoc.
Qed.

Lemma post_without_user_skips_limit_witness :
  let req := Examples.POST [("ville", "Marseille")] in
  let e := Examples.server Examples.quiet in
  FavorisApi.handler req e Examples.favourites
  = try_catch (FavorisApi.insert_favori (body req !! "userId") "Marseille")
      FavorisApi.on_error e (log FavorieProbe Examples.favourites)
  ∧ (faults e (FavorieInsert None "Marseille") = Proceed →
     ∃ row st',
       FavorisApi.handler req e Examples.favourites
       = (Val (FavorisApi.created_reply (Some row)), st')
       ∧ f_user_id row = None
       ∧ f_ville row = "Marseille"
       ∧ tbl_favorie st' = (tbl_favorie Examples.favourites ++ [row])%list
       ∧ trace st'
         = (trace Examples.favourites
              ++ [FavorieProbe; FavorieInsert None "Marseille"])%list).
Proof.
  intros req e.
  apply (post_without_user_skips_limit e Examples.favourites req "Marseille").
  - reflexivity.
  - reflexivity.
  - reflexivity.
  - reflexivity.
Defined.

(** ** The authentication context *)

Section SessionFacts.
Import DemoAuth AuthProvider.

(** The error thrown for a refused live registration speaks of 422
    exactly when the provider's message does and is not one of the three
    that are translated for the user. *)
Lemma signUp_message_422 message :
  includes (signUp_message message) "422"
  = mentions message "422" && negb (user_facing message).
Proof.
  unfold signUp_message, user_facing.
  destruct (mentions message "User already registered");
    [by rewrite andb_false_r|].
  destruct (mentions message "Signup is disabled");
    [by rewrite andb_false_r|].
  destruct (mentions message "Email rate limit exceeded");
    [by rewrite andb_false_r|].
  rewrite andb_true_r. by destruct message.
Qed.

(** What the [try] block of a live [signUp] throws, if it throws, speaks
    of 422 exactly for an unprocessable registration. *)
Lemma signUp_try_422 bk s email password userData x calls :
  isDemoMode s = false →
  signUp_try bk s email password userData = (Raise x, calls) →
  calls = [LiveSignUp email password]
  ∧ mentions (exn_message x) "422"
    = unprocessable (auth_signUp bk email password).
Proof.
  intros Hlive. unfold signUp_try, unprocessable. rewrite Hlive.
  destruct (auth_signUp bk email password) as [u|message|x'].
  - discriminate.
  - intros [= <- <-]. split; [done|]. apply signUp_message_422.
  - by intros [= <- <-].
Qed.

Lemma signUp_try_thrown bk s email password userData :
  isDemoMode s = false →
  unprocessable (auth_signUp bk email password) = true →
  ∃ x, signUp_try bk s email password userData
       = (Raise x, [LiveSignUp email password]).
Proof.
  intros Hlive. unfold signUp_try, unprocessable. rewrite Hlive.
  destruct (auth_signUp bk email password) as [u|message|x'];
    [discriminate|eauto..].
Qed.

(** A registration changes the mode only by the fallback. *)
Lemma signUp_mode bk s email password userData :
  isDemoMode (signUp bk email password userData s).1.2
  = isDemoMode s
    || unprocessable (auth_signUp bk email password).
Proof.
  unfold signUp.
  destruct (signUp_try bk s email password userData) as [[r|x] calls] eqn:Htry.
  - cbn [fst snd]. destruct (isDemoMode s) eqn:Hmode; [reflexivity|].
    cbn [orb]. revert Htry. unfold signUp_try, unprocessable. rewrite Hmode.
    by destruct (auth_signUp bk email password).
  - destruct (isDemoMode s) eqn:Hmode; cbn [negb andb orb].
    + cbn [fst snd]. exact Hmode.
    + destruct (signUp_try_422 _ _ _ _ _ _ _ Hmode Htry) as [_ ->].
      destruct (unprocessable _); cbn [fst snd]; [reflexivity|exact Hmode].
Qed.



End SessionFacts.



(** A refusal worded for the user does not switch the mode, even if its
    message speaks of 422. *)
Example signUp_already_registered :
  let bk := AuthExamples.refusing "422 User already registered" in
  AuthProvider.signUp bk "jean@x.com" "secret1" AuthExamples.jean
    AuthExamples.live_start
  = ({| AuthProvider.f_data := None;
        AuthProvider.f_error := Some "Cette adresse email est déjà utilisée" |},
     AuthExamples.live_start,
     [AuthProvider.LiveSignUp "jean@x.com" "secret1"]).
Proof. reflexivity. Qed.

(** * Further properties of the handlers *)

(** ** GET /api/users/premium-status: guards, failures, footprint *)

(** A request that is not a GET, or a GET without a [userId], is turned
    away (405, 400) before any remote call: the store, trace included,
    is the very same. *)
Lemma premium_status_guards req e st :
  method req ≠ "GET" ∨ truthy (query req !! "userId") = false →
  ∃ reply,
    PremiumStatus.handler req e st = (Val reply, st)
    ∧ http reply = (if String.eqb (method req) "GET" then 400 else 405)%Z.
Proof.
  intros Hguard. unfold PremiumStatus.handler.
  destruct (String.eqb_spec (method req) "GET") as [Hm|Hm]; cbn [negb].
  - destruct Hguard as [Hne|Hu]; [done|].
    rewrite (required_falsy _ Hu). eexists. split; reflexivity.
  - eexists. split; reflexivity.
Qed.

Lemma premium_status_guards_witness :
  ∃ reply,
    PremiumStatus.handler (Examples.POST [("userId", "u1")])
      (Examples.server Examples.quiet) Examples.directory
    = (Val reply, Examples.directory)
    ∧ http reply = 405%Z.
Proof.
  apply (premium_status_guards (Examples.POST [("userId", "u1")])
           (Examples.server Examples.quiet) Examples.directory).
  left. vm_compute. discriminate.
Defined.

(** X1. When the read of the user's row comes back with an error, the reply
    is 404 for error code PGRST116 and 500, with the error's message, for
    any other; in particular an identifier that no row, or more than one
    row, carries gets 404.  Nothing is written. *)
Theorem premium_status_read_error req e st userId :
  method req = "GET" →
  required (query req !! "userId") = Some userId →
  (∀ err,
     faults e (UserSelectById userId) = Fail err →
     ∃ reply,
       PremiumStatus.handler req e st
       = (Val reply, log (UserSelectById userId) st)
       ∧ http reply = (if String.eqb (code err) "PGRST116" then 404 else 500)%Z
       ∧ (code err ≠ "PGRST116" →
          field "details" (doc reply) = Some (JStr (message err))))
  ∧ (faults e (UserSelectById userId) = Proceed →
     (∀ row, filter (λ r, u_id r = userId) (tbl_user st) ≠ [row]) →
     PremiumStatus.handler req e st
     = (Val {| http := 404;
               doc := JObj [("error", JStr "Utilisateur non trouvé");
                            ("userId", JStr userId)] |},
        log (UserSelectById userId) st)).
Proof.
  intros Hm Hu. split.
  - intros err Hf. unfold PremiumStatus.handler.
    rewrite Hm, String.eqb_refl, Hu. cbn [negb].
    unfold try_catch, user_by_id. erewrite bind_Val by (by apply query_Fail).
    cbn [error failed].
    destruct (String.eqb_spec (code err) "PGRST116") as [Hc|Hc];
      (eexists; split; [reflexivity|]); split; try reflexivity; done.
  - intros Hf Hrows. unfold PremiumStatus.handler.
    rewrite Hm, String.eqb_refl, Hu. cbn [negb].
    unfold try_catch, user_by_id. erewrite bind_Val by (by apply query_Proceed).
    cbn [fst snd tbl_user log].
    destruct (filter _ (tbl_user st)) as [|row [|row' rows]] eqn:Hrow;
      try reflexivity.
    by destruct (Hrows row).
Qed.

Lemma premium_status_read_error_witness :
  PremiumStatus.handler (Examples.GET [("userId", "nobody")])
    (Examples.server Examples.quiet) Examples.directory
  = (Val {| http := 404;
            doc := JObj [("error", JStr "Utilisateur non trouvé");
                         ("userId", JStr "nobody")] |},
     log (UserSelectById "nobody") Examples.directory).
Proof.
  destruct (premium_status_read_error (Examples.GET [("userId", "nobody")])
              (Examples.server Examples.quiet) Examples.directory "nobody")
    as [_ Hnone].
  - reflexivity.
  - reflexivity.
  - apply Hnone.
    + reflexivity.
    + intros row. vm_compute. discriminate.
Defined.

(** The footprint of the three remote calls on the user directory. *)
Lemma query_footprint {A} c (run : env → store → reply A * store) e st r st' :
  query_ c run e st = (r, st') →
  st' = log c st ∨ (faults e c = Proceed ∧ st' = (run e (log c st)).2).
Proof.
  unfold query_. destruct (faults e c).
  - destruct (run e (log c st)) as [r0 st0]. intros [= _ <-]. auto.
  - intros [= _ <-]. auto.
  - intros [= _ <-]. auto.
Qed.

Lemma user_by_id_contents e st id r st' :
  user_by_id id e st = (r, st') → Footprint.same_contents st st'.
Proof.
  intros H. apply query_footprint in H as [-> | [_ ->]]; by repeat split.
Qed.

Lemma user_by_email_contents e st email r st' :
  user_by_email email e st = (r, st') → Footprint.same_contents st st'.
Proof.
  intros H. apply query_footprint in H as [-> | [_ ->]]; by repeat split.
Qed.

Lemma user_update_contents e st id p r st' :
  user_update id p e st = (r, st') →
  Footprint.same_favourites st st'
  ∧ stripe_sessions st' = stripe_sessions st
  ∧ (tbl_user st' = tbl_user st
     ∨ (faults e (UserUpdate id p) = Proceed
        ∧ tbl_user st' = patch_rows id p (tbl_user st))).
Proof.
  intros H. apply query_footprint in H as [-> | [Hf ->]];
    repeat split; auto.
Qed.

(** A row of a patched table is a row of the table, patched if it is the
    user's. *)
Lemma elem_of_patch_rows id p rows r' :
  r' ∈ patch_rows id p rows →
  (r' ∈ rows ∧ u_id r' ≠ id)
  ∨ ∃ r, r ∈ rows ∧ u_id r = id ∧ r' = apply_patch p r.
Proof.
  unfold patch_rows. intros (r & -> & Hin)%list_elem_of_fmap.
  destruct (decide (u_id r = id)); eauto.
Qed.

Lemma same_contents_refl st : Footprint.same_contents st st.
Proof. by repeat split. Qed.

(** What the theorem below says of the stores, for a store whose tables
    are as they were. *)
Lemma nothing_granted_when_same st st' :
  Footprint.same_contents st st' →
  Footprint.same_favourites st st'
  ∧ stripe_sessions st' = stripe_sessions st
  ∧ length (tbl_user st') = length (tbl_user st)
  ∧ ∀ r', r' ∈ tbl_user st' → is_premium r' = Some true → r' ∈ tbl_user st.
Proof. intros (Hu & [Hf Hf'] & Hs). rewrite Hu. by repeat split. Qed.

(** X2. Whatever the request and whatever the remote services do, the
    handler of the premium status replies: no exception escapes it.  It
    leaves the favourites and the Stripe sessions alone, and it grants
    nothing: a row of the user directory that is premium after the call
    is a row that was there, as it is, before the call. *)
Theorem premium_status_never_grants req e st :
  ∃ reply st',
    PremiumStatus.handler req e st = (Val reply, st')
    ∧ Footprint.same_favourites st st'
    ∧ stripe_sessions st' = stripe_sessions st
    ∧ length (tbl_user st') = length (tbl_user st)
    ∧ ∀ r', r' ∈ tbl_user st' → is_premium r' = Some true → r' ∈ tbl_user st.
Proof.
  unfold PremiumStatus.handler.
  destruct (negb _).
  { eexists _, _. split; [reflexivity|].
    apply nothing_granted_when_same, same_contents_refl. }
  unfold try_catch.
  destruct (required (query req !! "userId")) as [userId|].
  2:{ eexists _, _. split; [reflexivity|].
      apply nothing_granted_when_same, same_contents_refl. }
  unfold mbind at 1, M_bind at 1.
  destruct (user_by_id userId e st) as [[r|x] st1] eqn:Hread;
    pose proof (user_by_id_contents _ _ _ _ _ Hread) as Hsame.
  2:{ eexists _, _. split; [reflexivity|].
      by apply nothing_granted_when_same. }
  destruct (error r) as [err|].
  { destruct (String.eqb _ _); eexists _, _; (split; [reflexivity|]);
      by apply nothing_granted_when_same. }
  destruct (default false (data r ≫= is_premium)) eqn:Hstored.
  2:{ eexists _, _. split; [reflexivity|].
      by apply nothing_granted_when_same. }
  destruct (data r ≫= premium_expires_at) as [t|] eqn:Hexp.
  2:{ eexists _, _. split; [reflexivity|].
      by apply nothing_granted_when_same. }
  run_M. destruct (clock e >? t)%Z.
  2:{ eexists _, _. split; [reflexivity|].
      by apply nothing_granted_when_same. }
  destruct Hsame as (Hu1 & [Hf1 Hf1'] & Hs1).
  assert (∃ st2 (res : result (reply ())),
            user_update userId PremiumStatus.expired_patch e st1 = (res, st2))
    as (st2 & res & Hupd) by (eexists _, _; apply surjective_pairing).
  pose proof (user_update_contents _ _ _ _ _ _ Hupd)
    as ([Hf2 Hf2'] & Hs2 & Hu2).
  rewrite Hupd.
  assert (Footprint.same_favourites st st2
          ∧ stripe_sessions st2 = stripe_sessions st
          ∧ length (tbl_user st2) = length (tbl_user st)
          ∧ ∀ r', r' ∈ tbl_user st2 → is_premium r' = Some true
                  → r' ∈ tbl_user st) as Hgoal.
  { split; [split; congruence|]. split; [congruence|].
    destruct Hu2 as [Hu2|[_ Hu2]]; rewrite Hu2, Hu1.
    - by split.
    - split; [unfold patch_rows; by rewrite length_fmap|].
      intros r' Hin Hp.
      apply elem_of_patch_rows in Hin as [[Hin _]|(r0 & _ & _ & ->)];
        [done|discriminate Hp]. }
  destruct res as [r2|x]; eexists _, _; (split; [reflexivity|exact Hgoal]).
Qed.

(** X3. The reply says [is_premium = true] only for a user who is stored as
    premium with an expiry date that is absent or not yet passed at the
    server's clock, and nothing has been written then. *)
Theorem premium_status_true_is_stored req e st reply st' :
  PremiumStatus.handler req e st = (Val reply, st') →
  field "is_premium" (doc reply) = Some (JBool true) →
  ∃ userId row,
    query req !! "userId" = Some userId
    ∧ filter (λ r, u_id r = userId) (tbl_user st) = [row]
    ∧ is_premium row = Some true
    ∧ (∀ t, premium_expires_at row = Some t → (clock e <= t)%Z)
    ∧ st' = log (UserSelectById userId) st.
Proof.
  unfold PremiumStatus.handler.
  destruct (negb _); [by intros [= <- _]|].
  unfold try_catch.
  destruct (required (query req !! "userId")) as [userId|] eqn:Hu;
    [|by intros [= <- _]].
  apply required_Some in Hu as [Hu _].
  unfold mbind at 1, M_bind at 1. unfold user_by_id, query_.
  destruct (faults e (UserSelectById userId)).
  - cbn [tbl_user log].
    destruct (filter _ (tbl_user st)) as [|row [|row' rows]] eqn:Hrow;
      cbn [single error data answer failed PGRST116 code String.eqb];
      try (by run_M; intros [= <- _]).
    cbn [mbind option_bind].
    destruct (is_premium row) as [[]|] eqn:Hp; cbn [default from_option];
      unfold id; try (by run_M; intros [= <- _]).
    destruct (premium_expires_at row) as [t|] eqn:Ht.
    + run_M. destruct (Z.gtb_spec (clock e) t) as [Hgt|Hle].
      * destruct (user_update _ _ _ _) as [[r2|x] st2]; cbn beta iota zeta;
          intros [= <- _]; try destruct (exn_message x); cbn; discriminate.
      * intros [= <- <-] _. exists userId, row. repeat split; try done.
        intros t' Ht'. rewrite Ht in Ht'. by injection Ht' as <-.
    + run_M. intros [= <- <-] _. exists userId, row.
      repeat split; try done. intros t'. by rewrite Ht.
  - cbn [error failed]. destruct (String.eqb _ _); by intros [= <- _].
  - run_M. intros [= <- _]. destruct (exn_message x); cbn; discriminate.
Qed.

Lemma premium_status_true_is_stored_witness :
  ∃ userId row,
    query (Examples.GET [("userId", "u3")]) !! "userId" = Some userId
    ∧ filter (λ r, u_id r = userId) (tbl_user Examples.directory) = [row]
    ∧ is_premium row = Some true
    ∧ (∀ t, premium_expires_at row = Some t
            → (clock (Examples.server Examples.quiet) <= t)%Z)
    ∧ log (UserSelectById "u3") Examples.directory
      = log (UserSelectById userId) Examples.directory.
Proof.
  eapply (premium_status_true_is_stored (Examples.GET [("userId", "u3")])
            (Examples.server Examples.quiet) Examples.directory).
  - vm_compute. reflexivity.
  - reflexivity.
Defined.

(** ** GET /api/checkout-sessions/[session_id]: guards, failures, footprint *)

(** A request that is not a GET, or a GET without a [session_id], is
    turned away (405, 400) before Stripe or the directory is called. *)
Lemma confirm_guards req e st :
  method req ≠ "GET" ∨ truthy (query req !! "session_id") = false →
  ∃ reply,
    CheckoutConfirm.handler req e st = (Val reply, st)
    ∧ http reply = (if String.eqb (method req) "GET" then 400 else 405)%Z
    ∧ field "status" (doc reply) = None.
Proof.
  intros Hguard. unfold CheckoutConfirm.handler.
  destruct (String.eqb_spec (method req) "GET") as [Hm|Hm]; cbn [negb].
  - destruct Hguard as [Hne|Hu]; [done|].
    rewrite (required_falsy _ Hu). eexists. by repeat split.
  - eexists. by repeat split.
Qed.

Lemma confirm_guards_witness :
  ∃ reply,
    CheckoutConfirm.handler (Examples.GET []) (Examples.server Examples.quiet)
      Examples.shop = (Val reply, Examples.shop)
    ∧ http reply = 400%Z
    ∧ field "status" (doc reply) = None.
Proof.
  apply (confirm_guards (Examples.GET []) (Examples.server Examples.quiet)
           Examples.shop).
  right. reflexivity.
Defined.

(** X4. For an identifier under which Stripe holds no session, the retrieval
    throws and the reply is the error one: HTTP 500, [status: "error"],
    Stripe's message as [details].  The user directory is not even
    read. *)
Theorem confirm_unknown_session req e st session_id :
  method req = "GET" →
  required (query req !! "session_id") = Some session_id →
  faults e (StripeRetrieve session_id) = Proceed →
  filter (λ s, s_id s = session_id) (stripe_sessions st) = [] →
  CheckoutConfirm.handler req e st
  = (Val (CheckoutConfirm.error_reply session_id
            {| exn_type := Some "StripeInvalidRequestError";
               exn_message := Some ("No such checkout.session: " +:+ session_id) |}
            (clock e)),
     log (StripeRetrieve session_id) st)
  ∧ field "details"
      (doc (CheckoutConfirm.error_reply session_id
              {| exn_type := Some "StripeInvalidRequestError";
                 exn_message :=
                   Some ("No such checkout.session: " +:+ session_id) |}
              (clock e)))
    = Some (JStr ("No such checkout.session: " +:+ session_id)).
Proof.
  intros Hm Hid Hf Hnone. split; [|reflexivity].
  rewrite (handler_confirm e st req session_id Hm Hid).
  erewrite try_catch_Raise; [reflexivity|].
  unfold CheckoutConfirm.confirm. apply bind_Raise.
  unfold sessions_retrieve, stripe_. rewrite Hf.
  cbn [stripe_sessions log]. by rewrite Hnone.
Qed.

Lemma confirm_unknown_session_witness :
  CheckoutConfirm.handler (Examples.GET [("session_id", "cs_none")])
    (Examples.server Examples.quiet) Examples.shop
  = (Val (CheckoutConfirm.error_reply "cs_none"
            {| exn_type := Some "StripeInvalidRequestError";
               exn_message := Some "No such checkout.session: cs_none" |}
            Examples.today),
     log (StripeRetrieve "cs_none") Examples.shop).
Proof.
  apply (confirm_unknown_session (Examples.GET [("session_id", "cs_none")])
           (Examples.server Examples.quiet) Examples.shop "cs_none").
  - reflexivity.
  - reflexivity.
  - reflexivity.
  - reflexivity.
Defined.

Lemma sessions_retrieve_Val e st session_id session st' :
  sessions_retrieve session_id e st = (Val session, st') →
  session ∈ stripe_sessions st
  ∧ s_id session = session_id
  ∧ Footprint.same_contents st st'.
Proof.
  unfold sessions_retrieve, stripe_.
  destruct (faults e (StripeRetrieve session_id)); [|discriminate..].
  cbn [stripe_sessions log].
  destruct (filter _ (stripe_sessions st)) as [|s rest] eqn:Hs; [discriminate|].
  intros [= <- <-].
  assert (s ∈ filter (λ s, s_id s = session_id) (stripe_sessions st)) as Hin
    by (rewrite Hs; apply list_elem_of_here).
  apply list_elem_of_filter in Hin as [Hid Hin]. by repeat split.
Qed.

Lemma sessions_retrieve_contents e st session_id r st' :
  sessions_retrieve session_id e st = (r, st') →
  Footprint.same_contents st st'.
Proof.
  intros ->%sessions_retrieve_trace. by repeat split.
Qed.

Lemma resolve_user_contents e st session r st' :
  CheckoutConfirm.resolve_user session e st = (r, st') →
  Footprint.same_contents st st'.
Proof.
  unfold CheckoutConfirm.resolve_user.
  destruct (negb _); [|intros [= _ <-]; apply same_contents_refl].
  destruct (required _) as [email|];
    [|intros [= _ <-]; apply same_contents_refl].
  unfold mbind, M_bind.
  destruct (user_by_email email e st) as [[r0|x] st0] eqn:Hq;
    apply user_by_email_contents in Hq.
  - by destruct (data r0); intros [= _ <-].
  - by intros [= _ <-].
Qed.

Lemma same_contents_trans st1 st2 st3 :
  Footprint.same_contents st1 st2 → Footprint.same_contents st2 st3 →
  Footprint.same_contents st1 st3.
Proof.
  intros (Hu & [Hf Hf'] & Hs) (Hu' & [Hg Hg'] & Hs').
  repeat split; congruence.
Qed.

(** X5. Whatever the request and whatever the remote services do, the
    confirmation handler replies: no exception escapes it.  It leaves the
    favourites and the Stripe sessions alone, and the only change it can
    make to the user directory is the premium patch, with the expiry
    thirty days from the server's clock, applied to the rows of one user,
    and that only against a session that Stripe holds, under the
    requested identifier, as paid. *)
Theorem confirm_grants_only_paid req e st :
  ∃ reply st',
    CheckoutConfirm.handler req e st = (Val reply, st')
    ∧ Footprint.same_favourites st st'
    ∧ stripe_sessions st' = stripe_sessions st
    ∧ (tbl_user st' = tbl_user st
       ∨ ∃ session userId,
           session ∈ stripe_sessions st
           ∧ payment_status session = "paid"
           ∧ query req !! "session_id" = Some (s_id session)
           ∧ tbl_user st'
             = patch_rows userId
                 (CheckoutConfirm.premium_patch
                    (CheckoutConfirm.thirty_days_from e (clock e)) session)
                 (tbl_user st)).
Proof.
  assert (∀ st', Footprint.same_contents st st' →
            Footprint.same_favourites st st'
            ∧ stripe_sessions st' = stripe_sessions st
            ∧ (tbl_user st' = tbl_user st
               ∨ ∃ session userId,
                   session ∈ stripe_sessions st
                   ∧ payment_status session = "paid"
                   ∧ query req !! "session_id" = Some (s_id session)
                   ∧ tbl_user st'
                     = patch_rows userId
                         (CheckoutConfirm.premium_patch
                            (CheckoutConfirm.thirty_days_from e (clock e))
                            session)
                         (tbl_user st))) as Hsame.
  { intros st' (Hu & Hf & Hs). auto. }
  unfold CheckoutConfirm.handler.
  destruct (negb _).
  { eexists _, _. split; [reflexivity|]. apply Hsame, same_contents_refl. }
  destruct (required (query req !! "session_id")) as [session_id|] eqn:Hid.
  2:{ eexists _, _. split; [reflexivity|]. apply Hsame, same_contents_refl. }
  apply required_Some in Hid as [Hid _].
  unfold try_catch, CheckoutConfirm.confirm.
  unfold mbind at 1, M_bind at 1.
  destruct (sessions_retrieve session_id e st) as [[session|x] st0] eqn:Hs.
  2:{ apply sessions_retrieve_contents in Hs.
      eexists _, _. split; [reflexivity|]. by apply Hsame. }
  apply sessions_retrieve_Val in Hs as (Hin & Hsid & Hc0).
  destruct (String.eqb_spec (payment_status session) "paid") as [Hpaid|Hp].
  2:{ eexists _, _. split; [reflexivity|]. by apply Hsame. }
  unfold mbind at 1, M_bind at 1.
  destruct (CheckoutConfirm.resolve_user session e st0) as [[u|x] st1] eqn:Hr;
    apply resolve_user_contents in Hr;
    pose proof (same_contents_trans _ _ _ Hc0 Hr) as Hc1.
  2:{ eexists _, _. split; [reflexivity|]. by apply Hsame. }
  destruct (required u) as [userId|].
  2:{ eexists _, _. split; [reflexivity|]. by apply Hsame. }
  run_M.
  set (patch := CheckoutConfirm.premium_patch _ session).
  assert (∃ st2 (res : result (reply ())),
            user_update userId patch e st1 = (res, st2))
    as (st2 & res & Hupd) by (eexists _, _; apply surjective_pairing).
  rewrite Hupd.
  pose proof (user_update_contents _ _ _ _ _ _ Hupd)
    as ([Hf2 Hf2'] & Hs2 & Hu2).
  destruct Hc1 as (Hu1 & [Hf1 Hf1'] & Hs1).
  assert (Footprint.same_favourites st st2
          ∧ stripe_sessions st2 = stripe_sessions st
          ∧ (tbl_user st2 = tbl_user st
             ∨ ∃ session userId,
                 session ∈ stripe_sessions st
                 ∧ payment_status session = "paid"
                 ∧ query req !! "session_id" = Some (s_id session)
                 ∧ tbl_user st2
                   = patch_rows userId
                       (CheckoutConfirm.premium_patch
                          (CheckoutConfirm.thirty_days_from e (clock e))
                          session)
                       (tbl_user st))) as Hgoal.
  { split; [split; congruence|]. split; [congruence|].
    destruct Hu2 as [Hu2|[_ Hu2]]; [left; congruence|].
    right. exists session, userId. rewrite Hsid, Hu2, Hu1. by repeat split. }
  destruct res as [r2|x]; cbn beta iota zeta.
  - destruct (error r2); eexists _, _; (split; [reflexivity|exact Hgoal]).
  - eexists _, _. split; [reflexivity|exact Hgoal].
Qed.

(** *** Who gets the premium, and for how long *)

(** A patch of a user whom the table does not hold changes nothing. *)
Lemma patch_rows_absent id p rows :
  filter (λ r, u_id r = id) rows = [] → patch_rows id p rows = rows.
Proof.
  unfold patch_rows. induction rows as [|r rows IH]; [done|].
  rewrite filter_cons. destruct (decide (u_id r = id)); [discriminate|].
  intros H. rewrite fmap_cons, decide_False by done. by rewrite IH.
Qed.

(** A second premium patch overrides the first. *)
Lemma premium_patch_twice x1 x2 session r :
  apply_patch (CheckoutConfirm.premium_patch x2 session)
    (apply_patch (CheckoutConfirm.premium_patch x1 session) r)
  = apply_patch (CheckoutConfirm.premium_patch x2 session) r.
Proof. reflexivity. Qed.

Section Identified.
Import CheckoutConfirm.

Variables (st : store) (req : request) (session_id userId : string).
Variable session : session.
Hypothesis Hmethod : method req = "GET".
Hypothesis Hid : required (query req !! "session_id") = Some session_id.
Hypothesis Hfound :
  filter (λ s, s_id s = session_id) (stripe_sessions st) = [session].
Hypothesis Hpaid : payment_status session = "paid".
Hypothesis Hmeta : required (metadata session !! "user_id") = Some userId.

(** The served confirmation of a paid session whose metadata name the
    user. *)
Lemma handler_by_metadata e st0 :
  stripe_sessions st0 = stripe_sessions st →
  faults e (StripeRetrieve session_id) = Proceed →
  faults e (UserUpdate userId
              (premium_patch (thirty_days_from e (clock e)) session))
  = Proceed →
  handler req e st0
  = (Val (activated_reply session userId (thirty_days_from e (clock e))),
     with_user
       (patch_rows userId
          (premium_patch (thirty_days_from e (clock e)) session)
          (tbl_user st0))
       (log (UserUpdate userId
               (premium_patch (thirty_days_from e (clock e)) session))
          (log (StripeRetrieve session_id) st0))).
Proof using Hmethod Hid Hfound Hpaid Hmeta.
  intros Hsess Hs Hu.
  assert (sessions_retrieve session_id e st0
          = (Val session, log (StripeRetrieve session_id) st0)) as Hret.
  { eapply sessions_retrieve_found; [done|]. by rewrite Hsess. }
  assert (required (Some userId) = Some userId) as Hreq
    by apply required_intro, (required_Some _ _ Hmeta).
  exact (handler_activated e st0 req session_id session Hmethod Hid Hret
           (Some userId) (log (StripeRetrieve session_id) st0) Hpaid
           (resolve_by_metadata e _ session userId Hmeta) userId Hreq Hu).
Qed.

End Identified.

(** X6. When the session's metadata name the user, the customer e-mail is
    not looked up: the calls made are the retrieval and the update, the
    premium goes to the user the metadata name, and the rows of all other
    users, the owner of the customer e-mail among them, are as they
    were. *)
Theorem confirm_metadata_first e st req session_id session userId :
  method req = "GET" →
  required (query req !! "session_id") = Some session_id →
  faults e (StripeRetrieve session_id) = Proceed →
  filter (λ s, s_id s = session_id) (stripe_sessions st) = [session] →
  payment_status session = "paid" →
  required (metadata session !! "user_id") = Some userId →
  faults e (UserUpdate userId
              (CheckoutConfirm.premium_patch
                 (CheckoutConfirm.thirty_days_from e (clock e)) session))
  = Proceed →
  ∃ st',
    CheckoutConfirm.handler req e st
    = (Val (CheckoutConfirm.activated_reply session userId
              (CheckoutConfirm.thirty_days_from e (clock e))), st')
    ∧ trace st'
      = (trace st
           ++ [StripeRetrieve session_id;
               UserUpdate userId
                 (CheckoutConfirm.premium_patch
                    (CheckoutConfirm.thirty_days_from e (clock e)) session)])%list
    ∧ ∀ r, u_id r ≠ userId → r ∈ tbl_user st → r ∈ tbl_user st'.
Proof.
  intros Hm Hid Hs Hfound Hpaid Hmeta Hu. eexists. split; [|split].
  - eapply handler_by_metadata; eauto.
  - cbn [trace with_user log]. by rewrite <- app_assoc.
  - intros r Hne Hin. cbn [tbl_user with_user]. by apply patch_rows_other.
Qed.

Lemma confirm_metadata_first_witness :
  let e := Examples.server Examples.quiet in
  let patch :=
    CheckoutConfirm.premium_patch
      (CheckoutConfirm.thirty_days_from e (clock e)) ExamplesX.paid_for_u2 in
  ∃ st',
    CheckoutConfirm.handler (Examples.GET [("session_id", "cs_test_gift")])
      e ExamplesX.shop_x
    = (Val (CheckoutConfirm.activated_reply ExamplesX.paid_for_u2 "u2"
              (CheckoutConfirm.thirty_days_from e (clock e))), st')
    ∧ trace st'
      = (trace ExamplesX.shop_x
           ++ [StripeRetrieve "cs_test_gift"; UserUpdate "u2" patch])%list
    ∧ ∀ r, u_id r ≠ "u2" → r ∈ tbl_user ExamplesX.shop_x → r ∈ tbl_user st'.
Proof.
  intros e patch.
  apply (confirm_metadata_first e ExamplesX.shop_x
           (Examples.GET [("session_id", "cs_test_gift")])
           "cs_test_gift" ExamplesX.paid_for_u2 "u2").
  - reflexivity.
  - reflexivity.
  - reflexivity.
  - reflexivity.
  - reflexivity.
  - reflexivity.
  - reflexivity.
Defined.

(** X7. When the metadata name a user whom the directory does not hold, the
    update matches no row and reports no error: the reply is the
    COMPLETE one with [user_updated = true], and the directory is as it
    was. *)
Theorem confirm_unknown_user_reported_updated e st req session_id session userId :
  method req = "GET" →
  required (query req !! "session_id") = Some session_id →
  faults e (StripeRetrieve session_id) = Proceed →
  filter (λ s, s_id s = session_id) (stripe_sessions st) = [session] →
  payment_status session = "paid" →
  required (metadata session !! "user_id") = Some userId →
  faults e (UserUpdate userId
              (CheckoutConfirm.premium_patch
                 (CheckoutConfirm.thirty_days_from e (clock e)) session))
  = Proceed →
  filter (λ r, u_id r = userId) (tbl_user st) = [] →
  ∃ reply st',
    CheckoutConfirm.handler req e st = (Val reply, st')
    ∧ http reply = 200%Z
    ∧ field "status" (doc reply) = Some (JStr "complete")
    ∧ field "user_updated" (doc reply) = Some (JBool true)
    ∧ tbl_user st' = tbl_user st.
Proof.
  intros Hm Hid Hs Hfound Hpaid Hmeta Hu Habsent. eexists _, _. split.
  - eapply handler_by_metadata; eauto.
  - repeat split. cbn [tbl_user with_user]. by apply patch_rows_absent.
Qed.

Lemma confirm_unknown_user_reported_updated_witness :
  ∃ reply st',
    CheckoutConfirm.handler (Examples.GET [("session_id", "cs_test_ghost")])
      (Examples.server Examples.quiet) ExamplesX.shop_x = (Val reply, st')
    ∧ http reply = 200%Z
    ∧ field "status" (doc reply) = Some (JStr "complete")
    ∧ field "user_updated" (doc reply) = Some (JBool true)
    ∧ tbl_user st' = tbl_user ExamplesX.shop_x.
Proof.
  apply (confirm_unknown_user_reported_updated
           (Examples.server Examples.quiet) ExamplesX.shop_x
           (Examples.GET [("session_id", "cs_test_ghost")])
           "cs_test_ghost" ExamplesX.paid_ghost "u9").
  - reflexivity.
  - reflexivity.
  - reflexivity.
  - reflexivity.
  - reflexivity.
  - reflexivity.
  - reflexivity.
  - reflexivity.
Defined.

(** X8. Confirming the same paid session again grants again: after a second
    served call, made when the server's clock reads [clock e2], the rows
    of the user hold the expiry date thirty days from that second call,
    whatever the first call had set. *)
Theorem confirm_again_extends e1 e2 st req session_id session userId :
  method req = "GET" →
  required (query req !! "session_id") = Some session_id →
  filter (λ s, s_id s = session_id) (stripe_sessions st) = [session] →
  payment_status session = "paid" →
  required (metadata session !! "user_id") = Some userId →
  faults e1 (StripeRetrieve session_id) = Proceed →
  faults e2 (StripeRetrieve session_id) = Proceed →
  faults e1 (UserUpdate userId
               (CheckoutConfirm.premium_patch
                  (CheckoutConfirm.thirty_days_from e1 (clock e1)) session))
  = Proceed →
  faults e2 (UserUpdate userId
               (CheckoutConfirm.premium_patch
                  (CheckoutConfirm.thirty_days_from e2 (clock e2)) session))
  = Proceed →
  ∃ st1 st2,
    CheckoutConfirm.handler req e1 st
    = (Val (CheckoutConfirm.activated_reply session userId
              (CheckoutConfirm.thirty_days_from e1 (clock e1))), st1)
    ∧ CheckoutConfirm.handler req e2 st1
      = (Val (CheckoutConfirm.activated_reply session userId
                (CheckoutConfirm.thirty_days_from e2 (clock e2))), st2)
    ∧ filter (λ r, u_id r = userId) (tbl_user st2)
      = apply_patch
          (CheckoutConfirm.premium_patch
             (CheckoutConfirm.thirty_days_from e2 (clock e2)) session)
        <$> filter (λ r, u_id r = userId) (tbl_user st).
Proof.
  intros Hm Hid Hfound Hpaid Hmeta Hs1 Hs2 Hu1 Hu2.
  eexists _, _. split; [|split].
  - eapply handler_by_metadata; eauto.
  - eapply handler_by_metadata; eauto.
  - cbn [tbl_user with_user log]. rewrite !filter_patch_rows.
    rewrite <- list_fmap_compose. apply list_fmap_ext.
    intros i r _. apply premium_patch_twice.
Qed.

Lemma confirm_again_extends_witness :
  let e1 := Examples.server Examples.quiet in
  let e2 := Examples.paris_october in
  ∃ st1 st2,
    CheckoutConfirm.handler (Examples.GET [("session_id", "cs_test_paid")])
      e1 Examples.shop
    = (Val (CheckoutConfirm.activated_reply Examples.paid_u1 "u1"
              (CheckoutConfirm.thirty_days_from e1 (clock e1))), st1)
    ∧ CheckoutConfirm.handler (Examples.GET [("session_id", "cs_test_paid")])
        e2 st1
      = (Val (CheckoutConfirm.activated_reply Examples.paid_u1 "u1"
                (CheckoutConfirm.thirty_days_from e2 (clock e2))), st2)
    ∧ filter (λ r, u_id r = "u1") (tbl_user st2)
      = apply_patch
          (CheckoutConfirm.premium_patch
             (CheckoutConfirm.thirty_days_from e2 (clock e2)) Examples.paid_u1)
        <$> filter (λ r, u_id r = "u1") (tbl_user Examples.shop).
Proof.
  intros e1 e2.
  apply (confirm_again_extends e1 e2 Examples.shop
           (Examples.GET [("session_id", "cs_test_paid")])
           "cs_test_paid" Examples.paid_u1 "u1").
  - reflexivity.
  - reflexivity.
  - reflexivity.
  - reflexivity.
  - reflexivity.
  - reflexivity.
  - reflexivity.
  - reflexivity.
  - reflexivity.
Defined.

(** X9. A paid session whose metadata name no user is answered with the
    unidentified reply, and no update is sent, when it has no customer
    e-mail, and when the served look-up by its customer e-mail finds no
    row or more than one. *)
Theorem confirm_unidentified e st req session_id session :
  method req = "GET" →
  required (query req !! "session_id") = Some session_id →
  faults e (StripeRetrieve session_id) = Proceed →
  filter (λ s, s_id s = session_id) (stripe_sessions st) = [session] →
  payment_status session = "paid" →
  truthy (metadata session !! "user_id") = false →
  (truthy (customer_email session) = false →
   CheckoutConfirm.handler req e st
   = (Val (CheckoutConfirm.unidentified_reply session),
      log (StripeRetrieve session_id) st))
  ∧ (∀ email,
       required (customer_email session) = Some email →
       faults e (UserSelectByEmail email) = Proceed →
       (∀ row, filter (λ r, u_email r = email) (tbl_user st) ≠ [row]) →
       CheckoutConfirm.handler req e st
       = (Val (CheckoutConfirm.unidentified_reply session),
          log (UserSelectByEmail email) (log (StripeRetrieve session_id) st))).
Proof.
  intros Hm Hid Hs Hfound Hpaid Hmeta.
  pose proof (sessions_retrieve_found e st session_id session [] Hs Hfound)
    as Hret.
  split.
  - intros Hmail.
    eapply (handler_unidentified e st req session_id session Hm Hid Hret);
      [done| |exact Hmeta].
    unfold CheckoutConfirm.resolve_user.
    by rewrite Hmeta, (required_falsy _ Hmail).
  - intros email Hmail Hf Hrows.
    eapply (handler_unidentified e st req session_id session Hm Hid Hret);
      [done| |exact Hmeta].
    unfold CheckoutConfirm.resolve_user. rewrite Hmeta, Hmail. cbn [negb].
    unfold user_by_email. erewrite bind_Val by (by apply query_Proceed).
    cbn [fst snd tbl_user log].
    destruct (filter _ (tbl_user st)) as [|row [|row' rows]] eqn:Hrow;
      try reflexivity.
    by destruct (Hrows row).
Qed.

Lemma confirm_unidentified_witness :
  CheckoutConfirm.handler (Examples.GET [("session_id", "cs_test_stranger")])
    (Examples.server Examples.quiet) Examples.shop
  = (Val (CheckoutConfirm.unidentified_reply Examples.paid_stranger),
     log (UserSelectByEmail "nobody@x.com")
       (log (StripeRetrieve "cs_test_stranger") Examples.shop)).
Proof.
  destruct (confirm_unidentified (Examples.server Examples.quiet)
              Examples.shop
              (Examples.GET [("session_id", "cs_test_stranger")])
              "cs_test_stranger" Examples.paid_stranger) as [_ Hlookup].
  - reflexivity.
  - reflexivity.
  - reflexivity.
  - reflexivity.
  - reflexivity.
  - reflexivity.
  - apply (Hlookup "nobody@x.com").
    + reflexivity.
    + reflexivity.
    + intros row. vm_compute. discriminate.
Defined.

(** *** What the success page makes of the replies *)

(** Every reply of the confirmation handler is one of seven. *)
Lemma confirm_handler_replies req e st reply st' :
  CheckoutConfirm.handler req e st = (Val reply, st') →
  (http reply ≠ 200%Z ∧ field "status" (doc reply) = None)
  ∨ (∃ session_id x now,
       reply = CheckoutConfirm.error_reply session_id x now)
  ∨ ∃ session,
      (∃ userId expiry,
         reply = CheckoutConfirm.activated_reply session userId expiry)
      ∨ (∃ err, reply = CheckoutConfirm.not_updated_reply session err)
      ∨ reply = CheckoutConfirm.unidentified_reply session
      ∨ reply = CheckoutConfirm.pending_reply session.
Proof.
  unfold CheckoutConfirm.handler.
  destruct (negb _); [intros [= <- _]; left; by split|].
  destruct (required _) as [session_id|]; [|intros [= <- _]; left; by split].
  unfold try_catch.
  destruct (CheckoutConfirm.confirm session_id e st) as [[r|x] st0] eqn:Hc.
  - intros [= <- _]. right. right. by eapply confirm_replies.
  - run_M. intros [= <- _]. right. left. eauto.
Qed.

(** X10. The success page shows the payment as succeeded exactly for the two
    replies that say [status: "complete"]: the one of an activated
    premium, and the one of a paid session whose user was not found.  For
    every other reply, that of a payment still pending included, it shows
    the error screen; it never stays on the loading screen, and the
    handler never sends the status [paid] that the page would accept as
    well. *)
Theorem success_page_after_confirm req e st reply st' :
  CheckoutConfirm.handler req e st = (Val reply, st') →
  (Success.after_fetch reply = Success.PaymentSucceeded
   ↔ ∃ session,
       (∃ userId expiry,
          reply = CheckoutConfirm.activated_reply session userId expiry)
       ∨ reply = CheckoutConfirm.unidentified_reply session)
  ∧ (Success.after_fetch reply ≠ Success.PaymentSucceeded →
     Success.after_fetch reply = Success.PaymentError)
  ∧ field "status" (doc reply) ≠ Some (JStr "paid").
Proof.
  intros Hrun.
  destruct (confirm_handler_replies _ _ _ _ _ Hrun)
    as [[_ Hnone]|[(sid & x & now & ->)
                   |(session & [(userId & expiry & ->)
                               |[(err & ->)|[->| ->]]])]].
  - unfold Success.after_fetch. rewrite Hnone. split; [split|split].
    + discriminate.
    + intros (session & [(userId & expiry & ->)| ->]); discriminate Hnone.
    + reflexivity.
    + discriminate.
  - split; [split|split]; try done.
    intros (session & [(userId & expiry & H)| H]); discriminate H.
  - split; [split|split]; try done. eauto.
  - split; [split|split]; try done.
    intros (s & [(userId & expiry & H)| H]); discriminate H.
  - split; [split|split]; try done. eauto.
  - split; [split|split]; try done.
    intros (s & [(userId & expiry & H)| H]); discriminate H.
Qed.

Lemma success_page_after_confirm_witness :
  Success.after_fetch (CheckoutConfirm.pending_reply Examples.unpaid)
  = Success.PaymentError.
Proof.
  destruct (success_page_after_confirm
              (Examples.GET [("session_id", "cs_test_unpaid")])
              (Examples.server Examples.quiet) Examples.shop
              (CheckoutConfirm.pending_reply Examples.unpaid)
              (log (StripeRetrieve "cs_test_unpaid") Examples.shop))
    as (_ & Herror & _).
  - reflexivity.
  - apply Herror. vm_compute. discriminate.
Defined.

(** *** POST /api/checkout_sessions: what is refused, and what is stored *)

(** X11. A request is refused before Stripe is called in four cases: a method
    other than POST is answered 405; a POST without a [userId] or without
    a [userEmail] (absent or empty), or with a [userEmail] that the
    regular expression rejects, is answered 400.  No remote call is made
    and the store is as it was. *)
Theorem create_refused req e st :
  method req ≠ "POST"
  ∨ required (body req !! "userId") = None
  ∨ required (body req !! "userEmail") = None
  ∨ (∃ userEmail, body req !! "userEmail" = Some userEmail
                  ∧ emailRegex_test userEmail = false) →
  ∃ reply,
    CheckoutCreate.handler req e st = (Val reply, st)
    ∧ http reply = (if String.eqb (method req) "POST" then 400 else 405)%Z
    ∧ field "url" (doc reply) = None.
Proof.
  intros Hcase. unfold CheckoutCreate.handler.
  destruct (String.eqb_spec (method req) "POST") as [Hm|Hm]; cbn [negb].
  - destruct Hcase as [Hno|Hcase]; [done|].
    unfold try_catch.
    destruct (required (body req !! "userId")) as [userId|] eqn:Hid;
      [|run_M; eexists; by repeat split].
    destruct Hcase as [Hno|Hcase]; [done|].
    destruct (required (body req !! "userEmail")) as [userEmail|] eqn:Hmail;
      [|run_M; eexists; by repeat split].
    destruct Hcase as [Hno|(userEmail' & Hbody & Hregex)]; [done|].
    apply required_Some in Hmail as [Hmail _].
    rewrite Hbody in Hmail. injection Hmail as ->.
    rewrite Hregex. cbn [negb]. run_M. eexists. by repeat split.
  - run_M. eexists. by repeat split.
Qed.

Lemma create_refused_witness :
  ∃ reply,
    CheckoutCreate.handler
      (Examples.POST [("userId", "u1"); ("userEmail", "a@x")])
      (Examples.server Examples.quiet) Examples.directory
    = (Val reply, Examples.directory)
    ∧ http reply = 400%Z
    ∧ field "url" (doc reply) = None.
Proof.
  apply (create_refused
           (Examples.POST [("userId", "u1"); ("userEmail", "a@x")])
           (Examples.server Examples.quiet) Examples.directory).
  right. right. right. exists "a@x". split; reflexivity.
Defined.

(** The [catch] block of the creation handler always replies. *)
Lemma create_on_error_replies x e st :
  ∃ reply, CheckoutCreate.on_error x e st = (Val reply, st)
           ∧ http reply ≠ 200%Z.
Proof.
  unfold CheckoutCreate.on_error.
  repeat match goal with
         | |- context [bool_decide ?P] => destruct (bool_decide P)
         end;
    run_M; eexists; split; try reflexivity; discriminate.
Qed.

(** X12. Whatever the request and whatever Stripe does, the creation handler
    replies: no exception escapes it.  It never changes the user
    directory nor the favourites, so that asking for a checkout session
    does not make anyone premium.  A session is stored exactly when the
    reply is 200: then one session is added, unpaid, for 9,99 EUR, and the
    reply carries its identifier and its URL; with any other reply the
    sessions are as they were. *)
Theorem create_replies_and_stores req e st :
  ∃ reply st',
    CheckoutCreate.handler req e st = (Val reply, st')
    ∧ tbl_user st' = tbl_user st
    ∧ Footprint.same_favourites st st'
    ∧ (http reply ≠ 200%Z → stripe_sessions st' = stripe_sessions st)
    ∧ (http reply = 200%Z →
       ∃ session,
         stripe_sessions st' = (stripe_sessions st ++ [session])%list
         ∧ payment_status session = "unpaid"
         ∧ amount_total session = Some 999%Z
         ∧ field "sessionId" (doc reply) = Some (JStr (s_id session))
         ∧ field "url" (doc reply) = Some (jvalue (s_url session))).
Proof.
  unfold CheckoutCreate.handler.
  destruct (negb _);
    [run_M; eexists _, _; split; [reflexivity|]; by repeat split|].
  unfold try_catch.
  destruct (required (body req !! "userId")) as [userId|];
    [|run_M; eexists _, _; split; [reflexivity|]; by repeat split].
  destruct (required (body req !! "userEmail")) as [userEmail|];
    [|run_M; eexists _, _; split; [reflexivity|]; by repeat split].
  destruct (negb _);
    [run_M; eexists _, _; split; [reflexivity|]; by repeat split|].
  run_M. unfold sessions_create, stripe_.
  destruct (faults e _) as [|err|x].
  - eexists _, _. split; [reflexivity|]. repeat split; [done|].
    intros _. eexists. by repeat split.
  - match goal with
    | |- context [CheckoutCreate.on_error ?x e ?s] =>
        destruct (create_on_error_replies x e s) as (reply & -> & Hhttp)
    end.
    eexists _, _. split; [reflexivity|]. by repeat split.
  - match goal with
    | |- context [CheckoutCreate.on_error ?x e ?s] =>
        destruct (create_on_error_replies x e s) as (reply & -> & Hhttp)
    end.
    eexists _, _. split; [reflexivity|]. by repeat split.
Qed.

(** *** From creation to confirmation *)

Lemma filter_none {A} (P : A → Prop) `{∀ x, Decision (P x)} (l : list A) :
  (∀ x, x ∈ l → ¬ P x) → filter P l = [].
Proof.
  induction l as [|a l IH]; intros Hno; [done|].
  rewrite filter_cons_False; [|apply Hno; left].
  apply IH. intros x Hx. apply Hno. by right.
Qed.

(** X13. A session that the creation handler has just made, confirmed before
    it is paid, is answered [pending]: the user directory, and with it
    everyone's premium status, is as before the two requests.  The
    identifier Stripe gives the new session is taken to be fresh. *)
Theorem created_session_is_pending req e st reply st1 e2 :
  CheckoutCreate.handler req e st = (Val reply, st1) →
  http reply = 200%Z →
  (∀ s, s ∈ stripe_sessions st → s_id s ≠ fresh_session e) →
  faults e2 (StripeRetrieve (fresh_session e)) = Proceed →
  fresh_session e ≠ EmptyString →
  ∃ session st2,
    field "sessionId" (doc reply) = Some (JStr (fresh_session e))
    ∧ CheckoutConfirm.handler
        {| method := "GET";
           query := {[ "session_id" := fresh_session e ]};
           body := ∅ |} e2 st1
      = (Val (CheckoutConfirm.pending_reply session), st2)
    ∧ s_id session = fresh_session e
    ∧ tbl_user st2 = tbl_user st.
Proof.
  intros Hrun Hhttp Hfresh Hplan Hid.
  revert Hrun. unfold CheckoutCreate.handler.
  destruct (negb _); [run_M; intros [= <- _]; discriminate|].
  unfold try_catch.
  destruct (required (body req !! "userId")) as [userId|];
    [|run_M; intros [= <- _]; discriminate].
  destruct (required (body req !! "userEmail")) as [userEmail|];
    [|run_M; intros [= <- _]; discriminate].
  destruct (negb _); [run_M; intros [= <- _]; discriminate|].
  run_M. unfold sessions_create, stripe_.
  destruct (faults e _) as [|err|x].
  - intros [= <- <-].
    match goal with
    | |- context [with_sessions (_ ++ [?s])%list ?s0] =>
        set (session := s); set (st1 := with_sessions _ s0)
    end.
    assert (Hret : sessions_retrieve (fresh_session e) e2 st1
                   = (Val session,
                      log (StripeRetrieve (fresh_session e)) st1)).
    { apply (sessions_retrieve_found _ _ _ _ []); [done|].
      subst st1. cbn [stripe_sessions with_sessions log].
      rewrite filter_app.
      replace (filter _ (stripe_sessions st)) with (@nil Remote.session).
      - rewrite app_nil_l. by rewrite filter_cons_True.
      - symmetry. apply filter_none. intros s Hs. by apply Hfresh. }
    exists session, (log (StripeRetrieve (fresh_session e)) st1).
    split; [done|]. split; [|done].
    apply (handler_pending e2 st1 _ (fresh_session e) session); try done.
    cbn. rewrite lookup_singleton_eq. unfold required, truthy.
    destruct (String.eqb_spec (fresh_session e) EmptyString); done.
  - intros H. by apply on_error_not_200 in H.
  - intros H. by apply on_error_not_200 in H.
Qed.

Lemma created_session_is_pending_witness :
  ∃ session st2,
    field "sessionId"
      (JObj [("url", JStr "https://checkout.stripe.com/c/pay/cs_test_a1");
             ("sessionId", JStr "cs_test_a1");
             ("message", JStr "Session créée avec succès")])
    = Some (JStr "cs_test_a1")
    ∧ CheckoutConfirm.handler
        {| method := "GET";
           query := {[ "session_id" := "cs_test_a1" ]};
           body := ∅ |} (Examples.server Examples.quiet)
        (CheckoutCreate.handler
           (Examples.POST [("userId", "u2"); ("userEmail", "b@x.com")])
           (Examples.server Examples.quiet) Examples.shop).2
      = (Val (CheckoutConfirm.pending_reply session), st2)
    ∧ s_id session = "cs_test_a1"
    ∧ tbl_user st2 = tbl_user Examples.shop.
Proof.
  apply (created_session_is_pending
           (Examples.POST [("userId", "u2"); ("userEmail", "b@x.com")])
           (Examples.server Examples.quiet) Examples.shop
           {| http := 200;
              doc := JObj [("url",
                            JStr "https://checkout.stripe.com/c/pay/cs_test_a1");
                           ("sessionId", JStr "cs_test_a1");
                           ("message", JStr "Session créée avec succès")] |}
           _ (Examples.server Examples.quiet)).
  - vm_compute. reflexivity.
  - reflexivity.
  - intros s Hs. vm_compute in Hs.
    repeat (apply elem_of_cons in Hs as [-> | Hs]; [discriminate|]).
    by apply elem_of_nil in Hs.
  - reflexivity.
  - discriminate.
Defined.

(** *** /api/favoris: the probe, the guards and the listing *)

Section FavorisFootprint.
Import FavorisApi Footprint.

Lemma within_cap_refl st : within_cap st st.
Proof. repeat split. intros u. lia. Qed.

Lemma within_cap_trans st1 st2 st3 :
  within_cap st1 st2 → within_cap st2 st3 → within_cap st1 st3.
Proof.
  intros (Hu & Hf & Hs & Hc) (Hu' & Hf' & Hs' & Hc').
  repeat split; [congruence..|].
  intros u. specialize (Hc u). specialize (Hc' u). lia.
Qed.

Lemma within_cap_log c st : within_cap st (log c st).
Proof. repeat split. intros u. cbn [tbl_favorie log]. lia. Qed.

(** A query that reads leaves the store as it was, but for the trace. *)
Lemma query_reads {A} c (run : env → store → reply A * store) e st r st' :
  (∀ e0 st0, (run e0 st0).2 = st0) →
  query_ c run e st = (r, st') → st' = log c st.
Proof.
  intros Hrun H. apply query_footprint in H as [-> | [_ ->]]; [done|].
  apply Hrun.
Qed.

Lemma favorie_probe_reads e st r st' :
  favorie_probe e st = (r, st') → st' = log FavorieProbe st.
Proof. by apply query_reads. Qed.

Lemma favorie_list_reads u e st r st' :
  favorie_list u e st = (r, st') → st' = log (FavorieList u) st.
Proof. by apply query_reads. Qed.

Lemma favorie_count_reads u e st r st' :
  favorie_count u e st = (r, st') → st' = log (FavorieCount u) st.
Proof. by apply query_reads. Qed.

(** The reply of a count that went through carries the user's rows. *)
Lemma favorie_count_data u e st r st' rows :
  favorie_count u e st = (Val r, st') →
  error r = None → data r = Some rows →
  rows = favorie_of u (tbl_favorie st).
Proof.
  unfold favorie_count, query_. destruct (faults e _).
  - intros [= <- _] _ [= <-]. done.
  - intros [= <- _]. discriminate.
  - discriminate.
Qed.

Lemma favorie_insert_footprint u v e st r st' :
  favorie_insert u v e st = (r, st') →
  st' = log (FavorieInsert u v) st
  ∨ st' = with_favorie
            (tbl_favorie st
             ++ [{| f_id := fresh_row e; f_user_id := u; f_ville := v;
                    f_created_at := clock e |}])
            (log (FavorieInsert u v) st).
Proof.
  intros H. apply query_footprint in H as [-> | [_ ->]]; auto.
Qed.

Lemma favorie_delete_footprint c (P : favorie_row → Prop)
    `{∀ r, Decision (P r)} e st r st' :
  favorie_delete c P e st = (r, st') →
  st' = log c st
  ∨ st' = with_favorie (filter (λ r, ¬ P r) (tbl_favorie st)) (log c st).
Proof.
  intros Hrun. apply query_footprint in Hrun as [-> | [_ ->]]; auto.
Qed.

(** [.single()] never answers with neither a row nor an error. *)
Lemma favorie_delete_data c (P : favorie_row → Prop)
    `{∀ r, Decision (P r)} e st r st' :
  favorie_delete c P e st = (Val r, st') →
  error r = None → data r ≠ None.
Proof.
  unfold favorie_delete, query_. destruct (faults e c).
  - intros [= <- _]. cbn [tbl_favorie log].
    by destruct (filter P (tbl_favorie st)) as [|a [|b l]].
  - intros [= <- _]. discriminate.
  - discriminate.
Qed.

Lemma favorie_of_filter u (Q : favorie_row → Prop) `{∀ r, Decision (Q r)}
    (l : list favorie_row) :
  (length (favorie_of u (filter Q l)) <= length (favorie_of u l))%nat.
Proof.
  unfold favorie_of. induction l as [|a l IH]; [done|].
  rewrite (filter_cons Q). destruct (decide (Q a)).
  - rewrite !filter_cons. destruct (decide _); simpl; lia.
  - rewrite (filter_cons _ a l). destruct (decide _); simpl; lia.
Qed.

Lemma within_cap_delete c (Q : favorie_row → Prop) `{∀ r, Decision (Q r)} st :
  within_cap st (with_favorie (filter Q (tbl_favorie st)) (log c st)).
Proof.
  repeat split. intros u. cbn [tbl_favorie with_favorie log].
  pose proof (favorie_of_filter u Q (tbl_favorie st)). lia.
Qed.

Lemma within_cap_insert c row st :
  (∀ u, f_user_id row = Some u →
        (length (favorie_of u (tbl_favorie st)) < 3)%nat) →
  within_cap st (with_favorie (tbl_favorie st ++ [row]) (log c st)).
Proof.
  intros Hroom. repeat split. intros u.
  cbn [tbl_favorie with_favorie log]. unfold favorie_of.
  rewrite filter_app, length_app, filter_cons, filter_nil.
  destruct (decide (f_user_id row = Some u)) as [Hu|Hu]; simpl; [|lia].
  specialize (Hroom u Hu). unfold favorie_of in Hroom. lia.
Qed.

Lemma tame_respond status fields e st :
  status ≠ 404%Z → tame (λ r, http r ≠ 404%Z) (respond status fields) e st.
Proof.
  intros Hs r st'. run_M. intros [= <- <-]. split; [apply within_cap_refl|].
  by intros a [= <-].
Qed.

Lemma tame_ret (reply : response) e st :
  http reply ≠ 404%Z → tame (λ r, http r ≠ 404%Z) (mret reply) e st.
Proof.
  intros Hs r st'. run_M. intros [= <- <-]. split; [apply within_cap_refl|].
  by intros a [= <-].
Qed.

Lemma tame_get req e st : tame (λ r, http r ≠ 404%Z) (get req) e st.
Proof.
  intros r st'. unfold get, mbind, M_bind.
  destruct (favorie_list _ e st) as [[l|x] st0] eqn:Hl;
    apply favorie_list_reads in Hl as ->.
  - destruct (error l); run_M; intros [= <- <-];
      (split; [apply within_cap_log|by intros a [= <-]]).
  - intros [= <- <-]. split; [apply within_cap_log|done].
Qed.

Lemma tame_insert_favori postUserId ville e st :
  (∀ u, required postUserId = Some u →
        (length (favorie_of u (tbl_favorie st)) < 3)%nat) →
  tame (λ r, http r ≠ 404%Z) (insert_favori postUserId ville) e st.
Proof.
  intros Hroom r st'. unfold insert_favori, mbind, M_bind.
  destruct (favorie_insert _ _ e st) as [[ins|x] st0] eqn:Hins.
  - assert (Hcap : within_cap st st0).
    { apply favorie_insert_footprint in Hins as [-> | ->];
        [apply within_cap_log|by apply within_cap_insert]. }
    destruct (error ins) as [addError|].
    + destruct (String.eqb _ _); run_M; intros [= <- <-];
        (split; [done|by intros a [= <-]]).
    + run_M. intros [= <- <-]. split; [done|by intros a [= <-]].
  - intros [= <- <-]. split; [|done].
    apply favorie_insert_footprint in Hins as [-> | ->];
      [apply within_cap_log|by apply within_cap_insert].
Qed.

Lemma tame_after {A} ok (m : M A) e st st0 :
  within_cap st st0 → tame ok m e st0 →
  ∀ r st', m e st0 = (r, st') →
    within_cap st st' ∧ ∀ a, r = Val a → ok a.
Proof.
  intros Hcap Htame r st' Hrun. destruct (Htame r st' Hrun) as [Hcap' Hok].
  split; [by eapply within_cap_trans|done].
Qed.

Lemma tame_post req e st : tame (λ r, http r ≠ 404%Z) (post req) e st.
Proof.
  unfold post.
  destruct (required (body req !! "ville")) as [ville|];
    [|by apply tame_respond].
  destruct (required (body req !! "userId")) as [userId|] eqn:Hu;
    [|apply tame_insert_favori; intros u; by rewrite Hu].
  intros r st'. unfold mbind, M_bind.
  destruct (favorie_count userId e st) as [[c|x] st0] eqn:Hc.
  - pose proof (favorie_count_reads _ _ _ _ _ Hc) as ->.
    destruct (error c) as [countError|] eqn:Herr.
    + apply (tame_after _ _ _ st); [apply within_cap_log|].
      by apply tame_respond.
    + destruct (data c) as [existingFavoris|] eqn:Hdata.
      * pose proof (favorie_count_data _ _ _ _ _ _ Hc Herr Hdata) as ->.
        destruct (Nat.leb_spec 3 (length (favorie_of userId (tbl_favorie st))))
          as [Hfull|Hroom].
        -- apply (tame_after _ _ _ st); [apply within_cap_log|].
           by apply tame_ret.
        -- apply (tame_after _ _ _ st); [apply within_cap_log|].
           apply tame_insert_favori. intros u. rewrite Hu. by intros [= <-].
      * exfalso. revert Hc. unfold favorie_count, query_.
        destruct (faults e _); intros ?; by simplify_eq.
  - apply favorie_count_reads in Hc as ->.
    intros [= <- <-]. split; [apply within_cap_log|done].
Qed.

Lemma tame_deleted c (P : favorie_row → Prop) `{∀ r, Decision (P r)} e st :
  tame (λ r, http r ≠ 404%Z)
    (r ← favorie_delete c P;
     match error r, data r with
     | Some deleteError, _ =>
         respond 500 [("error", JStr (message deleteError))]
     | None, None => respond 404 [("error", JStr "Favori non trouvé")]
     | None, Some deletedFavori =>
         respond 200 [("data", jfavorie deletedFavori)]
     end) e st.
Proof.
  intros r st'. unfold mbind, M_bind.
  destruct (favorie_delete c P e st) as [[d|x] st0] eqn:Hd.
  - assert (Hcap : within_cap st st0).
    { apply favorie_delete_footprint in Hd as [-> | ->];
        [apply within_cap_log|apply within_cap_delete]. }
    pose proof (favorie_delete_data c P e st d st0 Hd) as Hdata.
    destruct (error d) as [deleteError|];
      [run_M; intros [= <- <-]; split; [done|by intros a [= <-]]|].
    destruct (data d) as [deletedFavori|]; [|exfalso; by apply Hdata].
    run_M. intros [= <- <-]. split; [done|by intros a [= <-]].
  - intros [= <- <-]. split; [|done].
    apply favorie_delete_footprint in Hd as [-> | ->];
      [apply within_cap_log|apply within_cap_delete].
Qed.

Lemma tame_delete req e st : tame (λ r, http r ≠ 404%Z) (delete req) e st.
Proof.
  unfold delete.
  destruct (negb _ && negb _); [by apply tame_respond|].
  destruct (required (body req !! "id"));
    [|destruct (required (body req !! "userId"))]; apply tame_deleted.
Qed.

Lemma tame_route req e st : tame (λ r, http r ≠ 404%Z) (route req) e st.
Proof.
  unfold route.
  destruct (String.eqb _ "GET"); [apply tame_get|].
  destruct (String.eqb _ "POST"); [apply tame_post|].
  destruct (String.eqb _ "DELETE"); [apply tame_delete|].
  by apply tame_respond.
Qed.

(** One request: the handler replies, not with 404, and stays within the
    cap. *)
Lemma handler_step req e st :
  ∃ reply st',
    handler req e st = (Val reply, st')
    ∧ http reply ≠ 404%Z
    ∧ within_cap st st'.
Proof.
  unfold handler, try_catch, mbind, M_bind.
  destruct (favorie_probe e st) as [[probe|x] st0] eqn:Hp;
    apply favorie_probe_reads in Hp as ->.
  - destruct (error probe) as [testError|].
    + destruct (String.eqb _ _); run_M; eexists _, _;
        (split; [reflexivity|]); (split; [done|apply within_cap_log]).
    + destruct (route req e (log FavorieProbe st)) as [[reply|x] st'] eqn:Hr;
        destruct (tame_after _ _ _ st _ (within_cap_log _ _)
                    (tame_route req e _) _ _ Hr) as [Hcap Hok].
      * eexists _, _. split; [reflexivity|]. split; [by apply Hok|done].
      * unfold on_error. run_M. eexists _, _. split; [reflexivity|].
        split; [|done]. by destruct (exn_message x).
  - unfold on_error. run_M. eexists _, _. split; [reflexivity|].
    split; [|apply within_cap_log]. by destruct (exn_message x).
Qed.

End FavorisFootprint.

Section FavorisRouting.
Import FavorisApi Footprint.

(** Past the probe, the request is routed by its method. *)
Lemma handler_routed req e st :
  faults e FavorieProbe = Proceed →
  handler req e st = try_catch (route req) on_error e (log FavorieProbe st).
Proof.
  intros Hprobe. unfold handler, try_catch.
  erewrite bind_Val by (unfold favorie_probe; by apply query_Proceed).
  done.
Qed.

Lemma insert_recent_perm x l : insert_recent x l ≡ₚ x :: l.
Proof.
  induction l as [|y l IH]; [done|]. simpl.
  destruct (_ <=? _)%Z; [done|]. rewrite IH. apply Permutation_swap.
Qed.

Lemma most_recent_first_perm l : most_recent_first l ≡ₚ l.
Proof.
  unfold most_recent_first. induction l as [|y l IH]; [done|]. simpl.
  rewrite insert_recent_perm. by f_equiv.
Qed.

Lemma insert_recent_sorted x l :
  StronglySorted newer_first l → StronglySorted newer_first (insert_recent x l).
Proof.
  induction 1 as [|y l Hl IH Hy]; simpl; [by repeat constructor|].
  destruct (Z.leb_spec (f_created_at y) (f_created_at x)).
  - constructor; [by constructor|]. constructor; [done|].
    eapply Forall_impl; [exact Hy|]. unfold newer_first. intros z Hz. lia.
  - constructor; [done|]. rewrite insert_recent_perm.
    constructor; [unfold newer_first; lia|done].
Qed.

Lemma most_recent_first_sorted l : StronglySorted newer_first (most_recent_first l).
Proof.
  unfold most_recent_first. induction l as [|y l IH]; simpl; [constructor|].
  by apply insert_recent_sorted.
Qed.

Lemma filter_sorted (P : favorie_row → Prop) `{∀ r, Decision (P r)} l :
  StronglySorted newer_first l → StronglySorted newer_first (filter P l).
Proof.
  induction 1 as [|y l Hl IH Hy]; [constructor|].
  rewrite filter_cons. destruct (decide (P y)); [|done].
  constructor; [done|]. apply Forall_forall. intros z [_ Hz]%list_elem_of_filter.
  by eapply Forall_forall in Hy.
Qed.

Lemma filter_all {A} (P : A → Prop) `{∀ x, Decision (P x)} (l : list A) :
  (∀ x, x ∈ l → P x) → filter P l = l.
Proof.
  induction l as [|a l IH]; intros Hall; [done|].
  rewrite filter_cons_True; [|apply Hall; left].
  f_equal. apply IH. intros x Hx. apply Hall. by right.
Qed.

End FavorisRouting.

(** If the probe of table [favorie] comes back with an error, no request
    is served, whatever its method: the reply is 503 with [needsSetup] for
    error code PGRST116, and 500 with the error's message for any other
    code.  The probe is the only call made. *)
Lemma favoris_probe_failure req e st err :
  faults e FavorieProbe = Fail err →
  ∃ reply,
    FavorisApi.handler req e st = (Val reply, log FavorieProbe st)
    ∧ http reply = (if String.eqb (code err) "PGRST116" then 503 else 500)%Z
    ∧ field "needsSetup" (doc reply)
      = (if String.eqb (code err) "PGRST116" then Some (JBool true) else None)
    ∧ field "error" (doc reply)
      = Some (JStr (if String.eqb (code err) "PGRST116" then "Setup required"
                    else message err)).
Proof.
  intros Hprobe. unfold FavorisApi.handler, try_catch.
  erewrite bind_Val by (unfold favorie_probe; by apply query_Fail).
  cbn [error failed].
  destruct (String.eqb (code err) "PGRST116"); run_M;
    eexists; by repeat split.
Qed.

Lemma favoris_probe_failure_witness :
  ∃ reply,
    FavorisApi.handler (Examples.GET [("userId", "b")])
      (Examples.server ExamplesX.no_table) Examples.favourites
    = (Val reply, log FavorieProbe Examples.favourites)
    ∧ http reply = 503%Z
    ∧ field "needsSetup" (doc reply) = Some (JBool true)
    ∧ field "error" (doc reply) = Some (JStr "Setup required").
Proof.
  apply (favoris_probe_failure (Examples.GET [("userId", "b")])
           (Examples.server ExamplesX.no_table) Examples.favourites PGRST116).
  reflexivity.
Defined.

(** Three kinds of request get past the probe and no further: a method
    other than GET, POST and DELETE is answered 405; a POST without a
    [ville] and a DELETE with neither a [ville] nor an [id] (absent or
    empty) are answered 400.  Table [favorie] is neither counted nor
    written. *)
Lemma favoris_guards req e st :
  faults e FavorieProbe = Proceed →
  (method req ≠ "GET" ∧ method req ≠ "POST" ∧ method req ≠ "DELETE")
  ∨ (method req = "POST" ∧ required (body req !! "ville") = None)
  ∨ (method req = "DELETE"
     ∧ truthy (body req !! "ville") = false
     ∧ truthy (body req !! "id") = false) →
  ∃ reply,
    FavorisApi.handler req e st = (Val reply, log FavorieProbe st)
    ∧ http reply
      = (if String.eqb (method req) "POST" || String.eqb (method req) "DELETE"
         then 400 else 405)%Z.
Proof.
  intros Hprobe Hcase. rewrite handler_routed by done.
  unfold FavorisApi.route.
  destruct Hcase as [(Hget & Hpost & Hdel)
                    |[[Hpost Hville]|(Hdel & Hville & Hid)]].
  - destruct (String.eqb_spec (method req) "GET"); [done|].
    destruct (String.eqb_spec (method req) "POST"); [done|].
    destruct (String.eqb_spec (method req) "DELETE"); [done|].
    eexists. split; [by apply try_catch_Val|done].
  - rewrite Hpost. cbn [String.eqb Ascii.eqb Bool.eqb orb].
    unfold FavorisApi.post. rewrite Hville.
    eexists. split; [by apply try_catch_Val|done].
  - rewrite Hdel. cbn [String.eqb Ascii.eqb Bool.eqb orb].
    unfold FavorisApi.delete. rewrite Hville, Hid.
    eexists. split; [by apply try_catch_Val|done].
Qed.

Lemma favoris_guards_witness :
  ∃ reply,
    FavorisApi.handler (ExamplesX.DELETE [("userId", "b"); ("ville", EmptyString)])
      (Examples.server Examples.quiet) Examples.favourites
    = (Val reply, log FavorieProbe Examples.favourites)
    ∧ http reply = 400%Z.
Proof.
  apply (favoris_guards (ExamplesX.DELETE [("userId", "b"); ("ville", EmptyString)])
           (Examples.server Examples.quiet) Examples.favourites).
  - reflexivity.
  - right. right. repeat split.
Defined.

(** X14. A GET that goes through is answered 200 with the rows of table
    [favorie], the most recent first: those of the user named by [userId]
    or, when [userId] is absent or empty, those of every user.  Nothing is
    written. *)
Theorem favoris_get_lists req e st :
  method req = "GET" →
  faults e FavorieProbe = Proceed →
  faults e (FavorieList (query req !! "userId")) = Proceed →
  ∃ rows,
    FavorisApi.handler req e st
    = (Val {| http := 200;
              doc := JObj [("data", JArr (FavorisApi.jfavorie <$> rows))] |},
       log (FavorieList (query req !! "userId")) (log FavorieProbe st))
    ∧ rows ≡ₚ match required (query req !! "userId") with
              | Some userId => favorie_of userId (tbl_favorie st)
              | None => tbl_favorie st
              end
    ∧ StronglySorted Footprint.newer_first rows.
Proof.
  intros Hmethod Hprobe Hlist. rewrite handler_routed by done.
  unfold FavorisApi.route. rewrite Hmethod.
  cbn [String.eqb Ascii.eqb Bool.eqb].
  unfold FavorisApi.get.
  eexists. split.
  - apply try_catch_Val.
    erewrite bind_Val by (unfold favorie_list; by apply query_Proceed).
    cbn [fst snd error data answer default from_option tbl_favorie log].
    reflexivity.
  - unfold id. destruct (required (query req !! "userId")) as [userId|].
    + split.
      * unfold favorie_of. by rewrite most_recent_first_perm.
      * apply filter_sorted, most_recent_first_sorted.
    + split; [apply most_recent_first_perm|apply most_recent_first_sorted].
Qed.

Lemma favoris_get_lists_witness :
  ∃ rows,
    FavorisApi.handler (Examples.GET [("userId", "a@x.com")])
      (Examples.server Examples.quiet) Examples.favourites
    = (Val {| http := 200;
              doc := JObj [("data", JArr (FavorisApi.jfavorie <$> rows))] |},
       log (FavorieList (Some "a@x.com"))
         (log FavorieProbe Examples.favourites))
    ∧ rows ≡ₚ favorie_of "a@x.com" (tbl_favorie Examples.favourites)
    ∧ StronglySorted Footprint.newer_first rows.
Proof.
  apply (favoris_get_lists (Examples.GET [("userId", "a@x.com")])
           (Examples.server Examples.quiet) Examples.favourites);
    reflexivity.
Defined.

(** X15. A DELETE with an [id] deletes the row of that identifier, and replies
    200 with it, whoever owns the row: the [userId] and the [ville] of
    the request are not looked at. *)
Theorem favoris_delete_by_id_ignores_owner req e st id row :
  method req = "DELETE" →
  required (body req !! "id") = Some id →
  faults e FavorieProbe = Proceed →
  faults e (FavorieDeleteById id) = Proceed →
  filter (λ r, f_id r = id) (tbl_favorie st) = [row] →
  ∃ st',
    FavorisApi.handler req e st
    = (Val {| http := 200;
              doc := JObj [("data", FavorisApi.jfavorie row)] |}, st')
    ∧ tbl_favorie st' = filter (λ r, f_id r ≠ id) (tbl_favorie st)
    ∧ trace st' = (trace st ++ [FavorieProbe; FavorieDeleteById id])%list.
Proof.
  intros Hmethod Hid Hprobe Hdelete Hrow. rewrite handler_routed by done.
  unfold FavorisApi.route. rewrite Hmethod.
  cbn [String.eqb Ascii.eqb Bool.eqb].
  unfold FavorisApi.delete.
  rewrite (required_truthy _ _ Hid), andb_false_r, Hid.
  eexists. split.
  - apply try_catch_Val.
    erewrite bind_Val by (unfold favorie_delete; by apply query_Proceed).
    cbn [fst snd tbl_favorie log]. rewrite Hrow. reflexivity.
  - cbn [snd tbl_favorie with_favorie log trace]. split; [done|].
    by rewrite <- app_assoc.
Qed.

Lemma favoris_delete_by_id_ignores_owner_witness :
  ∃ st',
    FavorisApi.handler (ExamplesX.DELETE [("userId", "b"); ("id", "f-1")])
      (Examples.server Examples.quiet) Examples.favourites
    = (Val {| http := 200;
              doc := JObj [("data",
                            FavorisApi.jfavorie
                              {| f_id := "f-1"; f_user_id := Some "a@x.com";
                                 f_ville := "Paris";
                                 f_created_at := Examples.today - 3 |})] |},
       st')
    ∧ tbl_favorie st'
      = filter (λ r, f_id r ≠ "f-1") (tbl_favorie Examples.favourites)
    ∧ trace st'
      = (trace Examples.favourites
         ++ [FavorieProbe; FavorieDeleteById "f-1"])%list.
Proof.
  apply (favoris_delete_by_id_ignores_owner
           (ExamplesX.DELETE [("userId", "b"); ("id", "f-1")])
           (Examples.server Examples.quiet) Examples.favourites "f-1");
    reflexivity.
Defined.

(** X16. A DELETE by [ville] and [userId] that matches no row, be it only for
    the case of a letter, is answered 500 with the message of error
    PGRST116; the table is as it was. *)
Theorem favoris_delete_missing req e st ville userId :
  method req = "DELETE" →
  required (body req !! "id") = None →
  required (body req !! "ville") = Some ville →
  required (body req !! "userId") = Some userId →
  faults e FavorieProbe = Proceed →
  faults e (FavorieDeleteByVille ville (Some userId)) = Proceed →
  filter (λ r, f_ville r = ville ∧ f_user_id r = Some userId) (tbl_favorie st)
  = [] →
  ∃ st',
    FavorisApi.handler req e st
    = (Val {| http := 500;
              doc := JObj [("error", JStr (message PGRST116))] |}, st')
    ∧ tbl_favorie st' = tbl_favorie st.
Proof.
  intros Hmethod Hid Hville Huser Hprobe Hdelete Hnone.
  rewrite handler_routed by done.
  unfold FavorisApi.route. rewrite Hmethod.
  cbn [String.eqb Ascii.eqb Bool.eqb].
  unfold FavorisApi.delete.
  rewrite (required_truthy _ _ Hville). cbn [negb andb].
  rewrite Hid, Huser.
  apply required_Some in Hville as [-> _]. cbn [default from_option].
  unfold id.
  eexists. split.
  - apply try_catch_Val.
    erewrite bind_Val by (unfold favorie_delete; by apply query_Proceed).
    cbn [fst snd tbl_favorie log]. rewrite Hnone. reflexivity.
  - cbn [snd tbl_favorie with_favorie log]. apply filter_all.
    intros r Hr HP. exact (filter_nil_not_elem_of _ _ r Hnone HP Hr).
Qed.

Lemma favoris_delete_missing_witness :
  ∃ st',
    FavorisApi.handler
      (ExamplesX.DELETE [("userId", "a@x.com"); ("ville", "paris")])
      (Examples.server Examples.quiet) Examples.favourites
    = (Val {| http := 500;
              doc := JObj [("error", JStr (message PGRST116))] |}, st')
    ∧ tbl_favorie st' = tbl_favorie Examples.favourites.
Proof.
  apply (favoris_delete_missing
           (ExamplesX.DELETE [("userId", "a@x.com"); ("ville", "paris")])
           (Examples.server Examples.quiet) Examples.favourites
           "paris" "a@x.com");
    reflexivity.
Defined.

(** *** /api/favoris: what holds of every request *)

(** X17. Whatever the request and whatever the database does, the handler of
    /api/favoris replies: no exception escapes it.  It never replies 404:
    the branch [Favori non trouvé] is out of reach, because [.single()]
    reports a deletion that matched no row as an error.  The user
    directory, table [favoris] of the client service and the Stripe
    sessions are never touched. *)
Theorem favoris_always_replies req e st :
  ∃ reply st',
    FavorisApi.handler req e st = (Val reply, st')
    ∧ http reply ≠ 404%Z
    ∧ tbl_user st' = tbl_user st
    ∧ tbl_favoris st' = tbl_favoris st
    ∧ stripe_sessions st' = stripe_sessions st.
Proof.
  destruct (handler_step req e st)
    as (reply & st' & Hrun & Hhttp & Hu & Hf & Hs & _).
  by exists reply, st'.
Qed.

(** X18. The limit of three is an invariant of the API, for requests served
    one after the other: if no user has more than three rows in table
    [favorie], no sequence of requests, with or without failures of the
    database, takes a user beyond three. *)
Theorem favoris_never_more_than_three requests st :
  Footprint.capped (tbl_favorie st) →
  Footprint.capped (tbl_favorie (Footprint.serve_all requests st)).
Proof.
  revert st. induction requests as [|[req e] rest IH]; intros st Hcap; [done|].
  cbn [Footprint.serve_all].
  destruct (handler_step req e st)
    as (reply & st' & -> & _ & _ & _ & _ & Hstep).
  apply IH. intros u. specialize (Hstep u). specialize (Hcap u).
  cbn [snd]. lia.
Qed.

Lemma favoris_never_more_than_three_witness :
  Footprint.capped
    (tbl_favorie
       (Footprint.serve_all
          [(Examples.POST [("userId", "a@x.com"); ("ville", "Marseille")],
            Examples.server Examples.quiet);
           (Examples.POST [("userId", "b"); ("ville", "Lyon")],
            Examples.server Examples.quiet);
           (ExamplesX.DELETE [("userId", "a@x.com"); ("ville", "Nice")],
            Examples.server Examples.rejecting)]
          Examples.favourites)).
Proof.
  apply (favoris_never_more_than_three _ Examples.favourites).
  intros u. unfold favorie_of.
  change (tbl_favorie Examples.favourites) with Examples.favorie_3.
  unfold Examples.favorie_3.
  rewrite !filter_cons, filter_nil.
  repeat destruct (decide _); simpl in *; try lia; congruence.
Defined.

(** X19. A favourite added and then deleted by its [ville] leaves table
    [favorie] as it was, and the deletion replies with the row that the
    addition made, provided the user had no row of that very [ville]
    before. *)
Theorem favoris_add_then_delete_restores add del e e' st userId ville :
  method add = "POST" →
  required (body add !! "userId") = Some userId →
  required (body add !! "ville") = Some ville →
  method del = "DELETE" →
  required (body del !! "userId") = Some userId →
  required (body del !! "ville") = Some ville →
  required (body del !! "id") = None →
  faults e FavorieProbe = Proceed →
  faults e (FavorieCount userId) = Proceed →
  faults e (FavorieInsert (Some userId) ville) = Proceed →
  faults e' FavorieProbe = Proceed →
  faults e' (FavorieDeleteByVille ville (Some userId)) = Proceed →
  (length (favorie_of userId (tbl_favorie st)) < 3)%nat →
  filter (λ r, f_ville r = ville ∧ f_user_id r = Some userId) (tbl_favorie st)
  = [] →
  ∃ row st1 st2,
    FavorisApi.handler add e st
    = (Val (FavorisApi.created_reply (Some row)), st1)
    ∧ FavorisApi.handler del e' st1
      = (Val {| http := 200;
                doc := JObj [("data", FavorisApi.jfavorie row)] |}, st2)
    ∧ tbl_favorie st2 = tbl_favorie st.
Proof.
  intros Hpost Huser Hville Hdelete Huser' Hville' Hid
         Hprobe Hcount Hinsert Hprobe' Hdel Hroom Hnew.
  pose proof (required_Some _ _ Huser) as [Hbody _].
  rewrite (handler_below_limit e st add ville Hpost Hville Hprobe
             userId Huser Hcount Hroom).
  rewrite insert_favori_created by (by rewrite Huser).
  rewrite Huser.
  eexists _, _, _. split; [reflexivity|].
  rewrite handler_routed by done.
  unfold FavorisApi.route. rewrite Hdelete.
  cbn [String.eqb Ascii.eqb Bool.eqb].
  unfold FavorisApi.delete.
  rewrite (required_truthy _ _ Hville'). cbn [negb andb].
  rewrite Hid, Huser'.
  apply required_Some in Hville' as [-> _]. cbn [default from_option].
  unfold id.
  split.
  - apply try_catch_Val.
    erewrite bind_Val by (unfold favorie_delete; by apply query_Proceed).
    cbn [fst snd tbl_favorie with_favorie log].
    rewrite filter_app, Hnew, filter_cons_True by done.
    reflexivity.
  - cbn [snd tbl_favorie with_favorie log].
    rewrite filter_app, filter_cons_False, filter_nil, app_nil_r
      by (cbn; tauto).
    apply filter_all.
    intros r Hr HP. exact (filter_nil_not_elem_of _ _ r Hnew HP Hr).
Qed.

Lemma favoris_add_then_delete_restores_witness :
  ∃ row st1 st2,
    FavorisApi.handler (Examples.POST [("userId", "b"); ("ville", "Lyon")])
      (Examples.server Examples.quiet) Examples.favourites
    = (Val (FavorisApi.created_reply (Some row)), st1)
    ∧ FavorisApi.handler
        (ExamplesX.DELETE [("userId", "b"); ("ville", "Lyon")])
        (Examples.server Examples.quiet) st1
      = (Val {| http := 200;
                doc := JObj [("data", FavorisApi.jfavorie row)] |}, st2)
    ∧ tbl_favorie st2 = tbl_favorie Examples.favourites.
Proof.
  apply (favoris_add_then_delete_restores
           (Examples.POST [("userId", "b"); ("ville", "Lyon")])
           (ExamplesX.DELETE [("userId", "b"); ("ville", "Lyon")])
           (Examples.server Examples.quiet) (Examples.server Examples.quiet)
           Examples.favourites "b" "Lyon");
    try reflexivity.
  vm_compute. lia.
Defined.

(** *** favorisService.ajouterFavori: what it writes, and when *)

Section ServiceSteps.
Import FavorisService Footprint.

Variable toLowerCase : string → string.

(** One call of [ajouterFavori]: it resolves, and either it returns no
    row and has written none, or it returns the row it has appended, which
    was within the limit and new up to case. *)
Lemma ajouterFavori_step userId ville e st :
  ∃ out st',
    ajouterFavori toLowerCase userId ville e st = (Val out, st')
    ∧ tbl_user st' = tbl_user st
    ∧ tbl_favorie st' = tbl_favorie st
    ∧ stripe_sessions st' = stripe_sessions st
    ∧ ((o_data out = None ∧ tbl_favoris st' = tbl_favoris st)
       ∨ (let row := {| fs_id := userId; fs_ville := ville;
                        fs_created_at := clock e |} in
          o_data out = Some row
          ∧ o_error out = None
          ∧ tbl_favoris st' = (tbl_favoris st ++ [row])%list
          ∧ (length (favoris_of userId (tbl_favoris st)) < 3)%nat
          ∧ ∀ f, f ∈ favoris_of userId (tbl_favoris st) →
                 toLowerCase (fs_ville f) ≠ toLowerCase ville)).
Proof.
  unfold ajouterFavori, try_catch, mbind, M_bind.
  unfold favoris_select, query_.
  destruct (faults e (FavorisSelect userId)) as [|err|x].
  - cbn [error data answer tbl_favoris log].
    destruct (Nat.leb_spec 3 (length (favoris_of userId (tbl_favoris st))))
      as [Hfull|Hroom].
    { eexists _, _. split; [reflexivity|]. repeat split. by left. }
    destruct (existsb _ _) eqn:Hex.
    { eexists _, _. split; [reflexivity|]. repeat split. by left. }
    unfold favoris_insert, query_.
    destruct (faults e (FavorisInsert userId ville)) as [|err|x].
    + eexists _, _. split; [reflexivity|]. repeat split. right.
      cbn. repeat split; [done|].
      intros f Hf Hcase.
      assert (existsb (λ f, String.eqb (toLowerCase (fs_ville f))
                                       (toLowerCase ville))
                (favoris_of userId (tbl_favoris st)) = true) as Htrue.
      { apply existsb_exists. exists f. split.
        - by apply list_elem_of_In.
        - by apply String.eqb_eq. }
      congruence.
    + eexists _, _. split; [reflexivity|]. repeat split. by left.
    + eexists _, _. split; [reflexivity|]. repeat split. by left.
  - eexists _, _. split; [reflexivity|]. repeat split. by left.
  - eexists _, _. split; [reflexivity|]. repeat split. by left.
Qed.

End ServiceSteps.

(** X20. Whatever the database does, [ajouterFavori] resolves to an outcome:
    no exception escapes it.  It writes to table [favoris] alone, and a
    row is written exactly when the outcome carries one: then the outcome
    has no error and the row, the user's with the name as it was typed,
    has been appended. *)
Theorem ajouterFavori_resolves toLowerCase userId ville e st :
  ∃ out st',
    FavorisService.ajouterFavori toLowerCase userId ville e st = (Val out, st')
    ∧ tbl_user st' = tbl_user st
    ∧ tbl_favorie st' = tbl_favorie st
    ∧ stripe_sessions st' = stripe_sessions st
    ∧ match FavorisService.o_data out with
      | None => tbl_favoris st' = tbl_favoris st
      | Some row =>
          FavorisService.o_error out = None
          ∧ fs_id row = userId ∧ fs_ville row = ville
          ∧ tbl_favoris st' = (tbl_favoris st ++ [row])%list
      end.
Proof.
  destruct (ajouterFavori_step toLowerCase userId ville e st)
    as (out & st' & Hrun & Hu & Hf & Hs & Hcase).
  exists out, st'. repeat split; try done.
  destruct Hcase as [[-> Hsame]|(-> & Herr & Htbl & _)]; [done|].
  by repeat split.
Qed.

(** X21. The limit of three and the absence of two names equal up to case
    are invariants of the service: if they hold of table [favoris], they
    hold after [ajouterFavori], whatever the user, the name and the
    failures of the database. *)
Theorem ajouterFavori_keeps_invariants toLowerCase userId ville e st :
  Footprint.capped_favoris (tbl_favoris st) →
  Footprint.distinct_villes toLowerCase (tbl_favoris st) →
  let st' := (FavorisService.ajouterFavori toLowerCase userId ville e st).2 in
  Footprint.capped_favoris (tbl_favoris st')
  ∧ Footprint.distinct_villes toLowerCase (tbl_favoris st').
Proof.
  intros Hcap Hdistinct.
  destruct (ajouterFavori_step toLowerCase userId ville e st)
    as (out & st' & -> & _ & _ & _ & Hcase).
  cbn [snd]. cbv zeta.
  destruct Hcase as [[_ ->]|(_ & _ & -> & Hroom & Hnew)]; [done|].
  split.
  - intros u. unfold favoris_of. rewrite filter_app, length_app.
    rewrite filter_cons, filter_nil.
    destruct (decide _) as [Hu|Hu]; simpl in *.
    + subst u. unfold favoris_of in Hroom. lia.
    + specialize (Hcap u). unfold favoris_of in Hcap. lia.
  - intros u. unfold favoris_of. rewrite filter_app, fmap_app.
    rewrite filter_cons, filter_nil.
    destruct (decide _) as [Hu|Hu]; simpl in *.
    + subst u. apply NoDup_app. split; [apply Hdistinct|]. split.
      * intros name (f & -> & Hf)%list_elem_of_fmap Hin.
        apply list_elem_of_singleton in Hin. by apply (Hnew f).
      * apply NoDup_singleton.
    + rewrite app_nil_r. apply Hdistinct.
Qed.

Lemma ajouterFavori_keeps_invariants_witness :
  Footprint.capped_favoris
    (tbl_favoris
       (FavorisService.ajouterFavori FavorisService.asciiLowerCase
          "b" "Lyon" (Examples.server Examples.quiet) Examples.favourites).2)
  ∧ Footprint.distinct_villes FavorisService.asciiLowerCase
      (tbl_favoris
         (FavorisService.ajouterFavori FavorisService.asciiLowerCase
            "b" "Lyon" (Examples.server Examples.quiet)
            Examples.favourites).2).
Proof.
  apply (ajouterFavori_keeps_invariants FavorisService.asciiLowerCase
           "b" "Lyon" (Examples.server Examples.quiet) Examples.favourites).
  - intros u. unfold favoris_of.
    change (tbl_favoris Examples.favourites) with Examples.favoris_3.
    unfold Examples.favoris_3. rewrite !filter_cons, filter_nil.
    repeat destruct (decide _); simpl in *; try lia; congruence.
  - intros u. unfold favoris_of.
    change (tbl_favoris Examples.favourites) with Examples.favoris_3.
    unfold Examples.favoris_3. rewrite !filter_cons, filter_nil.
    repeat destruct (decide _); simpl in *; try congruence;
      apply (bool_decide_unpack _); vm_compute; exact I.
Defined.

(** X22. Under the limit, a name that none of the user's favourites has, up
    to case, is added: the outcome carries the new row, with the name as
    it was typed, and no error. *)
Theorem ajouterFavori_adds toLowerCase userId ville e st :
  faults e (FavorisSelect userId) = Proceed →
  faults e (FavorisInsert userId ville) = Proceed →
  (length (favoris_of userId (tbl_favoris st)) < 3)%nat →
  (∀ f, f ∈ favoris_of userId (tbl_favoris st) →
        toLowerCase (fs_ville f) ≠ toLowerCase ville) →
  let row := {| fs_id := userId; fs_ville := ville;
                fs_created_at := clock e |} in
  FavorisService.ajouterFavori toLowerCase userId ville e st
  = (Val {| FavorisService.o_data := Some row;
            FavorisService.o_error := None |},
     with_favoris (tbl_favoris st ++ [row])
       (log (FavorisInsert userId ville) (log (FavorisSelect userId) st))).
Proof.
  intros Hselect Hinsert Hroom Hnew row.
  unfold FavorisService.ajouterFavori. apply try_catch_Val.
  erewrite bind_Val by (by apply favoris_select_rows).
  cbn [error data answer].
  destruct (Nat.leb_spec 3 (length (favoris_of userId (tbl_favoris st))));
    [lia|].
  destruct (existsb _ _) eqn:Hex.
  { apply existsb_exists in Hex as (f & Hf & Hcase).
    apply list_elem_of_In in Hf. apply String.eqb_eq in Hcase.
    by apply Hnew in Hf. }
  erewrite bind_Val by (unfold favoris_insert; by apply query_Proceed).
  reflexivity.
Qed.

Lemma ajouterFavori_adds_witness :
  FavorisService.ajouterFavori FavorisService.asciiLowerCase "b" "Lyon"
    (Examples.server Examples.quiet) Examples.favourites
  = (Val {| FavorisService.o_data :=
              Some {| fs_id := "b"; fs_ville := "Lyon";
                      fs_created_at := Examples.today |};
            FavorisService.o_error := None |},
     with_favoris
       (tbl_favoris Examples.favourites
        ++ [{| fs_id := "b"; fs_ville := "Lyon";
               fs_created_at := Examples.today |}])
       (log (FavorisInsert "b" "Lyon")
          (log (FavorisSelect "b") Examples.favourites))).
Proof.
  apply (ajouterFavori_adds FavorisService.asciiLowerCase "b" "Lyon"
           (Examples.server Examples.quiet) Examples.favourites).
  - reflexivity.
  - reflexivity.
  - vm_compute. lia.
  - intros f Hf. vm_compute in Hf.
    apply list_elem_of_singleton in Hf as ->. vm_compute. discriminate.
Defined.

(** *** The authentication context: modes and what the page is told *)

Section ModeFacts.
Import DemoAuth AuthProvider.

Lemma demo_notify_keeps session_user s :
  isDemoMode (demo_notify session_user s) = isDemoMode s
  ∧ demo_listener (demo_notify session_user s) = demo_listener s
  ∧ (demo_listener s = false → demo_notify session_user s = s).
Proof. unfold demo_notify. by destruct (demo_listener s) eqn:H. Qed.

Lemma live_notify_keeps session_user s :
  isDemoMode (live_notify session_user s) = isDemoMode s
  ∧ demo_listener (live_notify session_user s) = demo_listener s.
Proof. unfold live_notify. by destruct (demo_listener s) eqn:H. Qed.

(** In a provider in demo mode whose listener is Supabase's, a request
    changes neither the mode, nor the listener, nor the user shown. *)
Lemma serve_after_fallback bk q s :
  isDemoMode s = true → demo_listener s = false →
  isDemoMode (serve bk q s).1.2 = true
  ∧ demo_listener (serve bk q s).1.2 = false
  ∧ user (serve bk q s).1.2 = user s.
Proof.
  intros Hdemo Hlistener.
  destruct q as [email password userData|email password| | | |]; cbn [serve].
  - unfold signUp, signUp_try. rewrite Hdemo.
    by destruct (r_error (DemoAuth.signUp _ _ _ _)).
  - unfold signIn. rewrite Hdemo.
    destruct (signInWithPassword _ _ _ _) as [r d].
    destruct (r_error r); cbn [fst snd]; [done|].
    unfold demo_notify. cbn [demo_listener with_demo]. by rewrite Hlistener.
  - unfold signOut. rewrite Hdemo. cbn [fst snd].
    unfold demo_notify. cbn [demo_listener with_demo]. by rewrite Hlistener.
  - unfold updateProfile. rewrite Hdemo.
    destruct (updateUser None (demo s)) as [r d].
    destruct (r_user r); cbn [fst snd]; [|done].
    unfold demo_notify. cbn [demo_listener with_demo]. by rewrite Hlistener.
  - unfold updatePassword. by rewrite Hdemo.
  - unfold deleteAccount. by rewrite Hdemo.
Qed.

Lemma session_after_fallback qs s :
  isDemoMode s = true → demo_listener s = false →
  user (session qs s) = user s.
Proof.
  revert s. induction qs as [|[bk q] qs IH]; intros s Hdemo Hlistener; [done|].
  cbn [session].
  destruct (serve_after_fallback bk q s Hdemo Hlistener) as (Hd & Hl & Hu).
  rewrite <- Hu. by apply IH.
Qed.

End ModeFacts.

(** X23. In demo mode the context does not reach Supabase: every call it makes
    goes to the demo backend, and its reply and its new state are the same
    whatever the live backend would have done. *)
Theorem demo_mode_ignores_live_backend bk bk' q s :
  AuthProvider.isDemoMode s = true →
  AuthProvider.now bk = AuthProvider.now bk' →
  AuthProvider.serve bk q s = AuthProvider.serve bk' q s
  ∧ Forall (λ c, Footprint.demo_call c = true) (AuthProvider.serve bk q s).2.
Proof.
  intros Hdemo Hnow.
  destruct q as [email password userData|email password| | | |];
    cbn [AuthProvider.serve].
  - unfold AuthProvider.signUp, AuthProvider.signUp_try.
    rewrite Hdemo, Hnow. cbn [negb andb].
    destruct (DemoAuth.r_error _); split; try done; by repeat constructor.
  - unfold AuthProvider.signIn. rewrite Hdemo, Hnow.
    destruct (DemoAuth.signInWithPassword _ _ _ _) as [r d].
    destruct (DemoAuth.r_error r); split; try done; by repeat constructor.
  - unfold AuthProvider.signOut. rewrite Hdemo.
    split; [done|by repeat constructor].
  - unfold AuthProvider.updateProfile. rewrite Hdemo.
    destruct (DemoAuth.updateUser None _) as [r d].
    split; [done|by repeat constructor].
  - unfold AuthProvider.updatePassword. rewrite Hdemo. by split.
  - unfold AuthProvider.deleteAccount. rewrite Hdemo. by split.
Qed.

Lemma demo_mode_ignores_live_backend_witness :
  let s := AuthProvider.mount None None {| DemoAuth.user := None |} None in
  AuthProvider.serve (AuthExamples.refusing "422")
    (AuthProvider.SignIn "demo@example.com" "demo123") s
  = AuthProvider.serve (AuthExamples.refusing "User already registered")
      (AuthProvider.SignIn "demo@example.com" "demo123") s
  ∧ Forall (λ c, Footprint.demo_call c = true)
      (AuthProvider.serve (AuthExamples.refusing "422")
         (AuthProvider.SignIn "demo@example.com" "demo123") s).2.
Proof.
  intros s.
  apply (demo_mode_ignores_live_backend (AuthExamples.refusing "422")
           (AuthExamples.refusing "User already registered")
           (AuthProvider.SignIn "demo@example.com" "demo123") s);
    reflexivity.
Defined.

(** X24. In live mode one request alone can switch the context to demo mode:
    a registration that Supabase fails as unprocessable.  A sign-in, a
    sign-out, an update or a deletion that fails, for whatever reason,
    leaves the context in live mode. *)
Theorem only_signUp_switches_to_demo bk q s :
  AuthProvider.isDemoMode s = false →
  AuthProvider.isDemoMode (AuthProvider.serve bk q s).1.2
  = match q with
    | AuthProvider.SignUp email password _ =>
        AuthProvider.unprocessable (AuthProvider.auth_signUp bk email password)
    | _ => false
    end.
Proof.
  intros Hlive.
  destruct q as [email password userData|email password| | | |];
    cbn [AuthProvider.serve].
  - by rewrite signUp_mode, Hlive.
  - unfold AuthProvider.signIn. rewrite Hlive.
    destruct (AuthProvider.auth_signIn bk email password); cbn [fst snd];
      [|done..].
    by rewrite (proj1 (live_notify_keeps _ _)).
  - unfold AuthProvider.signOut. rewrite Hlive.
    destruct (AuthProvider.auth_signOut bk); cbn [fst snd]; [|done..].
    by rewrite (proj1 (live_notify_keeps _ _)).
  - unfold AuthProvider.updateProfile. rewrite Hlive.
    destruct (AuthProvider.auth_updateUser bk updates); cbn [fst snd];
      [|done..].
    by rewrite (proj1 (live_notify_keeps _ _)).
  - unfold AuthProvider.updatePassword. rewrite Hlive.
    by destruct (AuthProvider.auth_updatePassword bk newPassword).
  - unfold AuthProvider.deleteAccount. rewrite Hlive.
    by destruct (AuthProvider.rpc_delete_user_account bk).
Qed.

Lemma only_signUp_switches_to_demo_witness :
  AuthProvider.isDemoMode
    (AuthProvider.serve (AuthExamples.refusing "422")
       (AuthProvider.SignIn "jean@x.com" "secret1")
       AuthExamples.live_start).1.2
  = false.
Proof.
  apply (only_signUp_switches_to_demo (AuthExamples.refusing "422")
           (AuthProvider.SignIn "jean@x.com" "secret1")
           AuthExamples.live_start).
  reflexivity.
Defined.

(** X25. In demo mode a failure of the demo backend reaches the page without
    a message: registering the address that the demo backend refuses, or
    signing in with anything but its one account, is answered with neither
    data nor error, because the backend's error is a string and the
    context reads its [message].  The state is as it was. *)
Theorem demo_failures_carry_no_message bk s email password userData :
  AuthProvider.isDemoMode s = true →
  (email = "test@demo.com" →
   (AuthProvider.signUp bk email password userData s).1
   = ({| AuthProvider.f_data := None; AuthProvider.f_error := None |}, s))
  ∧ (¬ (email = "demo@example.com" ∧ password = "demo123") →
     (AuthProvider.signIn bk email password s).1
     = ({| AuthProvider.f_data := None; AuthProvider.f_error := None |}, s)).
Proof.
  intros Hdemo. split.
  - intros ->. unfold AuthProvider.signUp, AuthProvider.signUp_try.
    by rewrite Hdemo.
  - intros Hbad. unfold AuthProvider.signIn, DemoAuth.signInWithPassword.
    rewrite Hdemo.
    destruct (String.eqb_spec email "demo@example.com") as [->|];
      [|done].
    destruct (String.eqb_spec password "demo123") as [->|]; [|done].
    by destruct Hbad.
Qed.

Lemma demo_failures_carry_no_message_witness :
  let s := AuthProvider.mount None None {| DemoAuth.user := None |} None in
  (AuthProvider.signIn (AuthExamples.refusing "422")
     "demo@example.com" "wrong" s).1
  = ({| AuthProvider.f_data := None; AuthProvider.f_error := None |}, s).
Proof.
  intros s.
  apply (demo_failures_carry_no_message (AuthExamples.refusing "422") s
           "demo@example.com" "wrong" AuthExamples.jean).
  - reflexivity.
  - intros [_ H]. discriminate H.
Defined.

(** X26. A context mounted with a Supabase configuration listens to Supabase
    alone.  Once a registration has made it fall back to demo mode, the
    user it shows never changes again: whatever is requested afterwards, a
    sign-in with the demo account included, [user] stays what it was when
    the registration was made. *)
Theorem fallback_never_shows_user bk email password userData qs s :
  AuthProvider.isDemoMode s = false →
  AuthProvider.demo_listener s = false →
  AuthProvider.unprocessable (AuthProvider.auth_signUp bk email password)
  = true →
  AuthProvider.user
    (AuthProvider.session
       ((bk, AuthProvider.SignUp email password userData) :: qs) s)
  = AuthProvider.user s.
Proof.
  intros Hlive Hlistener Hun. cbn [AuthProvider.session AuthProvider.serve].
  destruct (signUp_try_thrown bk s email password userData Hlive Hun)
    as [x Htry].
  destruct (signUp_try_422 _ _ _ _ _ _ _ Hlive Htry) as [_ H422].
  unfold AuthProvider.signUp. rewrite Htry, Hlive, H422, Hun.
  cbn [negb andb fst snd].
  by rewrite session_after_fallback.
Qed.

Lemma fallback_never_shows_user_witness :
  let bk := AuthExamples.refusing "Request failed with status code 422" in
  AuthProvider.user
    (AuthProvider.session
       [(bk, AuthProvider.SignUp "jean@x.com" "secret1" AuthExamples.jean);
        (bk, AuthProvider.SignIn "demo@example.com" "demo123")]
       AuthExamples.live_start)
  = AuthProvider.user AuthExamples.live_start.
Proof.
  intros bk.
  apply (fallback_never_shows_user bk "jean@x.com" "secret1" AuthExamples.jean
           [(bk, AuthProvider.SignIn "demo@example.com" "demo123")]
           AuthExamples.live_start);
    reflexivity.
Defined.



(** X28. In demo mode an update of the profile changes nothing: the demo
    backend reads [updates.data], which the context does not send, so
    that the signed-in user is answered back as it was, and the new
    values are dropped. *)
Theorem demo_updateProfile_drops_updates bk updates s u :
  AuthProvider.isDemoMode s = true →
  DemoAuth.user (AuthProvider.demo s) = Some u →
  (AuthProvider.updateProfile bk updates s).1.1 = AuthProvider.ok (Some u)
  ∧ AuthProvider.demo (AuthProvider.updateProfile bk updates s).1.2
    = AuthProvider.demo s.
Proof.
  intros Hdemo Huser.
  unfold AuthProvider.updateProfile, DemoAuth.updateUser.
  rewrite Hdemo, Huser. cbn [DemoAuth.spread DemoAuth.r_user fst snd].
  destruct u as [i m p c]. cbn.
  split; [done|].
  unfold AuthProvider.demo_notify.
  destruct (AuthProvider.demo_listener _); cbn;
    destruct (AuthProvider.demo s) as [du]; cbn in *; by rewrite Huser.
Qed.

Lemma demo_updateProfile_drops_updates_witness :
  (AuthProvider.updateProfile (ExamplesX.welcoming (AuthProvider.Resolved tt))
     AuthExamples.jean ExamplesX.demo_signed_in).1.1
  = AuthProvider.ok (Some (DemoAuth.demo_user 1762128000000))
  ∧ AuthProvider.demo
      (AuthProvider.updateProfile
         (ExamplesX.welcoming (AuthProvider.Resolved tt))
         AuthExamples.jean ExamplesX.demo_signed_in).1.2
    = AuthProvider.demo ExamplesX.demo_signed_in.
Proof.
  apply (demo_updateProfile_drops_updates
           (ExamplesX.welcoming (AuthProvider.Resolved tt))
           AuthExamples.jean ExamplesX.demo_signed_in
           (DemoAuth.demo_user 1762128000000));
    reflexivity.
Defined.

(** *** The components that call the API *)

Section BannerFacts.
Import PremiumStatus PremiumBanner.

(** A reply of the premium-status handler whose [is_premium] is truthy
    is the status reply of a user stored as premium and not expired. *)
Lemma handler_says_premium req e st reply st' :
  handler req e st = (Val reply, st') →
  json_truthy (field "is_premium" (doc reply)) = true →
  ∃ userId row,
    query req !! "userId" = Some userId
    ∧ filter (λ r, u_id r = userId) (tbl_user st) = [row]
    ∧ is_premium row = Some true
    ∧ (∀ t, premium_expires_at row = Some t → (clock e <= t)%Z)
    ∧ reply = status_reply userId (premium_expires_at row) (clock e) true.
Proof.
  unfold handler.
  destruct (negb _); [by intros [= <- _]|].
  unfold try_catch.
  destruct (required (query req !! "userId")) as [userId|] eqn:Hu;
    [|by intros [= <- _]].
  apply required_Some in Hu as [Hu _].
  unfold mbind at 1, M_bind at 1. unfold user_by_id, query_.
  destruct (faults e (UserSelectById userId)) as [|err|x].
  - cbn [tbl_user log].
    destruct (filter _ (tbl_user st)) as [|row [|row' rows]] eqn:Hrow;
      cbn [single error data answer failed PGRST116 code String.eqb];
      try (by run_M; intros [= <- _]).
    cbn [mbind option_bind].
    destruct (is_premium row) as [[]|] eqn:Hp; cbn [default from_option];
      unfold id; try (by run_M; intros [= <- _]).
    destruct (premium_expires_at row) as [t|] eqn:Ht.
    + run_M. destruct (Z.gtb_spec (clock e) t) as [Hgt|Hle].
      * destruct (user_update _ _ _ _) as [[r2|x] st2]; cbn beta iota zeta;
          intros [= <- _]; try destruct (exn_message x); cbn; discriminate.
      * intros [= <- _] _. exists userId, row. rewrite Ht.
        repeat split; try done.
        intros t' [= <-]. done.
    + run_M. intros [= <- _] _. exists userId, row. rewrite Ht.
      repeat split; try done.
  - cbn [error failed]. destruct (String.eqb _ _); run_M; by intros [= <- _].
  - run_M. intros [= <- _]. destruct (exn_message x); cbn; discriminate.
Qed.

End BannerFacts.

(** X29. The banner [Utilisateur Premium] is shown, once the component has
    the reply of the premium-status handler, only to a user whom the
    directory holds as premium with an expiry date that is absent or not
    yet passed at the server's clock.  The date on the banner is made of
    that expiry date, and of [null] when there is none. *)
Theorem banner_only_for_stored_premium req e st reply st' user_id :
  PremiumStatus.handler req e st = (Val reply, st') →
  PremiumBanner.after_fetch user_id reply ≠ PremiumBanner.Hidden →
  ∃ userId row,
    query req !! "userId" = Some userId
    ∧ filter (λ r, u_id r = userId) (tbl_user st) = [row]
    ∧ is_premium row = Some true
    ∧ (∀ t, premium_expires_at row = Some t → (clock e <= t)%Z)
    ∧ PremiumBanner.after_fetch user_id reply
      = PremiumBanner.PremiumUntil
          (Some (PremiumStatus.jexpiry (premium_expires_at row))).
Proof.
  intros Hrun Hshown.
  unfold PremiumBanner.after_fetch, PremiumBanner.render in *.
  destruct (negb (truthy user_id) || false); [done|].
  cbn [mbind option_bind] in *.
  destruct (PremiumBanner.json_truthy _) eqn:Htrue; [|done].
  destruct (handler_says_premium _ _ _ _ _ Hrun Htrue)
    as (userId & row & Hu & Hrow & Hp & Ht & ->).
  exists userId, row. by repeat split.
Qed.

Lemma banner_only_for_stored_premium_witness :
  ∃ userId row,
    query (Examples.GET [("userId", "u3")]) !! "userId" = Some userId
    ∧ filter (λ r, u_id r = userId) (tbl_user Examples.directory) = [row]
    ∧ is_premium row = Some true
    ∧ (∀ t, premium_expires_at row = Some t → (Examples.today <= t)%Z)
    ∧ PremiumBanner.after_fetch (Some "u3")
        (PremiumStatus.status_reply "u3"
           (Some (Examples.today + msPerDay)%Z) Examples.today true)
      = PremiumBanner.PremiumUntil
          (Some (PremiumStatus.jexpiry (premium_expires_at row))).
Proof.
  apply (banner_only_for_stored_premium (Examples.GET [("userId", "u3")])
           (Examples.server Examples.quiet) Examples.directory
           (PremiumStatus.status_reply "u3"
              (Some (Examples.today + msPerDay)%Z) Examples.today true)
           (log (UserSelectById "u3") Examples.directory) (Some "u3")).
  - vm_compute. reflexivity.
  - vm_compute. discriminate.
Defined.

(** X30. When the list that the FavorisManager shows is the user's current
    list, a click that sends a request sends one that the API accepts, if
    the database does: the user has fewer than three favourites and none
    of them has the name of the city up to case, so that by way of the
    component a user's favourites stay three at most and distinct, which
    the API alone does not ensure. *)
Theorem manager_click_is_accepted toLowerCase user_id isLoading villeActuelle
    favoris req e st :
  FavorisManager.click toLowerCase user_id isLoading villeActuelle favoris
  = Some req →
  (∀ userId, user_id = Some userId →
             favoris ≡ₚ favorie_of userId (tbl_favorie st)) →
  faults e FavorieProbe = Proceed →
  (∀ userId, faults e (FavorieCount userId) = Proceed) →
  (∀ userId ville, faults e (FavorieInsert userId ville) = Proceed) →
  ∃ userId ville,
    user_id = Some userId ∧ villeActuelle = Some ville
    ∧ (length (favorie_of userId (tbl_favorie st)) < 3)%nat
    ∧ (∀ f, f ∈ favorie_of userId (tbl_favorie st) →
            toLowerCase (f_ville f) ≠ toLowerCase ville)
    ∧ let row := {| f_id := fresh_row e; f_user_id := Some userId;
                    f_ville := ville; f_created_at := clock e |} in
      FavorisApi.handler req e st
      = (Val (FavorisApi.created_reply (Some row)),
         with_favorie (tbl_favorie st ++ [row])
           (log (FavorieInsert (Some userId) ville)
              (log (FavorieCount userId) (log FavorieProbe st)))).
Proof.
  intros Hclick Hshown Hprobe Hcount Hinsert.
  unfold FavorisManager.click, FavorisManager.disabled in Hclick.
  destruct isLoading; [done|]. cbn [orb] in Hclick.
  destruct (truthy villeActuelle) eqn:Hville; [|done]. cbn [negb orb] in Hclick.
  destruct (FavorisManager.villeEstEnFavori _ _ _) eqn:Hdup; [done|].
  cbn [orb] in Hclick.
  destruct (Nat.leb_spec 3 (length favoris)) as [|Hroom]; [done|].
  unfold FavorisManager.ajouterFavori in Hclick.
  destruct (required user_id) as [userId|] eqn:Hu; [|done].
  destruct (required villeActuelle) as [ville|] eqn:Hv; [|done].
  injection Hclick as <-.
  pose proof (required_Some _ _ Hu) as [-> HuserId].
  pose proof (required_Some _ _ Hv) as [-> Hnonempty].
  specialize (Hshown userId eq_refl).
  exists userId, ville. split; [done|]. split; [done|].
  assert (Hlen : (length (favorie_of userId (tbl_favorie st)) < 3)%nat)
    by (by rewrite <- Hshown).
  split; [done|]. split.
  - intros f Hf Hcase. rewrite <- Hshown in Hf.
    assert (FavorisManager.villeEstEnFavori toLowerCase favoris (Some ville)
            = true) as Htrue; [|congruence].
    apply existsb_exists. exists f. split.
    + by apply list_elem_of_In.
    + by apply String.eqb_eq.
  - intros row.
    set (req := {| method := "POST" |}).
    assert (Hbody_u : required (body req !! "userId") = Some userId).
    { subst req. cbn [body]. rewrite lookup_insert_eq. by apply required_intro. }
    assert (Hbody_v : required (body req !! "ville") = Some ville).
    { subst req. cbn [body].
      rewrite lookup_insert_ne by done. rewrite lookup_insert_eq.
      by apply required_intro. }
    rewrite (handler_below_limit e st req ville eq_refl Hbody_v Hprobe
               userId Hbody_u (Hcount userId) Hlen).
    rewrite insert_favori_created by (rewrite Hbody_u; apply Hinsert).
    by rewrite Hbody_u.
Qed.

Lemma manager_click_is_accepted_witness :
  ∃ userId ville,
    Some "b" = Some userId ∧ Some "Lyon" = Some ville
    ∧ (length (favorie_of userId (tbl_favorie Examples.favourites)) < 3)%nat
    ∧ (∀ f, f ∈ favorie_of userId (tbl_favorie Examples.favourites) →
            FavorisService.asciiLowerCase (f_ville f)
            ≠ FavorisService.asciiLowerCase ville)
    ∧ let row := {| f_id := "f-4"; f_user_id := Some userId;
                    f_ville := ville; f_created_at := Examples.today |} in
      FavorisApi.handler (Examples.POST [("userId", "b"); ("ville", "Lyon")])
        (Examples.server Examples.quiet) Examples.favourites
      = (Val (FavorisApi.created_reply (Some row)),
         with_favorie (tbl_favorie Examples.favourites ++ [row])
           (log (FavorieInsert (Some userId) ville)
              (log (FavorieCount userId)
                 (log FavorieProbe Examples.favourites)))).
Proof.
  apply (manager_click_is_accepted FavorisService.asciiLowerCase
           (Some "b") false (Some "Lyon")
           (favorie_of "b" (tbl_favorie Examples.favourites))
           (Examples.POST [("userId", "b"); ("ville", "Lyon")])
           (Examples.server Examples.quiet) Examples.favourites).
  - vm_compute. reflexivity.
  - intros userId [= <-]. reflexivity.
  - reflexivity.
  - reflexivity.
  - reflexivity.
Defined.
